(** * AI-FinancePilot: the analytics core, embedded and verified

    The development follows the Python sources file by file:
    [expense_categorizer.py], [financial_health.py],
    [predictive_analytics.py], [smart_alerts.py], [goal_tracker.py] and
    [financial_calendar.py], and then the pure parts of
    [data_processor.py], [utils.py] and [conversation_handler.py].

    Conventions of the embedding.
    - Amounts are exact rationals ([Q]); the code computes in float64,
      and the exact values are what it returns up to rounding.  Where
      pandas or numpy can hand back a value that is not a number (the
      mean of an empty series, a division by zero) the value lives in
      [fnum], rationals extended with [NaN] and the two infinities.  A
      division between Python numbers raises on a zero divisor instead.
    - Descriptions are strings of bytes, lowered and stripped on the
      ASCII range; a file name is a list of Unicode code points.
    - A standard deviation is the square root of a variance.  The code
      only ever compares a quotient involving it with a constant, so the
      comparison is decided on the squares (see [Stats]).
    - [datetime.now()] is an explicit argument [now].
    - Formatted message strings (f-strings with [:.2f]) are left out of
      the records; every other field is kept. *)

From Stdlib Require Import Reals Qreals.
From Stdlib Require Import ZArith QArith Qabs List String Ascii Bool Lia Psatz.
From Stdlib Require Import Sorting.Sorted Permutation.
Import ListNotations.

Local Open Scope Q_scope.

(* ================================================================= *)
(** ** Numbers *)

Module Num.

(** Strict order on rationals as a boolean. *)
Definition Qltb (a b : Q) : bool :=
  (Qnum a * QDen b <? Qnum b * QDen a)%Z.

(** A float as the code sees it: a rational, or one of the three
    special values of IEEE-754 arithmetic. *)
Inductive fnum : Type :=
| Fin (q : Q)
| NaN
| PInf
| NInf.

Definition is_finite (x : fnum) : bool :=
  match x with Fin _ => true | _ => false end.

Definition fneg (x : fnum) : fnum :=
  match x with
  | Fin a => Fin (- a)
  | NaN => NaN
  | PInf => NInf
  | NInf => PInf
  end.

Definition fabs (x : fnum) : fnum :=
  match x with
  | Fin a => Fin (Qabs a)
  | NaN => NaN
  | PInf | NInf => PInf
  end.

Definition fadd (x y : fnum) : fnum :=
  match x, y with
  | NaN, _ | _, NaN => NaN
  | Fin a, Fin b => Fin (a + b)
  | PInf, NInf | NInf, PInf => NaN
  | PInf, _ | _, PInf => PInf
  | NInf, _ | _, NInf => NInf
  end.

Definition fsub (x y : fnum) : fnum := fadd x (fneg y).

(** An infinity of the sign of [a] times the sign [pos]; [0 * inf] is
    not a number. *)
Definition inf_by (pos : bool) (a : Q) : fnum :=
  if Qeq_bool a 0 then NaN
  else if Bool.eqb pos (Qltb 0 a) then PInf else NInf.

Definition fmul (x y : fnum) : fnum :=
  match x, y with
  | NaN, _ | _, NaN => NaN
  | Fin a, Fin b => Fin (a * b)
  | Fin a, PInf | PInf, Fin a => inf_by true a
  | Fin a, NInf | NInf, Fin a => inf_by false a
  | PInf, PInf | NInf, NInf => PInf
  | PInf, NInf | NInf, PInf => NInf
  end.

(** Division as numpy's float64 performs it: a zero divisor gives an
    infinity (or [NaN] for 0/0) instead of an exception. *)
Definition fdiv (x y : fnum) : fnum :=
  match x, y with
  | NaN, _ | _, NaN => NaN
  | Fin a, Fin b =>
      if Qeq_bool b 0 then
        (if Qeq_bool a 0 then NaN else if Qltb 0 a then PInf else NInf)
      else Fin (a / b)
  | Fin _, (PInf | NInf) => Fin 0
  | PInf, Fin b => if Qltb b 0 then NInf else PInf
  | NInf, Fin b => if Qltb b 0 then PInf else NInf
  | (PInf | NInf), (PInf | NInf) => NaN
  end.

(** Comparisons: every comparison with [NaN] is false. *)
Definition fltb (x y : fnum) : bool :=
  match x, y with
  | NaN, _ | _, NaN => false
  | Fin a, Fin b => Qltb a b
  | NInf, (Fin _ | PInf) => true
  | Fin _, PInf => true
  | _, _ => false
  end.

Definition fleb (x y : fnum) : bool :=
  match x, y with
  | NaN, _ | _, NaN => false
  | Fin a, Fin b => Qle_bool a b
  | NInf, _ => true
  | _, PInf => true
  | _, _ => false
  end.

Definition fgtb (x y : fnum) : bool := fltb y x.
Definition fgeb (x y : fnum) : bool := fleb y x.

Definition feqb (x y : fnum) : bool :=
  match x, y with
  | Fin a, Fin b => Qeq_bool a b
  | PInf, PInf | NInf, NInf => true
  | _, _ => false
  end.

(** Python's [max(a, b)] and [min(a, b)]: the first argument is kept
    unless the second is strictly greater (smaller). *)
Definition pymax (a b : fnum) : fnum := if fgtb b a then b else a.
Definition pymin (a b : fnum) : fnum := if fltb b a then b else a.

Definition Qpymax (a b : Q) : Q := if Qltb a b then b else a.
Definition Qpymin (a b : Q) : Q := if Qltb b a then b else a.

End Num.
Import Num.


(* ================================================================= *)
(** ** Strings *)

(** Descriptions are modelled by byte strings; [lower] and [strip] act
    on the ASCII range, which is where every keyword of the code lives.
    On a string of ASCII characters they are Python's [str.lower()] and
    [str.strip()].  Beyond ASCII Python lowers and strips Unicode
    characters as well (the Kelvin sign lowers to the letter k), which
    the functions here do not: what is proved about the labels of
    descriptions is stated for the strings that [isascii] accepts. *)
Module Text.

(** [str.isascii()] *)
Fixpoint isascii (s : string) : bool :=
  match s with
  | EmptyString => true
  | String c s' => (nat_of_ascii c <? 128)%nat && isascii s'
  end.

Definition lower_ascii (c : ascii) : ascii :=
  let n := nat_of_ascii c in
  if ((65 <=? n) && (n <=? 90))%nat then ascii_of_nat (n + 32) else c.

(** [str.lower()], on ASCII strings *)
Fixpoint lower (s : string) : string :=
  match s with
  | EmptyString => EmptyString
  | String c s' => String (lower_ascii c) (lower s')
  end.

(** [str.isspace()] on one ASCII character: tab, line feed, vertical
    tab, form feed, carriage return, the four separators and space. *)
Definition isspace (c : ascii) : bool :=
  let n := nat_of_ascii c in
  (((9 <=? n) && (n <=? 13)) || ((28 <=? n) && (n <=? 32)))%nat.

Fixpoint lstrip (s : string) : string :=
  match s with
  | EmptyString => EmptyString
  | String c s' => if isspace c then lstrip s' else s
  end.

Fixpoint rstrip (s : string) : string :=
  match s with
  | EmptyString => EmptyString
  | String c s' =>
      match rstrip s' with
      | EmptyString => if isspace c then EmptyString else String c EmptyString
      | r => String c r
      end
  end.

(** [str.strip()], on ASCII strings *)
Definition strip (s : string) : string := rstrip (lstrip s).

(** [kw in s]: [kw] occurs somewhere in [s]. *)
Fixpoint contains (kw s : string) : bool :=
  if prefix kw s then true
  else match s with
       | EmptyString => false
       | String _ s' => contains kw s'
       end.

(** No character of the keyword is white space. *)
Fixpoint solid (kw : string) : bool :=
  match kw with
  | EmptyString => true
  | String c kw' => negb (isspace c) && solid kw'
  end.

(** [any(kw in s for kw in kws)] *)
Definition any_in (kws : list string) (s : string) : bool :=
  existsb (fun kw => contains kw s) kws.

End Text.
Import Text.

(* ================================================================= *)
(** ** Calendar dates *)

Module Dates.

Local Open Scope Z_scope.

Record date : Type := mkdate { year : Z; month : Z; day : Z }.

Definition is_leap (y : Z) : bool :=
  (y mod 4 =? 0) && (negb (y mod 100 =? 0) || (y mod 400 =? 0)).

Definition days_in_month (y m : Z) : Z :=
  if m =? 2 then (if is_leap y then 29 else 28)
  else if (m =? 4) || (m =? 6) || (m =? 9) || (m =? 11) then 30
  else 31.

Definition days_before_year (y : Z) : Z :=
  let p := y - 1 in p * 365 + p / 4 - p / 100 + p / 400.

Definition days_before_month (y m : Z) : Z :=
  fold_right Z.add 0
    (map (fun k => days_in_month y (Z.of_nat k)) (seq 1 (Z.to_nat (m - 1)))).

(** [date.toordinal()]: 1 for 0001-01-01. *)
Definition toordinal (d : date) : Z :=
  days_before_year (year d) + days_before_month (year d) (month d) + day d.

(** [date.weekday()]: Monday is 0, Sunday is 6. *)
Definition weekday (d : date) : Z := (toordinal d + 6) mod 7.

Definition day_names : list string :=
  ["Monday"; "Tuesday"; "Wednesday"; "Thursday"; "Friday"; "Saturday";
   "Sunday"]%string.

(** [dt.day_name()] *)
Definition day_name (d : date) : string :=
  nth (Z.to_nat (weekday d)) day_names EmptyString.

(** The [month_year] column, [dt.to_period('M')]: the months are
    numbered consecutively, so that periods compare as pandas orders
    them and [p + i] is the period [i] months later. *)
Definition month_year (d : date) : Z := year d * 12 + (month d - 1).

(** [(later - earlier).days] for two dates. *)
Definition days_between (later earlier : date) : Z :=
  toordinal later - toordinal earlier.

End Dates.
Import Dates.

(* ================================================================= *)
(** ** The transaction table *)

(** One row of the cleaned table of [data_processor.py].  The derived
    columns ([month_year], the day of the week, ...) are functions of the
    date, as [_add_derived_columns] computes them. *)
Record txn : Type := mktxn {
  tdate : date;
  description : string;
  amount : Q;
  category : string
}.

(** A [DataFrame]: its rows, whether it has the optional [category]
    column, and the [is_weekend] column once
    [_identify_spending_patterns] has added it. *)
Record frame : Type := mkframe {
  has_category : bool;
  is_weekend : option (list bool);
  rows : list txn
}.

(** [df[df['amount'] < 0]] and [df[df['amount'] > 0]] *)
Definition debits (l : list txn) : list txn :=
  filter (fun r => Qltb (amount r) 0) l.

Definition credits (l : list txn) : list txn :=
  filter (fun r => Qltb 0 (amount r)) l.

(** [groupby]: the groups in increasing key order, each with its values
    in row order. *)
Section GroupBy.

Context {K V : Type} (cmp : K -> K -> comparison).

Fixpoint insert_group (k : K) (v : V) (acc : list (K * list V))
  : list (K * list V) :=
  match acc with
  | [] => [(k, [v])]
  | (k', vs) :: rest =>
      match cmp k k' with
      | Lt => (k, [v]) :: acc
      | Eq => (k', vs ++ [v]) :: rest
      | Gt => (k', vs) :: insert_group k v rest
      end
  end.

Definition groupby (l : list (K * V)) : list (K * list V) :=
  fold_left (fun acc kv => insert_group (fst kv) (snd kv) acc) l [].

(** [key in series] and [series[key]] *)
Fixpoint lookup {W : Type} (k : K) (l : list (K * W)) : option W :=
  match l with
  | [] => None
  | (k', w) :: rest =>
      match cmp k k' with Eq => Some w | _ => lookup k rest end
  end.

End GroupBy.

(* ================================================================= *)
(** ** Series statistics *)

Module Stats.

Definition Qsum (l : list Q) : Q := fold_right Qplus 0 l.

Definition Qlen {A : Type} (l : list A) : Q := inject_Z (Z.of_nat (List.length l)).

(** The mean of a non-empty series. *)
Definition Qmean (l : list Q) : Q := Qsum l / Qlen l.

(** [Series.mean()]: not a number on an empty series. *)
Definition mean (l : list Q) : fnum :=
  match l with [] => NaN | _ => Fin (Qmean l) end.

(** The sample variance (pandas' default, [ddof = 1]) of a series of at
    least two values; [Series.std()] is its square root. *)
Definition variance (l : list Q) : Q :=
  Qsum (map (fun x => (x - Qmean l) * (x - Qmean l)) l) / (Qlen l - 1).

(** [sqrt v / m <= c] and [sqrt v / m < c], for [v >= 0] and [c >= 0].
    A zero [m] makes the quotient infinite or undefined, and neither
    compares below [c]; a negative [m] makes it non-positive. *)
Definition root_over_le (v m c : Q) : bool :=
  if Qeq_bool m 0 then false
  else if Qltb m 0 then true
  else Qle_bool v ((c * m) * (c * m)).

Definition root_over_lt (v m c : Q) : bool :=
  if Qeq_bool m 0 then false
  else if Qltb m 0 then Qltb 0 c || negb (Qeq_bool v 0)
  else Qltb v ((c * m) * (c * m)).

(** [abs(d) / sqrt v > t] for [v > 0] and [t >= 0]. *)
Definition abs_over_root_gt (d v t : Q) : bool :=
  Qltb (t * t * v) (d * d).

(** [d / sqrt v > t] for [v > 0] and [t >= 0]. *)
Definition over_root_gt (d v t : Q) : bool :=
  Qltb 0 d && Qltb (t * t * v) (d * d).

(** [sqrt v < c] for [v >= 0] and [c > 0]. *)
Definition root_lt (v c : Q) : bool := Qltb v (c * c).

(** [np.polyfit(range(n), ys, 1)]: the least-squares line through the
    points [(0, y0), ..., (n-1, y(n-1))], as (slope, intercept).  This
    is the exact line; numpy returns it up to float64 rounding, so that
    a slope which is exactly zero here, that of a flat history, comes
    back there as a residue of either sign. *)
Definition indices (n : nat) : list Q :=
  map (fun k => inject_Z (Z.of_nat k)) (seq 0 n).

Definition polyfit1 (ys : list Q) : Q * Q :=
  let xs := indices (List.length ys) in
  let n := Qlen ys in
  let sx := Qsum xs in
  let sy := Qsum ys in
  let sxx := Qsum (map (fun x => x * x) xs) in
  let sxy := Qsum (map (fun p => fst p * snd p) (combine xs ys)) in
  let slope := (n * sxy - sx * sy) / (n * sxx - sx * sx) in
  (slope, (sy - slope * sx) / n).

End Stats.
Import Stats.

(* ================================================================= *)
(** ** Python results, sorting and the shared monthly aggregates *)

(** The exceptions the modelled code can raise. *)
Inductive exn : Type :=
| ValueError
| IndexError
| IllegalMonthError
| ZeroDivisionError.

(** What a call does: it returns a value or it raises. *)
Inductive result (A : Type) : Type :=
| Ok (a : A)
| Raise (e : exn).

Arguments Ok {A} a.
Arguments Raise {A} e.

Definition returns {A : Type} (r : result A) : bool :=
  match r with Ok _ => true | Raise _ => false end.

(** [list.sort(key=..., reverse=True)]: a stable sort in decreasing key
    order; [gt a b] says that the key of [a] is strictly greater than
    the key of [b].  Elements with equal keys keep their order. *)
Section SortDesc.

Context {A : Type} (gt : A -> A -> bool).

Fixpoint insert_desc (x : A) (l : list A) : list A :=
  match l with
  | [] => [x]
  | y :: ys => if gt y x then y :: insert_desc x ys else x :: l
  end.

Definition sort_desc (l : list A) : list A :=
  fold_right insert_desc [] l.

End SortDesc.

(** [df.groupby('month_year')['amount']]: the amounts of each month. *)
Definition by_month (l : list txn) : list (Z * list Q) :=
  groupby Z.compare (map (fun r => (month_year (tdate r), amount r)) l).

(** [df[df['amount'] < 0].groupby('month_year')['amount'].sum()] *)
Definition monthly_debit_sums (l : list txn) : list (Z * Q) :=
  map (fun g => (fst g, Qsum (snd g))) (by_month (debits l)).

(** [... .sum().abs()]: the monthly expense series. *)
Definition monthly_expense_series (l : list txn) : list (Z * Q) :=
  map (fun g => (fst g, Qabs (snd g))) (monthly_debit_sums l).

(** [df[df['amount'] > 0].groupby('month_year')['amount'].sum()] *)
Definition monthly_income_series (l : list txn) : list (Z * Q) :=
  map (fun g => (fst g, Qsum (snd g))) (by_month (credits l)).

(** [df[df['amount'] < 0].groupby('category')['amount'].sum().abs()] *)
Definition category_spending (l : list txn) : list (string * Q) :=
  map (fun g => (fst g, Qabs (Qsum (snd g))))
      (groupby String.compare
         (map (fun r => (category r, amount r)) (debits l))).

(** The monthly expense series of one category:
    [df[(df['category'] == c) & (df['amount'] < 0)]] grouped by month. *)
Definition monthly_category (l : list txn) (c : string) : list (Z * Q) :=
  monthly_expense_series (filter (fun r => String.eqb (category r) c) l).

(** [len(df['month_year'].unique())] *)
Definition month_count (l : list txn) : nat :=
  List.length (nodup Z.eq_dec (map (fun r => month_year (tdate r)) l)).

(* ================================================================= *)
(** ** expense_categorizer.py *)

Module ExpenseCategorizer.

Local Open Scope string_scope.

Definition categories : list string :=
  ["Food & Dining"; "Transportation"; "Shopping"; "Bills & Utilities";
   "Entertainment"; "Health & Medical"; "Travel"; "Education";
   "Insurance"; "Investment"; "Income"; "Transfer"; "Other"].

(** The dictionary in insertion order, which is the order in which
    [.items()] walks it. *)
Definition keyword_mappings : list (string * list string) :=
  [ ("Food & Dining",
     ["restaurant"; "cafe"; "food"; "dining"; "pizza"; "burger";
      "starbucks"; "mcdonald"; "subway"; "grocery"; "market";
      "supermarket"; "uber eats"; "doordash"; "grubhub"; "delivery";
      "takeout"]);
    ("Transportation",
     ["gas"; "fuel"; "uber"; "lyft"; "taxi"; "bus"; "train"; "metro";
      "parking"; "toll"; "car"; "vehicle"; "auto"; "mechanic"; "tire"]);
    ("Shopping",
     ["amazon"; "walmart"; "target"; "mall"; "store"; "retail";
      "clothing"; "shoes"; "electronics"; "books"; "home depot";
      "lowes"]);
    ("Bills & Utilities",
     ["electric"; "electricity"; "gas bill"; "water"; "internet";
      "phone"; "cable"; "subscription"; "netflix"; "spotify"; "utility";
      "bill"]);
    ("Entertainment",
     ["movie"; "cinema"; "theater"; "concert"; "game"; "sport"; "gym";
      "fitness"; "netflix"; "spotify"; "entertainment"; "club"; "bar"]);
    ("Health & Medical",
     ["doctor"; "hospital"; "pharmacy"; "medical"; "health"; "dental";
      "vision"; "clinic"; "prescription"; "medicine"; "cvs";
      "walgreens"]);
    ("Travel",
     ["airline"; "flight"; "hotel"; "airbnb"; "rental car"; "vacation";
      "travel"; "booking"; "expedia"; "trip"; "resort"]);
    ("Education",
     ["school"; "university"; "college"; "tuition"; "education"; "book";
      "course"; "training"; "certification"]);
    ("Insurance",
     ["insurance"; "premium"; "policy"; "coverage"; "deductible"]);
    ("Investment",
     ["investment"; "stock"; "bond"; "mutual fund"; "401k"; "ira";
      "retirement"; "savings"; "dividend"; "brokerage"]);
    ("Income",
     ["salary"; "payroll"; "wage"; "bonus"; "refund"; "cashback";
      "deposit"; "payment received"; "income"]);
    ("Transfer",
     ["transfer"; "atm"; "withdrawal"; "deposit"; "check"; "wire";
      "payment to"; "send money"]) ].

Definition income_keywords : list string :=
  ["salary"; "payroll"; "deposit"; "refund"; "cashback"; "dividend"].

(** The keywords of the categories the loop tries before
    ["Bills & Utilities"]: Food & Dining, Transportation and Shopping. *)
Definition checked_before_bills : list string :=
  flat_map snd (firstn 3 keyword_mappings).

(** The loop over [keyword_mappings.items()]: the first category with a
    keyword occurring in the description, ["Other"] when there is none. *)
Fixpoint first_match (d : string) (m : list (string * list string))
  : string :=
  match m with
  | [] => "Other"
  | (cat, kws) :: rest => if any_in kws d then cat else first_match d rest
  end.

Definition _categorize_by_keywords (description : string) (amount : Q)
  : string :=
  let description_lower := lower description in
  if Qltb 0 amount && any_in income_keywords description_lower
  then "Income"
  else first_match description_lower keyword_mappings.

(** [self.classifier] is [None] (set by [_initialize_classifier]), so
    the transformer branch is never taken. *)
Definition _categorize_single_transaction (description : string)
  (amount : Q) : string :=
  let description := strip (lower description) in
  let keyword_category := _categorize_by_keywords description amount in
  if negb (keyword_category =? "Other") then keyword_category
  else "Other".

(** The loop of [categorize_transactions] over the rows of the copy. *)
Definition categorize_rows (l : list txn) : list txn :=
  map (fun r =>
         mktxn (tdate r) (description r) (amount r)
               (_categorize_single_transaction (description r) (amount r)))
      l.

End ExpenseCategorizer.

(* ================================================================= *)
(** ** financial_health.py *)

Module FinancialHealthAnalyzer.

Local Open Scope string_scope.

Definition score_weights : list (string * Q) :=
  [ ("savings_rate", 0.25); ("spending_consistency", 0.20);
    ("category_balance", 0.15); ("debt_management", 0.15);
    ("income_stability", 0.15); ("emergency_fund", 0.10) ].

(** The per-month savings rates of [_calculate_savings_rate_score]:
    one for every month with a positive income. *)
Definition savings_rates (l : list txn) : list Q :=
  flat_map
    (fun g =>
       let income := Qsum (filter (Qltb 0) (snd g)) in
       let expenses := Qabs (Qsum (filter (fun x => Qltb x 0) (snd g))) in
       if Qltb 0 income
       then [Qpymax 0 ((income - expenses) / income * 100)]
       else [])
    (by_month l).

Definition _calculate_savings_rate_score (df : frame) : Q :=
  match savings_rates (rows df) with
  | [] => 50
  | rates =>
      let avg_savings_rate := Qmean rates in
      if Qle_bool 20 avg_savings_rate then 100
      else if Qle_bool 15 avg_savings_rate then 85
      else if Qle_bool 10 avg_savings_rate then 70
      else if Qle_bool 5 avg_savings_rate then 55
      else if Qle_bool 0 avg_savings_rate then 40
      else 20
  end.

Definition _calculate_consistency_score (df : frame) : Q :=
  let monthly_expenses := map snd (monthly_expense_series (rows df)) in
  if (List.length monthly_expenses <? 2)%nat then 75
  else
    let v := variance monthly_expenses in
    let m := Qmean monthly_expenses in
    if root_over_le v m 0.1 then 100
    else if root_over_le v m 0.2 then 85
    else if root_over_le v m 0.3 then 70
    else if root_over_le v m 0.5 then 55
    else 40.

Definition recommended_ratios : list (string * Q) :=
  [ ("Food & Dining", 0.15); ("Transportation", 0.15);
    ("Bills & Utilities", 0.25); ("Entertainment", 0.05);
    ("Shopping", 0.10); ("Health & Medical", 0.05) ].

(** One turn of the loop over [recommended_ratios.items()]. *)
Definition balance_step (spending : list (string * Q)) (total_expenses : Q)
  (balance_score : Q) (entry : string * Q) : Q :=
  match lookup String.compare (fst entry) spending with
  | Some spent =>
      let actual_ratio := spent / total_expenses in
      let deviation := Qabs (actual_ratio - snd entry) in
      balance_score - Qpymin 30 (deviation * 200)
  | None => balance_score
  end.

Definition _calculate_category_balance_score (df : frame) : Q :=
  if negb (has_category df) then 70
  else
    let spending := category_spending (rows df) in
    let total_expenses := Qsum (map snd spending) in
    if Qeq_bool total_expenses 0 then 70
    else
      Qpymax 40
        (fold_left (balance_step spending total_expenses)
           recommended_ratios 100).

Definition debt_keywords : list string :=
  ["loan"; "credit card"; "mortgage"; "debt"; "interest"].

(** [df[df['description'].str.lower().str.contains('|'.join(kws))]] *)
Definition matching (kws : list string) (l : list txn) : list txn :=
  filter (fun r => any_in kws (lower (description r))) l.

Definition _calculate_debt_management_score (df : frame) : Q :=
  let debt_transactions := matching debt_keywords (rows df) in
  let total_debt_payments :=
    Qabs (Qsum (map amount (debits debt_transactions))) in
  let total_expenses := Qabs (Qsum (map amount (debits (rows df)))) in
  if Qeq_bool total_expenses 0 then 80
  else
    let debt_ratio := total_debt_payments / total_expenses in
    if Qle_bool debt_ratio 0.1 then 100
    else if Qle_bool debt_ratio 0.2 then 85
    else if Qle_bool debt_ratio 0.3 then 70
    else if Qle_bool debt_ratio 0.4 then 55
    else 40.

Definition _calculate_income_stability_score (df : frame) : Q :=
  let income_data := map snd (monthly_income_series (rows df)) in
  if (List.length income_data <? 2)%nat then 75
  else
    let v := variance income_data in
    let m := Qmean income_data in
    if root_over_le v m 0.05 then 100
    else if root_over_le v m 0.1 then 85
    else if root_over_le v m 0.2 then 70
    else if root_over_le v m 0.3 then 55
    else 40.

Definition savings_keywords : list string :=
  ["savings"; "emergency"; "fund"; "investment"].

Definition _calculate_emergency_fund_score (df : frame) : Q :=
  let savings_transactions := matching savings_keywords (rows df) in
  let monthly_expenses :=
    fabs (mean (map snd (monthly_debit_sums (rows df)))) in
  let total_savings := Qsum (map amount (credits savings_transactions)) in
  if feqb monthly_expenses (Fin 0) then 70
  else
    let months_covered := fdiv (Fin total_savings) monthly_expenses in
    if fgeb months_covered (Fin 6) then 100
    else if fgeb months_covered (Fin 3) then 80
    else if fgeb months_covered (Fin 1) then 60
    else if fgeb months_covered (Fin 0.5) then 40
    else 20.

Definition _get_grade (score : Q) : string :=
  if Qle_bool 90 score then "A+"
  else if Qle_bool 85 score then "A"
  else if Qle_bool 80 score then "B+"
  else if Qle_bool 75 score then "B"
  else if Qle_bool 70 score then "C+"
  else if Qle_bool 65 score then "C"
  else if Qle_bool 60 score then "D+"
  else if Qle_bool 55 score then "D"
  else "F".

(** The insights, without their wording. *)
Inductive insight : Type :=
| Strongest (component : string) (score : Q)
| Weakest (component : string) (score : Q)
| LargestExpense (cat : string)
| SpendingTrend (direction : string).

(** [Series.idxmax()]: the label of the first largest value; it raises
    [ValueError] on an empty series. *)
Fixpoint idxmax_from (best : string * Q) (l : list (string * Q)) : string :=
  match l with
  | [] => fst best
  | x :: rest =>
      idxmax_from (if Qltb (snd best) (snd x) then x else best) rest
  end.

Definition idxmax (l : list (string * Q)) : result string :=
  match l with
  | [] => Raise ValueError
  | x :: rest => Ok (idxmax_from x rest)
  end.

Definition score_gt (a b : string * Q) : bool := Qltb (snd b) (snd a).

Definition _generate_health_insights (scores : list (string * Q))
  (df : frame) : result (list insight) :=
  let sorted_scores := sort_desc score_gt scores in
  match sorted_scores with
  | [] => Raise IndexError
  | strongest :: _ =>
      let weakest := last sorted_scores strongest in
      let head :=
        [Strongest (fst strongest) (snd strongest);
         Weakest (fst weakest) (snd weakest)] in
      let monthly_spending := map snd (monthly_expense_series (rows df)) in
      let trend :=
        match monthly_spending with
        | first :: _ :: _ =>
            [SpendingTrend
               (if Qltb first (last monthly_spending first)
                then "increasing" else "decreasing")]
        | _ => []
        end in
      if has_category df then
        match idxmax (category_spending (rows df)) with
        | Raise e => Raise e
        | Ok top_expense => Ok (head ++ [LargestExpense top_expense] ++ trend)%list
        end
      else Ok (head ++ trend)%list
  end.

(** The tips, without their wording: the component each tip is about,
    or the congratulation when no component scores below 70. *)
Inductive tip : Type :=
| Advice (component : string)
| AllGood.

Definition known_components : list string := map fst score_weights.

Definition _generate_improvement_tips (scores : list (string * Q))
  : list tip :=
  let tips :=
    flat_map
      (fun s =>
         if Qltb (snd s) 70 && existsb (String.eqb (fst s)) known_components
         then [Advice (fst s)] else [])
      scores in
  match tips with [] => [AllGood] | _ => tips end.

(** [round(x, 1)]: to the nearest tenth, a tie going to the even one. *)
Definition round1 (x : Q) : Q :=
  let n := (Qnum x * 10)%Z in
  let d := QDen x in
  let q := (n / d)%Z in
  let r := (n mod d)%Z in
  let up :=
    match (2 * r ?= d)%Z with
    | Lt => false
    | Gt => true
    | Eq => Z.odd q
    end in
  inject_Z (if up then q + 1 else q) / 10.

Record health : Type := mkhealth {
  total_score : Q;
  component_scores : list (string * Q);
  grade : string;
  insights : list insight;
  improvement_tips : list tip
}.

(** The [scores] dictionary of [calculate_health_score], in insertion
    order. *)
Definition scores_of (df : frame) : list (string * Q) :=
  [ ("savings_rate", _calculate_savings_rate_score df);
    ("spending_consistency", _calculate_consistency_score df);
    ("category_balance", _calculate_category_balance_score df);
    ("debt_management", _calculate_debt_management_score df);
    ("income_stability", _calculate_income_stability_score df);
    ("emergency_fund", _calculate_emergency_fund_score df) ].

Definition weight_of (key : string) : Q :=
  match lookup String.compare key score_weights with
  | Some w => w
  | None => 0
  end.

(** [sum(scores[key] * self.score_weights[key] for key in scores.keys())] *)
Definition weighted_total (scores : list (string * Q)) : Q :=
  Qsum (map (fun s => snd s * weight_of (fst s)) scores).

Definition calculate_health_score (df : frame) : result health :=
  let scores := scores_of df in
  let total := weighted_total scores in
  match _generate_health_insights scores df with
  | Raise e => Raise e
  | Ok ins =>
      Ok (mkhealth (round1 total) scores (_get_grade total) ins
            (_generate_improvement_tips scores))
  end.

End FinancialHealthAnalyzer.

(* ================================================================= *)
(** ** predictive_analytics.py *)

Module PredictiveAnalytics.

Local Open Scope string_scope.

Record prediction : Type := mkprediction {
  predictions : list Q;
  future_months : list Z;
  trend_direction : string;
  monthly_change : Q;
  confidence_level : Q
}.

Definition seasonal_factors : list (Z * Q) :=
  [ (1%Z, 0.9); (2%Z, 0.95); (3%Z, 1.0); (4%Z, 1.05); (5%Z, 1.0);
    (6%Z, 1.1); (7%Z, 1.15); (8%Z, 1.1); (9%Z, 1.0); (10%Z, 1.05);
    (11%Z, 1.2); (12%Z, 1.3) ].

Definition _get_seasonal_factor (now : date) (monthly_data : list (Z * Q))
  (months_ahead : nat) : Q :=
  if (List.length monthly_data <? 12)%nat then 1
  else
    let current_month := month now in
    let future_month :=
      ((current_month + Z.of_nat months_ahead - 1) mod 12 + 1)%Z in
    match lookup Z.compare future_month seasonal_factors with
    | Some f => f
    | None => 1
    end.

Definition _calculate_confidence (historical_data : list Q) : Q :=
  if (List.length historical_data <? 3)%nat then 60
  else
    let v := variance historical_data in
    let mean_value := Qmean historical_data in
    if Qeq_bool mean_value 0 then 50
    else if root_over_lt v mean_value 0.1 then 90
    else if root_over_lt v mean_value 0.2 then 80
    else if root_over_lt v mean_value 0.3 then 70
    else 60.

Definition _default_prediction (months_ahead : nat) : prediction :=
  mkprediction (repeat 0 months_ahead) [] "stable" 0 50.

Definition predict_future_spending (now : date) (df : frame)
  (months_ahead : nat) : prediction :=
  let monthly_data := monthly_expense_series (rows df) in
  if (List.length monthly_data <? 2)%nat
  then _default_prediction months_ahead
  else
    let spending_values := map snd monthly_data in
    let trend_slope := fst (polyfit1 spending_values) in
    let trend_intercept := snd (polyfit1 spending_values) in
    let last_month_idx := Qlen monthly_data in
    let last_date := last (map fst monthly_data) 0%Z in
    mkprediction
      (map (fun i =>
              let future_month_idx :=
                last_month_idx + inject_Z (Z.of_nat i) in
              let predicted_value :=
                trend_slope * future_month_idx + trend_intercept in
              let seasonal_factor :=
                _get_seasonal_factor now monthly_data i in
              Qpymax 0 (predicted_value * seasonal_factor))
           (seq 1 months_ahead))
      (map (fun i => (last_date + Z.of_nat i)%Z) (seq 1 months_ahead))
      (if Qltb 0 trend_slope then "increasing" else "decreasing")
      (Qabs trend_slope)
      (_calculate_confidence spending_values).

(** [df['category'].unique()]: the labels in order of first appearance. *)
Fixpoint unique_from (seen : list string) (l : list string) : list string :=
  match l with
  | [] => []
  | x :: rest =>
      if existsb (String.eqb x) seen then unique_from seen rest
      else x :: unique_from (x :: seen) rest
  end.

Definition unique_categories (l : list txn) : list string :=
  unique_from [] (map category l).

Record category_prediction : Type := mkcategory_prediction {
  predicted_amount : Q;
  trend : string;
  confidence : Q
}.

Definition predict_category_spending (df : frame)
  : list (string * category_prediction) :=
  if negb (has_category df) then []
  else
    flat_map
      (fun c =>
         let series := map snd (monthly_category (rows df) c) in
         if (2 <=? List.length series)%nat then
           let slope := fst (polyfit1 series) in
           let last_value := last series 0 in
           [(c, mkcategory_prediction
                  (Qpymax 0 (last_value + slope))
                  (if Qltb 0 slope then "increasing" else "decreasing")
                  (Qpymin 100
                     (Qpymax 50 (100 - Qabs slope / last_value * 100))))]
         else [])
      (unique_categories (rows df)).

Record anomaly : Type := mkanomaly {
  kind : string;
  subject : option string;
  period : Z;
  spent : Q;
  severity : string
}.

(** [z_score > t] where
    [z_score = abs(amount - mean) / std if std > 0 else 0]. *)
Definition z_gt (series : list Q) (amount t : Q) : bool :=
  let v := variance series in
  if Qltb 0 v then abs_over_root_gt (amount - Qmean series) v t
  else Qltb t 0.

(** The loop over [series.items()] of [detect_spending_anomalies]. *)
Definition anomalies_in (what : string) (who : option string)
  (series : list (Z * Q)) (threshold : Q) : list anomaly :=
  if (3 <=? List.length series)%nat then
    flat_map
      (fun p =>
         if z_gt (map snd series) (snd p) threshold then
           [mkanomaly what who (fst p) (snd p)
              (if z_gt (map snd series) (snd p) 3 then "high" else "medium")]
         else [])
      series
  else [].

Definition detect_spending_anomalies (df : frame) : list anomaly :=
  (anomalies_in "monthly_spending" None
     (monthly_expense_series (rows df)) 2
   ++
   if has_category df then
     flat_map
       (fun c =>
          anomalies_in "category_spending" (Some c)
            (monthly_category (rows df) c) 2.5)
       (unique_categories (rows df))
   else [])%list.

End PredictiveAnalytics.

(* ================================================================= *)
(** ** smart_alerts.py *)

Module SmartAlertsSystem.

Local Open Scope string_scope.

(** An alert: its type, what it is about (a category or a description)
    and its severity. *)
Record alert : Type := mkalert {
  alert_type : string;
  about : option string;
  severity : string
}.

Definition spending_spike_threshold : Q := 1.5.
Definition unusual_transaction_threshold : Q := 2.0.
Definition category_overspend_threshold : Q := 1.3.

(** [df[df['date'].dt.strftime('%Y-%m') == current_month]] *)
Definition current_month_rows (now : date) (l : list txn) : list txn :=
  filter (fun r => ((year (tdate r) =? year now)
                    && (month (tdate r) =? month now))%Z) l.

(** The budgets are a dictionary from category to ceiling, walked in
    insertion order.  The percentage is the exact quotient here; the
    code computes it in float64, so that a spending within rounding
    distance of 80% or 100% of the budget can fall on either side of
    the threshold there. *)
Definition _check_budget_alerts (has_cat : bool) (current_data : list txn)
  (budgets : list (string * Q)) : list alert :=
  if negb has_cat then []
  else
    let current_spending := category_spending current_data in
    flat_map
      (fun b =>
         match lookup String.compare (fst b) current_spending with
         | Some spent =>
             let percentage_used :=
               fmul (fdiv (Fin spent) (Fin (snd b))) (Fin 100) in
             if fgeb percentage_used (Fin 100)
             then [mkalert "budget_exceeded" (Some (fst b)) "high"]
             else if fgeb percentage_used (Fin 80)
             then [mkalert "budget_warning" (Some (fst b)) "medium"]
             else []
         | None => []
         end)
      budgets.

Definition _check_spending_spikes (l current_data : list txn) : list alert :=
  let monthly_spending := map snd (monthly_expense_series l) in
  if (List.length monthly_spending <? 2)%nat then []
  else
    let historical_avg := Qmean (removelast monthly_spending) in
    let current_spending := Qabs (Qsum (map amount (debits current_data))) in
    if Qltb (historical_avg * spending_spike_threshold) current_spending then
      let increase_percentage :=
        (current_spending - historical_avg) / historical_avg * 100 in
      [mkalert "spending_spike" None
         (if Qltb 100 increase_percentage then "high" else "medium")]
    else [].

(** With fewer than two expenses the standard deviation is not a
    number: it is not equal to 0 and no z-score exceeds the threshold. *)
Definition _check_unusual_transactions (l current_data : list txn)
  : list alert :=
  let transaction_sizes := map (fun r => Qabs (amount r)) (debits l) in
  if (List.length transaction_sizes <? 2)%nat then []
  else
    let mean_transaction := Qmean transaction_sizes in
    let v := variance transaction_sizes in
    if Qeq_bool v 0 then []
    else
      flat_map
        (fun r =>
           if over_root_gt (Qabs (amount r) - mean_transaction) v
                unusual_transaction_threshold
           then [mkalert "unusual_transaction" (Some (description r)) "medium"]
           else [])
        (debits current_data).

Definition _check_category_overspending (has_cat : bool)
  (l current_data : list txn) : list alert :=
  if negb has_cat then []
  else
    flat_map
      (fun c =>
         match map snd (monthly_category l (fst c)) with
         | [] => []
         | history =>
             let historical_avg := Qmean history in
             if Qltb (historical_avg * category_overspend_threshold) (snd c)
             then [mkalert "category_overspend" (Some (fst c)) "medium"]
             else []
         end)
      (category_spending current_data).

Definition _check_trend_alerts (l : list txn) : list alert :=
  let monthly_spending := map snd (monthly_expense_series l) in
  if (List.length monthly_spending <? 3)%nat then []
  else
    let trend_slope := fst (polyfit1 monthly_spending) in
    if Qltb (Qmean monthly_spending * 0.1) trend_slope
    then [mkalert "upward_trend" None "medium"]
    else [].

(** The latest of the dates of a group. *)
Definition max_date (first : date) (rest : list date) : date :=
  fold_left (fun best d => if (toordinal best <? toordinal d)%Z then d else best)
            rest first.

Definition _check_recurring_expense_alerts (now : date) (l : list txn)
  : list alert :=
  flat_map
    (fun g =>
       match snd g with
       | [] => []
       | r :: rest =>
           let amounts := map amount (snd g) in
           let last_occurrence := max_date (tdate r) (map tdate rest) in
           let days_since := days_between now last_occurrence in
           if (3 <=? List.length amounts)%nat
              && root_lt (variance amounts) 10
              && (35 <? days_since)%Z
           then [mkalert "missing_recurring" (Some (fst g)) "low"]
           else []
       end)
    (groupby String.compare (map (fun r => (description r, r)) l)).

Definition priority_scores : list (string * Z) :=
  [ ("budget_exceeded", 10); ("spending_spike", 9); ("budget_warning", 8);
    ("unusual_transaction", 7); ("category_overspend", 6);
    ("upward_trend", 5); ("missing_recurring", 3) ]%Z.

Definition _get_alert_priority (alert_type : string) : Z :=
  match lookup String.compare alert_type priority_scores with
  | Some p => p
  | None => 1%Z
  end.

(** [a] may stand before [b] in a list in decreasing priority order. *)
Definition outranks (a b : alert) : Prop :=
  (_get_alert_priority (alert_type b) <= _get_alert_priority (alert_type a))%Z.

Definition priority_gt (a b : alert) : bool :=
  (_get_alert_priority (alert_type b) <? _get_alert_priority (alert_type a))%Z.

(** The six checks in the order in which [generate_alerts] runs them. *)
Definition collect_alerts (now : date) (df : frame)
  (budgets : list (string * Q)) : list alert :=
  let current_month_data := current_month_rows now (rows df) in
  ((match budgets with
    | [] => []
    | _ => _check_budget_alerts (has_category df) current_month_data budgets
    end)
   ++ _check_spending_spikes (rows df) current_month_data
   ++ _check_unusual_transactions (rows df) current_month_data
   ++ _check_category_overspending (has_category df) (rows df)
        current_month_data
   ++ _check_trend_alerts (rows df)
   ++ _check_recurring_expense_alerts now (rows df))%list.

Definition generate_alerts (now : date) (df : frame)
  (budgets : list (string * Q)) : list alert :=
  firstn 10 (sort_desc priority_gt (collect_alerts now df budgets)).

End SmartAlertsSystem.

(* ================================================================= *)
(** ** goal_tracker.py *)

Module GoalTracker.

Local Open Scope string_scope.

Record goal : Type := mkgoal {
  name : string;
  goal_type : string;
  target_amount : Q;
  current_amount : Q;
  target_date : date;
  days_remaining : Z;
  months_remaining : Q;
  monthly_savings_needed : Q;
  progress_percentage : Q;
  status : string;
  created_date : date
}.

Definition _get_goal_status (current target : Q) (days_remaining : Z)
  : string :=
  let progress := if Qltb 0 target then current / target * 100 else 0 in
  if Qle_bool 100 progress then "Completed"
  else if (days_remaining <? 0)%Z then "Overdue"
  else if (days_remaining <? 30)%Z then "Critical"
  else if Qle_bool 75 progress then "On Track"
  else if Qle_bool 50 progress then "Behind"
  else "Far Behind".

(** [today] stands for [date.today()]. *)
Definition create_goal (today : date) (name : string) (target_amount : Q)
  (target_date : date) (goal_type : string) (current_amount : Q) : goal :=
  let days_remaining := days_between target_date today in
  let months_remaining := Qpymax 1 (inject_Z days_remaining / 30.44) in
  let monthly_savings_needed :=
    Qpymax 0 ((target_amount - current_amount) / months_remaining) in
  mkgoal name goal_type target_amount current_amount target_date
    days_remaining months_remaining monthly_savings_needed
    (if Qltb 0 target_amount then current_amount / target_amount * 100 else 0)
    (_get_goal_status current_amount target_amount days_remaining)
    today.

(** [df[df['amount'] > 0].groupby('month_year')['amount'].sum().mean()] *)
Definition mean_monthly_income (l : list txn) : fnum :=
  mean (map snd (monthly_income_series l)).

(** [abs(df[df['amount'] < 0].groupby('month_year')['amount'].sum().mean())] *)
Definition mean_monthly_expenses (l : list txn) : fnum :=
  fabs (mean (map snd (monthly_debit_sums l))).

Record feasibility_report : Type := mkfeasibility {
  feasibility : string;
  current_monthly_savings : fnum;
  required_monthly_savings : fnum;
  monthly_shortage : fnum;
  success_probability : fnum
}.

(** [a / b] in Python.  When [a] is a numpy float64 the division is
    numpy's and a zero divisor gives nan or an infinity; when [a] and
    [b] are Python numbers a zero divisor raises. *)
Definition truediv (python : bool) (a b : fnum) : result fnum :=
  if python && feqb b (Fin 0) then Raise ZeroDivisionError
  else Ok (fdiv a b).

(** The mean of a pandas Series is a numpy float64, except for the mean
    of an empty Series, which is the Python float nan. *)
Definition python_mean (series : list Q) : bool :=
  match series with [] => true | _ :: _ => false end.

(** The goal holds Python numbers.  The income is the Python float nan
    when the table has no income and a numpy float64 otherwise, and
    [current_monthly_savings], its product with the rate, is of the same
    kind: without income the rate is the integer 0.  The division of the
    success probability is the last thing the function evaluates. *)
Definition analyze_goal_feasibility (g : goal) (df : frame)
  : result feasibility_report :=
  let monthly_income := mean_monthly_income (rows df) in
  let monthly_expenses := mean_monthly_expenses (rows df) in
  let current_savings_rate :=
    if fgtb monthly_income (Fin 0)
    then pymax (Fin 0)
           (fdiv (fsub monthly_income monthly_expenses) monthly_income)
    else Fin 0 in
  let current_monthly_savings := fmul monthly_income current_savings_rate in
  let required_monthly_savings := Fin (monthly_savings_needed g) in
  let feasibility :=
    if fgeb current_monthly_savings required_monthly_savings then "Easy"
    else if fgeb current_monthly_savings
              (fmul required_monthly_savings (Fin 0.8)) then "Achievable"
    else if fgeb current_monthly_savings
              (fmul required_monthly_savings (Fin 0.5)) then "Challenging"
    else "Difficult" in
  match truediv (python_mean (map snd (monthly_income_series (rows df))))
          current_monthly_savings required_monthly_savings with
  | Raise e => Raise e
  | Ok ratio =>
      Ok (mkfeasibility feasibility current_monthly_savings
            required_monthly_savings
            (pymax (Fin 0)
               (fsub required_monthly_savings current_monthly_savings))
            (pymin (Fin 100) (pymax (Fin 10) (fmul ratio (Fin 100)))))
  end.

(** [max(0, monthly_income - monthly_expenses)] *)
Definition _calculate_current_savings (df : frame) : fnum :=
  pymax (Fin 0)
    (fsub (mean_monthly_income (rows df)) (mean_monthly_expenses (rows df))).

(** The rational that [_calculate_current_savings] returns (it never
    returns a special value, see [current_savings_finite]). *)
Definition current_savings (df : frame) : Q :=
  match _calculate_current_savings df with
  | Fin q => q
  | _ => 0
  end.

Definition _get_difficulty_score (difficulty : string) : Z :=
  match lookup String.compare difficulty
          [("Easy", 3%Z); ("Medium", 2%Z); ("Hard", 1%Z)] with
  | Some s => s
  | None => 1%Z
  end.

Record strategy : Type := mkstrategy {
  title : string;
  potential_savings : Q;
  difficulty : string;
  target : string
}.

Definition _get_default_strategies (g : goal) : list strategy :=
  [ mkstrategy "Create a Budget" (monthly_savings_needed g * 0.3)
      "Easy" "Planning";
    mkstrategy "Automate Savings" (monthly_savings_needed g)
      "Easy" "Automation";
    mkstrategy "Reduce Discretionary Spending"
      (monthly_savings_needed g * 0.5) "Medium" "Spending" ].

(** [max(1, len(df['month_year'].unique()))] *)
Definition months_divisor (l : list txn) : Q :=
  inject_Z (Z.of_nat (Nat.max 1 (month_count l))).

(** The sort key [(potential_savings, -difficulty_score)], compared as
    Python compares tuples. *)
Definition key_gt (a b : strategy) : bool :=
  Qltb (potential_savings b) (potential_savings a)
  || (Qeq_bool (potential_savings a) (potential_savings b)
      && (- _get_difficulty_score (difficulty b)
          <? - _get_difficulty_score (difficulty a))%Z).

(** [a] may stand before [b] in a list in decreasing order of
    potential savings. *)
Definition saves_at_least (a b : strategy) : Prop :=
  potential_savings b <= potential_savings a.

(** The order the specification asks for: greater savings first and,
    among equal savings, the easier strategy first. *)
Definition easier_first (a b : strategy) : Prop :=
  potential_savings b < potential_savings a
  \/ (potential_savings a == potential_savings b
      /\ (_get_difficulty_score (difficulty b)
          <= _get_difficulty_score (difficulty a))%Z).

Definition discretionary_categories : list string :=
  ["Entertainment"; "Shopping"; "Dining"].

(** The candidate strategies in the order in which they are appended. *)
Definition candidate_strategies (df : frame) (monthly_shortage : Q)
  : list strategy :=
  let spending := category_spending (rows df) in
  let months := months_divisor (rows df) in
  let reduce :=
    flat_map
      (fun c =>
         let monthly_amount := snd c / months in
         let potential_reduction := monthly_amount * 0.15 in
         if Qle_bool (monthly_shortage * 0.3) potential_reduction
         then [mkstrategy ("Reduce " ++ fst c ++ " Spending")
                 potential_reduction "Medium" (fst c)]
         else [])
      (firstn 3 spending) in
  let cut :=
    flat_map
      (fun c =>
         match lookup String.compare c spending with
         | Some spent =>
             let monthly_amount := spent / months in
             let potential_reduction := monthly_amount * 0.25 in
             [mkstrategy ("Cut " ++ c) potential_reduction
                (if Qltb potential_reduction 100 then "Easy" else "Medium")
                c]
         | None => []
         end)
      discretionary_categories in
  let income :=
    [mkstrategy "Increase Income" monthly_shortage "Hard" "Income"] in
  let strategies := (reduce ++ cut ++ income)%list in
  let combination :=
    if (1 <? List.length strategies)%nat then
      let total_potential :=
        Qsum (map potential_savings (firstn 2 strategies)) in
      if Qle_bool monthly_shortage total_potential
      then [mkstrategy "Combination Approach" total_potential
              "Medium" "Mixed"]
      else []
    else [] in
  (strategies ++ combination)%list.

Definition generate_savings_strategies (g : goal) (df : frame)
  : list strategy :=
  if negb (has_category df) then _get_default_strategies g
  else
    let monthly_shortage := monthly_savings_needed g - current_savings df in
    if Qle_bool monthly_shortage 0
    then [mkstrategy "Stay on Track" 0 "Easy" "Maintenance"]
    else firstn 5 (sort_desc key_gt (candidate_strategies df monthly_shortage)).

End GoalTracker.

(* ================================================================= *)
(** ** financial_calendar.py *)

Module FinancialCalendar.

Local Open Scope string_scope.

Record day_summary : Type := mkday_summary {
  total_income : Q;
  total_expense : Q;
  net_flow : Q;
  transaction_count : nat;
  categories : list (string * Q);
  transactions : list (string * Q * option string);
  day_type : string
}.

Definition recurring_keywords : list string :=
  ["bill"; "payment"; "subscription"; "rent"; "mortgage"; "insurance"].

Definition _classify_day_type (day_data : list txn) (total_expense : Q)
  : string :=
  match day_data with
  | [] => "inactive"
  | _ =>
      if existsb (fun r => Qltb 0 (amount r)) day_data then "income_day"
      else if Qltb 200 total_expense then "high_spending"
      else if existsb
                (fun r => any_in recurring_keywords (lower (description r)))
                day_data
      then "bills_day"
      else if Qltb 0 total_expense then "regular_spending"
      else "inactive"
  end.

(** [df[df['date'].dt.day == day]] *)
Definition on_day (d : Z) (l : list txn) : list txn :=
  filter (fun r => (day (tdate r) =? d)%Z) l.

Definition _create_daily_summary (has_cat : bool) (l : list txn)
  : list (Z * day_summary) :=
  flat_map
    (fun k =>
       let d := Z.of_nat k in
       match on_day d l with
       | [] => []
       | day_data =>
           let total_income := Qsum (map amount (credits day_data)) in
           let total_expense := Qabs (Qsum (map amount (debits day_data))) in
           [(d, mkday_summary total_income total_expense
                  (total_income - total_expense)
                  (List.length day_data)
                  (if has_cat then category_spending day_data else [])
                  (map (fun r => (description r, amount r,
                                  if has_cat then Some (category r) else None))
                       day_data)
                  (_classify_day_type day_data total_expense))]
       end)
    (seq 1 31).

Record patterns : Type := mkpatterns {
  busiest_days : list (Z * nat);
  highest_spending_days : list (Z * Q);
  recurring_patterns : list string;
  weekend_vs_weekday : option (Q * Q * bool);
  category_patterns : list (string * string * Q)
}.

(** [series.nlargest(3)]: the three largest values, largest first, ties
    in series order. *)
Definition nlargest3 {K V : Type} (gt : V -> V -> bool) (l : list (K * V))
  : list (K * V) :=
  firstn 3 (sort_desc (fun a b => gt (snd a) (snd b)) l).

(** [df['date'].dt.weekday >= 5] *)
Definition weekend_flag (r : txn) : bool := (5 <=? weekday (tdate r))%Z.

Definition pair_compare (a b : string * string) : comparison :=
  match String.compare (fst a) (fst b) with
  | Eq => String.compare (snd a) (snd b)
  | c => c
  end.

(** The rows with a negative amount whose [is_weekend] entry is [want]:
    [df[(df['amount'] < 0) & (df['is_weekend'])]] and its complement. *)
Definition debits_flagged (l : list txn) (flags : list bool) (want : bool)
  : list txn :=
  map fst
    (filter (fun p => Qltb (amount (fst p)) 0 && Bool.eqb (snd p) want)
       (combine l flags)).

(** The patterns [_identify_spending_patterns] computes on a non-empty
    frame whose [is_weekend] column is [flags]. *)
Definition patterns_of (has_cat : bool) (l : list txn) (flags : list bool)
  : patterns :=
  let daily_counts :=
    map (fun g => (fst g, List.length (snd g)))
        (groupby Z.compare (map (fun r => (day (tdate r), r)) l)) in
  let daily_spending :=
    map (fun g => (fst g, Qabs (Qsum (snd g))))
        (groupby Z.compare
           (map (fun r => (day (tdate r), amount r)) (debits l))) in
  let weekend_spending :=
    Qabs (Qsum (map amount (debits_flagged l flags true))) in
  let weekday_spending :=
    Qabs (Qsum (map amount (debits_flagged l flags false))) in
  mkpatterns
    (nlargest3 (fun a b => (b <? a)%nat) daily_counts)
    (nlargest3 (fun a b => Qltb b a) daily_spending)
    []
    (Some (weekend_spending, weekday_spending,
           Qltb weekday_spending weekend_spending))
    (if has_cat then
       map (fun g => (fst (fst g), snd (fst g), Qabs (Qsum (snd g))))
           (groupby pair_compare
              (map (fun r => ((day_name (tdate r), category r), amount r))
                   (debits l)))
     else []).

Definition no_patterns : patterns := mkpatterns [] [] [] None [].

Record cell : Type := mkcell {
  cell_day : Z;
  empty : bool;
  spending : Q;
  income : Q;
  net : Q;
  cell_transactions : nat;
  cell_type : string;
  cell_categories : list (string * Q)
}.

(** [calendar.monthcalendar(year, month)]: the weeks of the month,
    Monday first, with 0 for the days outside it.  The month must be
    one of 1..12; a year outside 1..9999 is replaced as Python does. *)
Definition monthcalendar (y m : Z) : result (list (list Z)) :=
  if ((1 <=? m) && (m <=? 12))%Z then
    let y' := if ((1 <=? y) && (y <=? 9999))%Z then y
              else (2000 + y mod 400)%Z in
    let lead := Z.to_nat (weekday (mkdate y' m 1)) in
    let ndays := Z.to_nat (days_in_month y' m) in
    let nweeks := ((lead + ndays + 6) / 7)%nat in
    let days :=
      (repeat 0%Z lead ++ map Z.of_nat (seq 1 ndays)
       ++ repeat 0%Z (7 * nweeks - (lead + ndays)))%list in
    Ok (map (fun w => firstn 7 (skipn (7 * w) days)) (seq 0 nweeks))
  else Raise IllegalMonthError.

Definition _create_calendar_matrix (daily_summary : list (Z * day_summary))
  (y m : Z) : result (list (list cell)) :=
  match monthcalendar y m with
  | Raise e => Raise e
  | Ok cal =>
      Ok (map
            (map (fun d =>
                    if (d =? 0)%Z
                    then mkcell 0 true 0 0 0 0 "empty" []
                    else
                      match lookup Z.compare d daily_summary with
                      | Some i =>
                          mkcell d false (total_expense i) (total_income i)
                            (net_flow i) (transaction_count i) (day_type i)
                            (categories i)
                      | None => mkcell d false 0 0 0 0 "inactive" []
                      end))
            cal)
  end.

Record month_stats : Type := mkmonth_stats {
  stats_total_income : Q;
  stats_total_expense : Q;
  stats_net_flow : Q;
  stats_transaction_count : nat;
  daily_avg_expense : Q;
  most_active_day : string;
  spending_days : nat;
  income_days : nat
}.

(** [df['date'].dt.day.unique()]: the days of the month on which the
    frame has a row. *)
Definition active_days (l : list txn) : list Z :=
  nodup Z.eq_dec (map (fun r => day (tdate r)) l).

(** [len(df['date'].dt.day.unique())] *)
Definition distinct_days (l : list txn) : nat := List.length (active_days l).

(** [value_counts().index[0]]: the most frequent label, the first
    encountered one among equally frequent ones. *)
Definition count_of (x : string) (l : list string) : nat :=
  List.length (filter (String.eqb x) l).

Definition most_frequent (l : list string) : string :=
  fold_left
    (fun best x => if (count_of best l <? count_of x l)%nat then x else best)
    l (hd "N/A" l).

Definition _calculate_month_stats (l : list txn) : month_stats :=
  let total_income := Qsum (map amount (credits l)) in
  let total_expense := Qabs (Qsum (map amount (debits l))) in
  mkmonth_stats total_income total_expense (total_income - total_expense)
    (List.length l)
    (match l with
     | [] => 0
     | _ => total_expense
            / inject_Z (Z.of_nat (Nat.max 1 (distinct_days l)))
     end)
    (match l with
     | [] => "N/A"
     | _ => most_frequent (map (fun r => day_name (tdate r)) l)
     end)
    (distinct_days (debits l))
    (distinct_days (credits l)).

Record calendar_view : Type := mkcalendar_view {
  calendar_matrix : list (list cell);
  daily_summary : list (Z * day_summary);
  view_patterns : patterns;
  view_month_stats : month_stats;
  view_year : Z;
  view_month : Z
}.

(** [df[(df['date'].dt.year == year) & (df['date'].dt.month == month)]] *)
Definition month_rows (y m : Z) (l : list txn) : list txn :=
  filter (fun r => ((year (tdate r) =? y) && (month (tdate r) =? m))%Z) l.

End FinancialCalendar.

(* ================================================================= *)
(** ** The engines as the interpreter runs them *)

(** A [DataFrame] is an object: two names can denote the same one, and
    an assignment to a column changes it for every holder.  [Session]
    keeps the objects in a store and passes references, so that what an
    engine call does to its argument can be stated.  The three
    statements of the engines that assign into a frame are
    [df_copy['category'] = 'Other'] and [df_copy.at[idx, 'category'] = c]
    in [categorize_transactions], and [df['is_weekend'] = ...] in
    [_identify_spending_patterns]. *)
Module Session.

Definition ref : Type := nat.
Definition store : Type := list frame.

Definition no_frame : frame := mkframe false None [].

(** A computation that reads and writes the store. *)
Definition M (A : Type) : Type := store -> A * store.

Definition ret {A : Type} (a : A) : M A := fun s => (a, s).

Definition bind {A B : Type} (c : M A) (k : A -> M B) : M B :=
  fun s => let (a, s') := c s in k a s'.

Notation "x <- c ;; k" := (bind c (fun x => k))
  (at level 61, c at next level, right associativity).
Notation "c ;;; k" := (bind c (fun _ => k))
  (at level 61, right associativity).

(** Reading the object behind a reference. *)
Definition load (r : ref) : M frame := fun s => (nth r s no_frame, s).

(** A new object; its reference is returned. *)
Definition alloc (f : frame) : M ref :=
  fun s => (List.length s, (s ++ [f])%list).

Fixpoint update (r : ref) (g : frame -> frame) (s : store) : store :=
  match s, r with
  | [], _ => []
  | f :: rest, O => g f :: rest
  | f :: rest, S r' => f :: update r' g rest
  end.

(** An assignment into the object behind a reference. *)
Definition modify (r : ref) (g : frame -> frame) : M unit :=
  fun s => (tt, update r g s).

Fixpoint for_each {A : Type} (l : list A) (body : A -> M unit) : M unit :=
  match l with
  | [] => ret tt
  | x :: rest => body x ;;; for_each rest body
  end.

(** [df.copy()] *)
Definition copy (df : ref) : M ref := f <- load df ;; alloc f.

(** [df['category'] = 'Other'] *)
Definition set_category_column (f : frame) : frame :=
  mkframe true (is_weekend f)
    (map (fun r => mktxn (tdate r) (description r) (amount r) "Other")
         (rows f)).

Fixpoint set_nth_category (i : nat) (c : string) (l : list txn) : list txn :=
  match l, i with
  | [], _ => []
  | r :: rest, O => mktxn (tdate r) (description r) (amount r) c :: rest
  | r :: rest, S i' => r :: set_nth_category i' c rest
  end.

(** [df.at[idx, 'category'] = c] *)
Definition set_category_at (i : nat) (c : string) (f : frame) : frame :=
  mkframe (has_category f) (is_weekend f) (set_nth_category i c (rows f)).

Definition categorize_transactions (df : ref) : M ref :=
  df_copy <- copy df ;;
  f <- load df_copy ;;
  (if negb (has_category f) then modify df_copy set_category_column
   else ret tt) ;;;
  for_each (seq 0 (List.length (rows f)))
    (fun i =>
       g <- load df_copy ;;
       match nth_error (rows g) i with
       | Some row =>
           let c :=
             ExpenseCategorizer._categorize_single_transaction
               (description row) (amount row) in
           modify df_copy (set_category_at i c)
       | None => ret tt
       end) ;;;
  ret df_copy.

(** [df['is_weekend'] = df['date'].dt.weekday >= 5] *)
Definition set_is_weekend (f : frame) : frame :=
  mkframe (has_category f)
    (Some (map FinancialCalendar.weekend_flag (rows f))) (rows f).

Definition _identify_spending_patterns (df : ref)
  : M FinancialCalendar.patterns :=
  f <- load df ;;
  match rows f with
  | [] => ret FinancialCalendar.no_patterns
  | _ =>
      modify df set_is_weekend ;;;
      g <- load df ;;
      ret (FinancialCalendar.patterns_of (has_category g) (rows g)
             (match is_weekend g with Some flags => flags | None => [] end))
  end.

(** [None] for [year] or [month] stands for the argument left out. *)
Definition create_calendar_view (now : date) (df : ref)
  (year_arg month_arg : option Z) : M (result FinancialCalendar.calendar_view) :=
  let y := match year_arg with Some y => y | None => year now end in
  let m := match month_arg with Some m => m | None => month now end in
  f <- load df ;;
  calendar_data <-
    alloc (mkframe (has_category f) (is_weekend f) (FinancialCalendar.month_rows y m (rows f))) ;;
  c <- load calendar_data ;;
  let summary :=
    FinancialCalendar._create_daily_summary (has_category c) (rows c) in
  pats <- _identify_spending_patterns calendar_data ;;
  match FinancialCalendar._create_calendar_matrix summary y m with
  | Raise e => ret (Raise e)
  | Ok matrix =>
      c' <- load calendar_data ;;
      ret (Ok (FinancialCalendar.mkcalendar_view matrix summary pats
                 (FinancialCalendar._calculate_month_stats (rows c')) y m))
  end.

(** The engines that only read their table: their bodies contain no
    assignment into [df]; every selection [df[...]] and every
    [groupby] builds a new value, which is never stored or shared. *)
Definition calculate_health_score (df : ref)
  : M (result FinancialHealthAnalyzer.health) :=
  f <- load df ;; ret (FinancialHealthAnalyzer.calculate_health_score f).

Definition predict_future_spending (now : date) (df : ref)
  (months_ahead : nat) : M PredictiveAnalytics.prediction :=
  f <- load df ;;
  ret (PredictiveAnalytics.predict_future_spending now f months_ahead).

Definition detect_spending_anomalies (df : ref)
  : M (list PredictiveAnalytics.anomaly) :=
  f <- load df ;; ret (PredictiveAnalytics.detect_spending_anomalies f).

Definition generate_alerts (now : date) (df : ref)
  (budgets : list (string * Q)) : M (list SmartAlertsSystem.alert) :=
  f <- load df ;; ret (SmartAlertsSystem.generate_alerts now f budgets).

Definition analyze_goal_feasibility (g : GoalTracker.goal) (df : ref)
  : M (result GoalTracker.feasibility_report) :=
  f <- load df ;; ret (GoalTracker.analyze_goal_feasibility g f).

(** One call of an engine on a table. *)
Inductive engine_call : Type :=
| CategorizeBatch
| HealthScore
| PredictSpending (months_ahead : nat)
| DetectAnomalies
| GenerateAlerts (budgets : list (string * Q))
| CalendarView (year_arg month_arg : option Z)
| GoalFeasibility (g : GoalTracker.goal).

Inductive outcome : Type :=
| Categorized (df_copy : ref)
| Scored (h : result FinancialHealthAnalyzer.health)
| Predicted (p : PredictiveAnalytics.prediction)
| Anomalies (l : list PredictiveAnalytics.anomaly)
| Alerts (l : list SmartAlertsSystem.alert)
| Viewed (v : result FinancialCalendar.calendar_view)
| Feasibility (r : result GoalTracker.feasibility_report).

Definition run (now : date) (call : engine_call) (df : ref) : M outcome :=
  match call with
  | CategorizeBatch => r <- categorize_transactions df ;; ret (Categorized r)
  | HealthScore => h <- calculate_health_score df ;; ret (Scored h)
  | PredictSpending n =>
      p <- predict_future_spending now df n ;; ret (Predicted p)
  | DetectAnomalies => l <- detect_spending_anomalies df ;; ret (Anomalies l)
  | GenerateAlerts budgets =>
      l <- generate_alerts now df budgets ;; ret (Alerts l)
  | CalendarView y m =>
      v <- create_calendar_view now df y m ;; ret (Viewed v)
  | GoalFeasibility g =>
      r <- analyze_goal_feasibility g df ;; ret (Feasibility r)
  end.

(** [c] leaves the first [n] objects of the store as they are, and its
    result satisfies [P]. *)
Definition keeps {A : Type} (n : nat) (P : A -> Prop) (c : M A) : Prop :=
  forall s, (n <= List.length s)%nat ->
    firstn n (snd (c s)) = firstn n s
    /\ (n <= List.length (snd (c s)))%nat
    /\ P (fst (c s)).

(** The loop of [categorize_transactions], seen on the rows. *)
Definition loop_rows (idxs : list nat) (l : list txn) : list txn :=
  fold_left
    (fun l i =>
       match nth_error l i with
       | Some row =>
           set_nth_category i
             (ExpenseCategorizer._categorize_single_transaction
                (description row) (amount row)) l
       | None => l
       end)
    idxs l.

(** The categorized copy of a frame. *)
Definition categorized (f : frame) : frame :=
  mkframe true (is_weekend f) (ExpenseCategorizer.categorize_rows (rows f)).

End Session.

(* ================================================================= *)
(** ** Specification predicates and sample data *)

(** A score between 0 and 100. *)
Definition in_range (q : Q) : Prop := 0 <= q /\ q <= 100.

Module Samples.

Local Open Scope string_scope.

(** One month with a salary of 5000 and a rent of 4000. *)
Definition salary_and_rent : frame :=
  mkframe true None
    [ mktxn (mkdate 2024 1 5) "Salary" 5000 "Income";
      mktxn (mkdate 2024 1 6) "Rent" (-4000) "Bills & Utilities" ].

(** A categorized table with a salary and no expense at all. *)
Definition salary_only : frame :=
  mkframe true None [ mktxn (mkdate 2024 1 15) "Salary" 5000 "Income" ].

(** A table with expenses and no income. *)
Definition rent_only : frame :=
  mkframe false None [ mktxn (mkdate 2024 1 3) "Rent" (-1200) "" ].

(** Four months of expenses on a line: 100, 200, 300 and 400. *)
Definition linear_history : frame :=
  mkframe false None
    [ mktxn (mkdate 2024 1 5) "Rent" (-100) "";
      mktxn (mkdate 2024 2 5) "Rent" (-200) "";
      mktxn (mkdate 2024 3 5) "Rent" (-300) "";
      mktxn (mkdate 2024 4 5) "Rent" (-400) "" ].

(** Five months of expenses: 100, 100, 100, 100 and 500. *)
Definition spike_in_may : frame :=
  mkframe false None
    [ mktxn (mkdate 2024 1 5) "Rent" (-100) "";
      mktxn (mkdate 2024 2 5) "Rent" (-100) "";
      mktxn (mkdate 2024 3 5) "Rent" (-100) "";
      mktxn (mkdate 2024 4 5) "Rent" (-100) "";
      mktxn (mkdate 2024 5 5) "Rent" (-500) "" ].

(** A membership paid three times and then no more, and one purchase
    in June 2024 that uses 85% of the food budget. *)
Definition lapsed_membership : frame :=
  mkframe true None
    [ mktxn (mkdate 2024 1 5) "Gym Membership" (-50) "Entertainment";
      mktxn (mkdate 2024 2 5) "Gym Membership" (-50) "Entertainment";
      mktxn (mkdate 2024 3 5) "Gym Membership" (-50) "Entertainment";
      mktxn (mkdate 2024 6 10) "Corner Market" (-85) "Food & Dining" ].

Definition food_budget : list (string * Q) := [("Food & Dining", 100)].

(** One month, a salary of 1000 and a rent of 1000: nothing is saved. *)
Definition tight_month : list txn :=
  [ mktxn (mkdate 2024 5 1) "Salary May" 1000 "Income";
    mktxn (mkdate 2024 5 3) "Rent May" (-1000) "Housing" ].

(** A goal of 150 due in two weeks, as [create_goal] builds it. *)
Definition laptop : GoalTracker.goal :=
  GoalTracker.create_goal (mkdate 2024 6 1) "Laptop" 150 (mkdate 2024 6 15)
    "Custom Goal" 0.

(** A goal of 6000 due in a year. *)
Definition holiday : GoalTracker.goal :=
  GoalTracker.create_goal (mkdate 2024 1 1) "Holiday" 6000 (mkdate 2025 1 1)
    "Vacation/Travel" 0.

(** A strategy as a reader sees it: title, savings and difficulty. *)
Definition shown (s : GoalTracker.strategy) : string * Q * string :=
  (GoalTracker.title s, Qred (GoalTracker.potential_savings s),
   GoalTracker.difficulty s).

(** A month with one expense of 100 on the 1st and a salary on the 2nd:
    one spending day, two active days. *)
Definition two_day_month : list txn :=
  [ mktxn (mkdate 2024 5 1) "Groceries" (-100) "Food & Dining";
    mktxn (mkdate 2024 5 2) "Salary" 500 "Income" ].

End Samples.
Import Samples.

(* ================================================================= *)
(** ** Further functions of the sources *)

(** Functions that the engines above leave out: the budget risks of
    [predictive_analytics.py], the summary of [smart_alerts.py], the
    cleaning steps of [data_processor.py], [sanitize_filename] of
    [utils.py] and the time windows of [conversation_handler.py]. *)

(* ================================================================= *)
(** ** predictive_analytics.py: budget risks *)

Module BudgetRisks.

Import PredictiveAnalytics.
Local Open Scope string_scope.

Record budget_risk : Type := mkbudget_risk {
  risk_category : string;
  budget : Q;
  predicted : Q;
  overage : Q;
  percentage_over : fnum;
  risk_level : string
}.

(** The budgets the code makes up when none are given: the monthly
    average of every category plus ten percent. *)
Definition default_budgets (df : frame) : list (string * Q) :=
  map (fun c =>
         (fst c,
          snd c / inject_Z (Z.of_nat (Nat.max 1 (month_count (rows df))))
          * 1.1))
      (category_spending (rows df)).

(** [budgets] is the dictionary in insertion order; the empty list
    stands for an empty dictionary and for [None]. *)
Definition forecast_budget_risks (df : frame) (budgets : list (string * Q))
  : list budget_risk :=
  let budgets :=
    match budgets with
    | [] => if has_category df then default_budgets df else []
    | _ => budgets
    end in
  match budgets with
  | [] => []
  | _ =>
      if has_category df then
        let category_predictions := predict_category_spending df in
        flat_map
          (fun b =>
             match lookup String.compare (fst b) category_predictions with
             | Some p =>
                 let predicted := predicted_amount p in
                 if Qltb (snd b) predicted then
                   let overage := predicted - snd b in
                   let percentage_over :=
                     fmul (fdiv (Fin overage) (Fin (snd b))) (Fin 100) in
                   [mkbudget_risk (fst b) (snd b) predicted overage
                      percentage_over
                      (if fgtb percentage_over (Fin 20) then "high"
                       else "medium")]
                 else []
             | None => []
             end)
          budgets
      else []
  end.

End BudgetRisks.

(* ================================================================= *)
(** ** smart_alerts.py: the summary *)

Module AlertsSummary.

Import SmartAlertsSystem.
Local Open Scope string_scope.

Record alerts_summary : Type := mkalerts_summary {
  total_alerts : nat;
  high_severity : nat;
  medium_severity : nat;
  low_severity : nat;
  alert_types : list (string * nat)
}.

(** [summary['alert_types'][t] += 1], the key being added with 0 when
    it is missing; the dictionary keeps its insertion order. *)
Fixpoint bump (t : string) (counts : list (string * nat))
  : list (string * nat) :=
  match counts with
  | [] => [(t, 1%nat)]
  | (t', n) :: rest =>
      if String.eqb t t' then (t', S n) :: rest else (t', n) :: bump t rest
  end.

Definition with_severity (s : string) (alerts : list alert) : list alert :=
  filter (fun a => String.eqb (severity a) s) alerts.

(** The loop that counts the alerts by type. *)
Definition count_by_type (alerts : list alert) : list (string * nat) :=
  fold_left (fun counts a => bump (alert_type a) counts) alerts [].

Definition create_alerts_summary (alerts : list alert) : alerts_summary :=
  mkalerts_summary
    (List.length alerts)
    (List.length (with_severity "high" alerts))
    (List.length (with_severity "medium" alerts))
    (List.length (with_severity "low" alerts))
    (count_by_type alerts).

(** The pairs of type and severity that the six checks of
    [generate_alerts] can produce. *)
Definition known_alerts : list (string * string) :=
  [ ("budget_exceeded", "high"); ("budget_warning", "medium");
    ("spending_spike", "high"); ("spending_spike", "medium");
    ("unusual_transaction", "medium"); ("category_overspend", "medium");
    ("upward_trend", "medium"); ("missing_recurring", "low") ].

(** An alert of one of these kinds. *)
Definition known (a : alert) : Prop :=
  In (alert_type a, severity a) known_alerts.

(** The alerts of type [t]. *)
Definition of_type (t : string) (alerts : list alert) : list alert :=
  filter (fun a => String.eqb (alert_type a) t) alerts.

End AlertsSummary.

(* ================================================================= *)
(** ** data_processor.py *)

Module DataProcessor.

Local Open Scope string_scope.

(** A row as [_clean_data_types] leaves it: a date that could not be
    parsed is [NaT] and an amount that could not be read is [NaN], both
    modelled by [None]. *)
Record raw : Type := mkraw {
  raw_date : option date;
  raw_description : option string;
  raw_amount : option Q;
  raw_category : string
}.

(** A row that [dropna(subset=['date', 'description', 'amount'])]
    keeps. *)
Definition complete (r : raw) : option txn :=
  match raw_date r, raw_description r, raw_amount r with
  | Some d, Some s, Some a => Some (mktxn d s a (raw_category r))
  | _, _, _ => None
  end.

Definition dropna (l : list raw) : list txn :=
  flat_map (fun r => match complete r with Some t => [t] | None => [] end) l.

(** [now] stands for [datetime.now()]; the dates of the table carry no
    time of day. *)
Definition _remove_invalid_transactions (now : date) (l : list raw)
  : list txn :=
  let df_clean := dropna l in
  let df_clean := filter (fun r => negb (Qeq_bool (amount r) 0)) df_clean in
  filter (fun r => (toordinal (tdate r) <=? toordinal now)%Z) df_clean.

(** A cleaned row read again as a raw one. *)
Definition as_raw (r : txn) : raw :=
  mkraw (Some (tdate r)) (Some (description r)) (Some (amount r))
        (category r).

Record derived : Type := mkderived {
  transaction_type : string;
  abs_amount : Q;
  in_month : Z;
  in_year : Z;
  in_month_year : Z;
  day_of_week : string
}.

(** The columns that [_add_derived_columns] adds to each row. *)
Definition _add_derived_columns (l : list txn) : list (txn * derived) :=
  map (fun r =>
         (r, mkderived
               (if Qltb 0 (amount r) then "credit" else "debit")
               (Qabs (amount r))
               (month (tdate r)) (year (tdate r)) (month_year (tdate r))
               (day_name (tdate r))))
      l.

Record summary_stats : Type := mksummary_stats {
  total_transactions : nat;
  total_debits : Q;
  total_credits : Q;
  net_amount : Q;
  avg_transaction : fnum;
  unique_descriptions : nat
}.

(** [get_summary_stats], without the date range. *)
Definition get_summary_stats (l : list txn) : summary_stats :=
  mksummary_stats
    (List.length l)
    (Qsum (map amount (debits l)))
    (Qsum (map amount (credits l)))
    (Qsum (map amount l))
    (mean (map amount l))
    (List.length (nodup string_dec (map description l))).

End DataProcessor.

(* ================================================================= *)
(** ** utils.py *)

Module Utils.

(** A Python [str] is a sequence of Unicode code points: [len] counts
    code points and a slice cuts between them, so the file name is a
    list of code points, not of bytes. *)
Definition codepoint : Type := N.

Definition str : Type := list codepoint.

(** The characters that the pattern of [sanitize_filename] matches, by
    their code points: less-than, greater-than, colon, double quote,
    slash, backslash, vertical bar, question mark and star. *)
Definition invalid_characters : list codepoint :=
  [60; 62; 58; 34; 47; 92; 124; 63; 42]%N.

Definition is_invalid (c : codepoint) : bool :=
  existsb (N.eqb c) invalid_characters.

(** The underscore. *)
Definition underscore : codepoint := 95%N.

(** [re.sub(r'[...]', '_', filename)] *)
Definition replace_invalid (s : str) : str :=
  map (fun c => if is_invalid c then underscore else c) s.

Definition sanitize_filename (filename : str) : str :=
  let sanitized := replace_invalid filename in
  if (100 <? List.length sanitized)%nat then firstn 100 sanitized
  else sanitized.

End Utils.

(* ================================================================= *)
(** ** conversation_handler.py: the time windows *)

Module ConversationHandler.

Local Open Scope string_scope.

(** [datetime.now()]: the day and the time of day, in microseconds
    since midnight. *)
Record datetime : Type := mkdatetime { on : date; time_of_day : Z }.

(** The day before [d]. *)
Definition prev_day (d : date) : date :=
  if (1 <? day d)%Z then mkdate (year d) (month d) (day d - 1)
  else if (1 <? month d)%Z
  then mkdate (year d) (month d - 1) (days_in_month (year d) (month d - 1))
  else mkdate (year d - 1) 12 31.

(** [t - timedelta(days=n)]: [n] days earlier, at the same time of day. *)
Definition minus_days (t : datetime) (n : nat) : datetime :=
  mkdatetime (Nat.iter n prev_day (on t)) (time_of_day t).

(** [t.replace(day=1)]: the time of day is kept. *)
Definition replace_day_1 (t : datetime) : datetime :=
  mkdatetime (mkdate (year (on t)) (month (on t)) 1) (time_of_day t).

(** [datetime(y, m, d)], and the dates of the table, which carry no
    time of day. *)
Definition midnight (d : date) : datetime := mkdatetime d 0.

(** [a <= b] *)
Definition datetime_leb (a b : datetime) : bool :=
  (toordinal (on a) <? toordinal (on b))%Z
  || ((toordinal (on a) =? toordinal (on b))%Z
      && (time_of_day a <=? time_of_day b)%Z).

(** The [start_date] and [end_date] of a period; [None] for a name that
    the chain of comparisons does not know. *)
Definition period_bounds (now : datetime) (time_period : string)
  : option (datetime * datetime) :=
  if time_period =? "last_month" then
    Some (replace_day_1 (minus_days now 30),
          minus_days (replace_day_1 now) 1)
  else if time_period =? "current_month" then
    Some (replace_day_1 now, now)
  else if time_period =? "last_year" then
    Some (midnight (mkdate (year (on now) - 1) 1 1),
          midnight (mkdate (year (on now) - 1) 12 31))
  else if time_period =? "current_year" then
    Some (midnight (mkdate (year (on now)) 1 1), now)
  else if time_period =? "last_6_months" then
    Some (minus_days now 180, now)
  else if time_period =? "last_week" then
    Some (minus_days now 7, now)
  else None.

(** [time_period] is [None] or a string; [if not time_period] also
    holds for the empty string. *)
Definition _filter_by_time_period (now : datetime) (l : list txn)
  (time_period : option string) : list txn :=
  match time_period with
  | None => l
  | Some p =>
      if p =? "" then l
      else
        match period_bounds now p with
        | None => l
        | Some (start_date, end_date) =>
            filter
              (fun r =>
                 datetime_leb start_date (midnight (tdate r))
                 && datetime_leb (midnight (tdate r)) end_date)
              l
        end
  end.

End ConversationHandler.

(* ================================================================= *)
(** ** Further sample data *)

Module FurtherSamples.

Local Open Scope string_scope.

(** Two months with the same expense of 100. *)
Definition two_flat_months : frame :=
  mkframe false None
    [ mktxn (mkdate 2024 1 5) "Rent" (-100) "";
      mktxn (mkdate 2024 2 5) "Rent" (-100) "" ].

(** Five months at 100 and a sixth at 1000. *)
Definition spike_in_june : frame :=
  mkframe false None
    [ mktxn (mkdate 2024 1 5) "Rent" (-100) "";
      mktxn (mkdate 2024 2 5) "Rent" (-100) "";
      mktxn (mkdate 2024 3 5) "Rent" (-100) "";
      mktxn (mkdate 2024 4 5) "Rent" (-100) "";
      mktxn (mkdate 2024 5 5) "Rent" (-100) "";
      mktxn (mkdate 2024 6 5) "Rent" (-1000) "" ].

(** Groceries of 100 in January and 200 in February. *)
Definition rising_groceries : frame :=
  mkframe true None
    [ mktxn (mkdate 2024 1 5) "Market" (-100) "Food & Dining";
      mktxn (mkdate 2024 2 5) "Market" (-200) "Food & Dining" ].

(** Noon of 31 May 2024, and three expenses around the first of May. *)
Definition noon_31_may : ConversationHandler.datetime :=
  ConversationHandler.mkdatetime (mkdate 2024 5 31) 43200000000.

Definition around_first_of_may : list txn :=
  [ mktxn (mkdate 2024 4 30) "Rent" (-900) "";
    mktxn (mkdate 2024 5 1) "Groceries" (-40) "";
    mktxn (mkdate 2024 5 2) "Groceries" (-60) "" ].

End FurtherSamples.
Import FurtherSamples.

(* ################################################################# *)
(** * Properties *)

(* ================================================================= *)
(** ** Numbers and strings *)

Module NumFacts.

Lemma Qltb_lt a b : Qltb a b = true <-> a < b.
Proof. unfold Qltb, Qlt. apply Z.ltb_lt. Qed.

Lemma Qltb_ge a b : Qltb a b = false <-> b <= a.
Proof. unfold Qltb, Qle. rewrite Z.ltb_ge. reflexivity. Qed.

Lemma Qle_bool_gt a b : Qle_bool a b = false <-> b < a.
Proof.
  split; intro H.
  - destruct (Qlt_le_dec b a) as [L|L]; [exact L|].
    apply Qle_bool_iff in L. congruence.
  - destruct (Qle_bool a b) eqn:E; [|reflexivity].
    apply Qle_bool_iff in E. lra.
Qed.

Lemma Qpymax_cases a b :
  (Qpymax a b = a /\ b <= a) \/ (Qpymax a b = b /\ a < b).
Proof.
  unfold Qpymax. destruct (Qltb a b) eqn:E.
  - right. apply Qltb_lt in E. auto.
  - left. apply Qltb_ge in E. auto.
Qed.

Lemma Qpymin_cases a b :
  (Qpymin a b = a /\ a <= b) \/ (Qpymin a b = b /\ b < a).
Proof.
  unfold Qpymin. destruct (Qltb b a) eqn:E.
  - right. apply Qltb_lt in E. auto.
  - left. apply Qltb_ge in E. auto.
Qed.

End NumFacts.
Import NumFacts.

Module TextFacts.

Local Open Scope string_scope.

Lemma lower_ascii_idem c : lower_ascii (lower_ascii c) = lower_ascii c.
Proof. destruct c as [[] [] [] [] [] [] [] []]; reflexivity. Qed.

Lemma lower_idem s : lower (lower s) = lower s.
Proof.
  induction s as [|c s IH]; simpl; [reflexivity|].
  now rewrite lower_ascii_idem, IH.
Qed.

Lemma lstrip_lowered s : lower s = s -> lower (lstrip s) = lstrip s.
Proof.
  induction s as [|c s IH]; simpl; intro H; [reflexivity|].
  injection H as Hc Hs.
  destruct (isspace c); [auto|].
  simpl. now rewrite Hc, Hs.
Qed.

Lemma rstrip_lowered s : lower s = s -> lower (rstrip s) = rstrip s.
Proof.
  induction s as [|c s IH]; simpl; intro H; [reflexivity|].
  injection H as Hc Hs. specialize (IH Hs).
  destruct (rstrip s) as [|c' r].
  - destruct (isspace c); simpl; [reflexivity|now rewrite Hc].
  - change (String (lower_ascii c) (lower (String c' r)) = String c (String c' r)).
    now rewrite Hc, IH.
Qed.

(** Lower-casing and stripping once more changes nothing. *)
Lemma lower_strip_lower s : lower (strip (lower s)) = strip (lower s).
Proof.
  unfold strip. apply rstrip_lowered, lstrip_lowered, lower_idem.
Qed.

Lemma prefix_lower kw s :
  prefix kw s = true -> prefix (lower kw) (lower s) = true.
Proof.
  revert s. induction kw as [|a kw IH]; intros [|b s]; simpl; try easy.
  destruct (ascii_dec a b) as [->|]; [|discriminate].
  intro H. destruct (ascii_dec (lower_ascii b) (lower_ascii b)); [auto|congruence].
Qed.

Lemma contains_cons kw c s :
  contains kw (String c s) = prefix kw (String c s) || contains kw s.
Proof. reflexivity. Qed.

Lemma contains_lower kw s :
  contains kw s = true -> contains (lower kw) (lower s) = true.
Proof.
  induction s as [|c s IH].
  - now destruct kw.
  - change (lower (String c s)) with (String (lower_ascii c) (lower s)).
    rewrite !contains_cons, !orb_true_iff. intros [H|H].
    + left. now apply prefix_lower in H.
    + right. auto.
Qed.

Lemma contains_lstrip kw s :
  solid kw = true -> kw <> "" ->
  contains kw s = true -> contains kw (lstrip s) = true.
Proof.
  intros Hk Hne. induction s as [|c s IH]; [easy|].
  intro H. simpl lstrip. destruct (isspace c) eqn:Sp; [|exact H].
  apply IH. rewrite contains_cons, orb_true_iff in H.
  destruct H as [H|H]; [|exact H].
  destruct kw as [|a kw]; [congruence|].
  simpl in H, Hk. destruct (ascii_dec a c) as [->|]; [|discriminate].
  rewrite Sp in Hk. discriminate.
Qed.

Lemma prefix_rstrip kw s :
  solid kw = true -> prefix kw s = true -> prefix kw (rstrip s) = true.
Proof.
  revert s. induction kw as [|a kw IH]; intros s Hk H.
  - now destruct (rstrip s).
  - destruct s as [|c s]; [discriminate|].
    simpl in H, Hk. destruct (ascii_dec a c) as [->|]; [|discriminate].
    apply andb_true_iff in Hk as [Hc Hk].
    specialize (IH s Hk H). simpl.
    destruct (rstrip s) as [|c' r].
    + apply negb_true_iff in Hc. rewrite Hc. simpl.
      destruct (ascii_dec c c); [|congruence].
      destruct kw; [reflexivity|discriminate].
    + simpl. destruct (ascii_dec c c); [exact IH|congruence].
Qed.

Lemma contains_nonempty kw s :
  kw <> "" -> contains kw s = true -> s <> "".
Proof. intros Hne H ->. destruct kw; [congruence|discriminate]. Qed.

Lemma contains_rstrip kw s :
  solid kw = true -> kw <> "" ->
  contains kw s = true -> contains kw (rstrip s) = true.
Proof.
  intros Hk Hne. induction s as [|c s IH]; [easy|].
  intro H. rewrite contains_cons, orb_true_iff in H.
  destruct H as [P|H].
  - apply (prefix_rstrip _ _ Hk) in P.
    destruct (rstrip (String c s)); [now destruct kw|].
    now rewrite contains_cons, P.
  - specialize (IH H).
    pose proof (contains_nonempty _ _ Hne IH) as Hr.
    simpl rstrip. destruct (rstrip s) as [|c' r]; [congruence|].
    rewrite contains_cons, IH. apply orb_true_r.
Qed.

(** A keyword without white space that occurs in a description still
    occurs in it after [lower()] and [strip()]. *)
Lemma contains_normalised kw s :
  solid kw = true -> kw <> "" -> lower kw = kw ->
  contains kw s = true -> contains kw (strip (lower s)) = true.
Proof.
  intros Hk Hne Hl H. unfold strip.
  apply contains_rstrip, contains_lstrip; auto.
  rewrite <- Hl. now apply contains_lower.
Qed.

End TextFacts.
Import TextFacts.

(* ================================================================= *)
(** ** Comparisons with a standard deviation *)

(** The comparisons of [Stats] decide what they are documented to
    decide, read over the real numbers with the real square root. *)
Module RootFacts.

Local Open Scope R_scope.

Lemma Qltb_Rlt a b : Qltb a b = true <-> Q2R a < Q2R b.
Proof.
  rewrite Qltb_lt. split; [apply Qlt_Rlt|apply Rlt_Qlt].
Qed.

Lemma Qle_bool_Rle a b : Qle_bool a b = true <-> Q2R a <= Q2R b.
Proof.
  rewrite Qle_bool_iff. split; [apply Qle_Rle|apply Rle_Qle].
Qed.

(** For non-negative [a] and [b], comparing is comparing the squares. *)
Lemma square_lt a b : 0 <= a -> 0 <= b -> (a < b <-> a * a < b * b).
Proof. intros. split; intro; nra. Qed.

Lemma square_le a b : 0 <= a -> 0 <= b -> (a <= b <-> a * a <= b * b).
Proof. intros. split; intro; nra. Qed.

Lemma abs_over_root_gt_spec (d v t : Q) :
  (0 < v)%Q -> (0 <= t)%Q ->
  abs_over_root_gt d v t = true
  <-> Rabs (Q2R d) / sqrt (Q2R v) > Q2R t.
Proof.
  intros Hv Ht. unfold abs_over_root_gt.
  rewrite Qltb_Rlt, !Q2R_mult.
  apply Qlt_Rlt in Hv. apply Qle_Rle in Ht. rewrite RMicromega.Q2R_0 in *.
  set (D := Q2R d) in *. set (V := Q2R v) in *. set (T := Q2R t) in *.
  pose proof (sqrt_lt_R0 V Hv) as S.
  pose proof (sqrt_sqrt V (Rlt_le _ _ Hv)) as SS.
  pose proof (Rabs_pos D) as A.
  assert (AA : Rabs D * Rabs D = D * D).
  { unfold Rabs. destruct (Rcase_abs D); nra. }
  set (s := sqrt V) in *. set (a := Rabs D) in *.
  assert (E : a / s > T <-> T * s < a).
  { unfold Rdiv. split; intro H.
    - apply (Rmult_lt_compat_r s) in H; [|exact S].
      rewrite Rmult_assoc, Rinv_l in H by lra. lra.
    - apply (Rmult_lt_reg_r s); [exact S|].
      rewrite Rmult_assoc, Rinv_l by lra. lra. }
  rewrite E. rewrite (square_lt (T * s) a) by nra.
  replace (T * s * (T * s)) with (T * T * V) by (rewrite <- SS; ring).
  rewrite AA. tauto.
Qed.

Lemma over_root_gt_spec (d v t : Q) :
  (0 < v)%Q -> (0 <= t)%Q ->
  over_root_gt d v t = true <-> Q2R d / sqrt (Q2R v) > Q2R t.
Proof.
  intros Hv Ht. unfold over_root_gt. rewrite andb_true_iff.
  fold (abs_over_root_gt d v t).
  rewrite (abs_over_root_gt_spec d v t Hv Ht), Qltb_Rlt.
  apply Qlt_Rlt in Hv. apply Qle_Rle in Ht. rewrite RMicromega.Q2R_0 in *.
  pose proof (sqrt_lt_R0 _ Hv) as S.
  split.
  - intros [P H]. now rewrite Rabs_pos_eq in H by lra.
  - intro H.
    assert (P : 0 < Q2R d).
    { destruct (Rlt_le_dec 0 (Q2R d)) as [P|N]; [exact P|exfalso].
      assert (Q2R d / sqrt (Q2R v) <= 0).
      { unfold Rdiv.
        pose proof (Rinv_0_lt_compat _ S) as I. nra. }
      lra. }
    split; [exact P|]. now rewrite Rabs_pos_eq by lra.
Qed.

Lemma root_over_le_spec (v m c : Q) :
  (0 <= v)%Q -> (0 < m)%Q -> (0 <= c)%Q ->
  root_over_le v m c = true <-> sqrt (Q2R v) / Q2R m <= Q2R c.
Proof.
  intros Hv Hm Hc. unfold root_over_le.
  assert (Qeq_bool m 0 = false) as ->.
  { apply not_true_is_false. intro E. apply Qeq_bool_iff in E. lra. }
  assert (Qltb m 0 = false) as -> by (apply Qltb_ge; lra).
  rewrite Qle_bool_Rle, !Q2R_mult.
  apply Qle_Rle in Hv, Hc. apply Qlt_Rlt in Hm.
  rewrite RMicromega.Q2R_0 in *.
  set (V := Q2R v) in *. set (M := Q2R m) in *. set (C := Q2R c) in *.
  pose proof (sqrt_pos V) as S. pose proof (sqrt_sqrt V Hv) as SS.
  set (s := sqrt V) in *.
  assert (E : s / M <= C <-> s <= C * M).
  { unfold Rdiv. split; intro H.
    - apply (Rmult_le_compat_r M) in H; [|lra].
      rewrite Rmult_assoc, Rinv_l in H by lra. lra.
    - apply (Rmult_le_reg_r M); [exact Hm|].
      rewrite Rmult_assoc, Rinv_l by lra. lra. }
  rewrite E, (square_le s (C * M)) by nra. rewrite SS. tauto.
Qed.

Lemma root_over_lt_spec (v m c : Q) :
  (0 <= v)%Q -> (0 < m)%Q -> (0 <= c)%Q ->
  root_over_lt v m c = true <-> sqrt (Q2R v) / Q2R m < Q2R c.
Proof.
  intros Hv Hm Hc. unfold root_over_lt.
  assert (Qeq_bool m 0 = false) as ->.
  { apply not_true_is_false. intro E. apply Qeq_bool_iff in E. lra. }
  assert (Qltb m 0 = false) as -> by (apply Qltb_ge; lra).
  rewrite Qltb_Rlt, !Q2R_mult.
  apply Qle_Rle in Hv, Hc. apply Qlt_Rlt in Hm.
  rewrite RMicromega.Q2R_0 in *.
  set (V := Q2R v) in *. set (M := Q2R m) in *. set (C := Q2R c) in *.
  pose proof (sqrt_pos V) as S. pose proof (sqrt_sqrt V Hv) as SS.
  set (s := sqrt V) in *.
  assert (E : s / M < C <-> s < C * M).
  { unfold Rdiv. split; intro H.
    - apply (Rmult_lt_compat_r M) in H; [|lra].
      rewrite Rmult_assoc, Rinv_l in H by lra. lra.
    - apply (Rmult_lt_reg_r M); [exact Hm|].
      rewrite Rmult_assoc, Rinv_l by lra. lra. }
  rewrite E, (square_lt s (C * M)) by nra. rewrite SS. tauto.
Qed.

Lemma root_lt_spec (v c : Q) :
  (0 <= v)%Q -> (0 < c)%Q ->
  root_lt v c = true <-> sqrt (Q2R v) < Q2R c.
Proof.
  intros Hv Hc. unfold root_lt. rewrite Qltb_Rlt, Q2R_mult.
  apply Qle_Rle in Hv. apply Qlt_Rlt in Hc. rewrite RMicromega.Q2R_0 in *.
  pose proof (sqrt_pos (Q2R v)) as S.
  pose proof (sqrt_sqrt (Q2R v) Hv) as SS.
  rewrite (square_lt (sqrt (Q2R v)) (Q2R c)) by lra. rewrite SS. tauto.
Qed.

End RootFacts.

(* ================================================================= *)
(** ** The categorizer *)

Module CategorizerFacts.
Import ExpenseCategorizer.
Local Open Scope string_scope.

Lemma categorize_single_by_keywords d a :
  _categorize_single_transaction d a
  = _categorize_by_keywords (strip (lower d)) a.
Proof.
  unfold _categorize_single_transaction.
  destruct (_categorize_by_keywords (strip (lower d)) a =? "Other") eqn:E.
  - apply String.eqb_eq in E. now rewrite E.
  - reflexivity.
Qed.

Lemma any_in_app l1 l2 d : any_in (l1 ++ l2)%list d = any_in l1 d || any_in l2 d.
Proof. apply existsb_app. Qed.

Lemma any_in_member kw l d :
  In kw l -> contains kw d = true -> any_in l d = true.
Proof.
  intros Hin Hc. apply existsb_exists. now exists kw.
Qed.

(** A description that contains "netflix" as written contains it after
    [lower()] as well. *)
Lemma netflix_in_any_case d :
  contains "netflix" d = true -> contains "netflix" (lower d) = true.
Proof. intro H. now apply contains_lower in H. Qed.

(** C5, amended.  A description of ASCII characters that contains
    "netflix", in any letter case, is never categorized as
    Entertainment; it is categorized as Bills & Utilities whenever the
    income rule does not apply and no keyword of a category checked
    earlier occurs in it. *)
Theorem netflix_is_bills_before_entertainment
  (description : string) (amount : Q) :
  isascii description = true ->
  contains "netflix" (lower description) = true ->
  _categorize_single_transaction description amount <> "Entertainment"
  /\ (Qltb 0 amount
      && any_in income_keywords (strip (lower description)) = false ->
      any_in checked_before_bills (strip (lower description)) = false ->
      _categorize_single_transaction description amount
      = "Bills & Utilities").
Proof.
  intros _ H.
  apply (contains_lstrip "netflix"), (contains_rstrip "netflix") in H;
    try easy.
  fold (strip (lower description)) in H.
  rewrite categorize_single_by_keywords.
  unfold _categorize_by_keywords. rewrite lower_strip_lower.
  set (d := strip (lower description)) in *.
  assert (B : any_in (snd (nth 3 keyword_mappings ("", []))) d = true).
  { apply (any_in_member "netflix"); [|exact H]. simpl. tauto. }
  unfold checked_before_bills.
  unfold keyword_mappings in *.
  cbn [firstn flat_map snd nth first_match] in *.
  rewrite !any_in_app. rewrite B.
  split.
  - destruct (Qltb 0 amount && any_in income_keywords d); [easy|].
    repeat match goal with
           | |- context [if any_in ?l d then _ else _] =>
               destruct (any_in l d); [easy|]
           end.
    easy.
  - intros -> E.
    apply orb_false_iff in E as [E1 E].
    apply orb_false_iff in E as [E2 E].
    apply orb_false_iff in E as [E3 _].
    now rewrite E1, E2, E3.
Qed.

(** C5, witness. *)
Lemma netflix_is_bills_witness :
  _categorize_single_transaction "NETFLIX.COM monthly" (-1599 # 100)
  = "Bills & Utilities".
Proof.
  apply (netflix_is_bills_before_entertainment
           "NETFLIX.COM monthly" (-1599 # 100));
    reflexivity.
Defined.

(** C5, counterexample to the claim as stated: two descriptions of
    ASCII characters that contain "netflix" and are not categorized as
    Bills & Utilities. *)
Lemma netflix_not_always_bills :
  isascii "amazon prime netflix" = true
  /\ contains "netflix" "amazon prime netflix" = true
  /\ _categorize_single_transaction "amazon prime netflix" (-15) = "Shopping"
  /\ isascii "netflix refund" = true
  /\ contains "netflix" "netflix refund" = true
  /\ _categorize_single_transaction "netflix refund" 15 = "Income".
Proof. repeat split; reflexivity. Qed.

End CategorizerFacts.

(* ================================================================= *)
(** ** Sorting in decreasing key order *)

Lemma in_firstn {A : Type} (x : A) n l : In x (firstn n l) -> In x l.
Proof.
  revert n. induction l as [|y l IH]; intros [|n]; simpl; try easy.
  intros [->|H]; eauto.
Qed.

Section SortDescFacts.

Context {A : Type} (gt : A -> A -> bool) (ge : A -> A -> Prop).

Hypothesis ge_trans : forall a b c, ge a b -> ge b c -> ge a c.
Hypothesis gt_ge : forall a b, gt a b = true -> ge a b.
Hypothesis not_gt_ge : forall a b, gt a b = false -> ge b a.

Lemma insert_desc_perm x l : Permutation (insert_desc gt x l) (x :: l).
Proof.
  induction l as [|y ys IH]; simpl; [reflexivity|].
  destruct (gt y x); [|reflexivity].
  rewrite IH. apply perm_swap.
Qed.

Lemma sort_desc_perm l : Permutation (sort_desc gt l) l.
Proof.
  induction l as [|x l IH]; simpl; [reflexivity|].
  rewrite insert_desc_perm. now constructor.
Qed.

Lemma insert_desc_sorted x l :
  StronglySorted ge l -> StronglySorted ge (insert_desc gt x l).
Proof.
  induction 1 as [|y ys Hs IH Hy]; simpl.
  - repeat constructor.
  - destruct (gt y x) eqn:E.
    + constructor; [exact IH|].
      eapply Permutation_Forall; [symmetry; apply insert_desc_perm|].
      constructor; auto.
    + constructor; [now constructor|].
      constructor; [auto|].
      eapply Forall_impl; [|exact Hy]. intros z Hz.
      eapply ge_trans; eauto.
Qed.

Lemma sort_desc_sorted l : StronglySorted ge (sort_desc gt l).
Proof.
  induction l as [|x l IH]; simpl; [constructor|].
  now apply insert_desc_sorted.
Qed.

Lemma firstn_sorted n l :
  StronglySorted ge l -> StronglySorted ge (firstn n l).
Proof.
  intro H. revert n. induction H as [|y ys Hs IH Hy]; intros [|n]; simpl;
    try constructor; auto.
  apply Forall_forall. intros z Hz. apply in_firstn in Hz.
  rewrite Forall_forall in Hy. auto.
Qed.

(** In a sorted list an earlier element is related to every later one. *)
Lemma sorted_nth_error l i j a b :
  StronglySorted ge l -> (i < j)%nat ->
  nth_error l i = Some a -> nth_error l j = Some b -> ge a b.
Proof.
  intro H. revert i j. induction H as [|y ys Hs IH Hy]; intros i j Hij Hi Hj.
  - now destruct i.
  - destruct j as [|j]; [lia|]. simpl in Hj.
    destruct i as [|i]; simpl in Hi.
    + injection Hi as <-. rewrite Forall_forall in Hy.
      apply Hy. eapply nth_error_In; eauto.
    + apply (IH i j); auto. lia.
Qed.

End SortDescFacts.

(** The sort is stable: the elements of one key keep their order. *)
Section SortDescStable.

Context {A : Type} (gt : A -> A -> bool) (key : A -> Z).

Hypothesis gt_key : forall a b, gt a b = true -> key a <> key b.

Lemma insert_desc_stable x l p :
  filter (fun a => (key a =? p)%Z) (insert_desc gt x l)
  = filter (fun a => (key a =? p)%Z) (x :: l).
Proof.
  induction l as [|y ys IH]; [reflexivity|].
  cbn [insert_desc]. destruct (gt y x) eqn:E; [|reflexivity].
  cbn [filter] in *. rewrite IH.
  destruct (Z.eqb_spec (key y) p) as [Ey|Ey];
    destruct (Z.eqb_spec (key x) p) as [Ex|Ex]; try reflexivity.
  apply gt_key in E. congruence.
Qed.

Lemma sort_desc_stable l p :
  filter (fun a => (key a =? p)%Z) (sort_desc gt l)
  = filter (fun a => (key a =? p)%Z) l.
Proof.
  induction l as [|x l IH]; [reflexivity|].
  cbn [sort_desc fold_right]. fold (sort_desc gt l).
  rewrite insert_desc_stable. cbn [filter]. now rewrite IH.
Qed.

End SortDescStable.

(* ================================================================= *)
(** ** Grouping *)

Section GroupByFacts.

Context {K V : Type} (cmp : K -> K -> comparison).

Hypothesis cmp_eq : forall a b, cmp a b = Eq -> a = b.
Hypothesis cmp_gt : forall a b, cmp a b = Gt -> cmp b a = Lt.
Hypothesis cmp_lt_trans :
  forall a b c, cmp a b = Lt -> cmp b c = Lt -> cmp a c = Lt.
Hypothesis cmp_irrefl : forall a, cmp a a <> Lt.

Let before (a b : K) : Prop := cmp a b = Lt.

Lemma insert_group_keys k (v : V) acc k' :
  In k' (map fst (insert_group cmp k v acc))
  <-> k' = k \/ In k' (map fst acc).
Proof.
  induction acc as [|[k0 vs] acc IH]; simpl.
  - intuition.
  - destruct (cmp k k0) eqn:E; simpl.
    + apply cmp_eq in E. subst. intuition.
    + intuition.
    + rewrite IH. intuition.
Qed.

Lemma insert_group_sorted k (v : V) acc :
  StronglySorted before (map fst acc) ->
  StronglySorted before (map fst (insert_group cmp k v acc)).
Proof.
  induction acc as [|[k0 vs] acc IH]; simpl; intro S.
  - repeat constructor.
  - apply StronglySorted_inv in S as [S F].
    destruct (cmp k k0) eqn:E; simpl.
    + now constructor.
    + constructor; [now constructor|].
      constructor; [exact E|].
      eapply Forall_impl; [|exact F]. intros z Hz.
      eapply cmp_lt_trans; eauto.
    + constructor; [auto|].
      apply Forall_forall. intros z Hz.
      apply insert_group_keys in Hz as [->|Hz].
      * now apply cmp_gt.
      * rewrite Forall_forall in F. auto.
Qed.

Lemma fold_insert_keys (l : list (K * V)) acc k :
  In k (map fst (fold_left
                   (fun acc kv => insert_group cmp (fst kv) (snd kv) acc)
                   l acc))
  <-> In k (map fst l) \/ In k (map fst acc).
Proof.
  revert acc. induction l as [|[k0 v0] l IH]; intro acc; simpl.
  - intuition.
  - rewrite IH, insert_group_keys. intuition.
Qed.

Lemma fold_insert_sorted (l : list (K * V)) acc :
  StronglySorted before (map fst acc) ->
  StronglySorted before
    (map fst (fold_left
                (fun acc kv => insert_group cmp (fst kv) (snd kv) acc)
                l acc)).
Proof.
  revert acc. induction l as [|[k0 v0] l IH]; intros acc S; simpl; auto.
  apply IH, insert_group_sorted, S.
Qed.

(** The keys of the groups are the keys of the rows ... *)
Lemma groupby_keys (l : list (K * V)) k :
  In k (map fst (groupby cmp l)) <-> In k (map fst l).
Proof. unfold groupby. rewrite fold_insert_keys. simpl. intuition. Qed.

(** ... in strictly increasing order ... *)
Lemma groupby_sorted (l : list (K * V)) :
  StronglySorted before (map fst (groupby cmp l)).
Proof. apply fold_insert_sorted. constructor. Qed.

Lemma sorted_nodup (ks : list K) : StronglySorted before ks -> NoDup ks.
Proof.
  induction 1 as [|k ks S IH F]; constructor; auto.
  intro H. rewrite Forall_forall in F. apply (cmp_irrefl k). now apply F.
Qed.

(** ... so that fewer keys give fewer groups. *)
Lemma groupby_length_incl (l1 l2 : list (K * V)) :
  incl (map fst l1) (map fst l2) ->
  (List.length (groupby cmp l1) <= List.length (groupby cmp l2))%nat.
Proof.
  intro H.
  rewrite <- (length_map fst (groupby cmp l1)).
  rewrite <- (length_map fst (groupby cmp l2)).
  apply NoDup_incl_length.
  - apply sorted_nodup, groupby_sorted.
  - intros k Hk. apply groupby_keys. apply H. now apply groupby_keys in Hk.
Qed.

End GroupByFacts.

Lemma by_month_length_filter (p : txn -> bool) (l : list txn) :
  (List.length (by_month (debits (filter p l)))
   <= List.length (by_month (debits l)))%nat.
Proof.
  unfold by_month. apply groupby_length_incl.
  - intros a b. apply Z.compare_eq.
  - intros a b H. apply Z.compare_gt_iff in H. now apply Z.compare_lt_iff.
  - intros a b c. rewrite !Z.compare_lt_iff. lia.
  - intros a. rewrite Z.compare_refl. discriminate.
  - rewrite !map_map. cbn [fst]. intros k Hk.
    apply in_map_iff in Hk as (r & <- & Hr).
    apply in_map_iff. exists r. split; [reflexivity|].
    unfold debits in *. rewrite filter_In in *.
    destruct Hr as [Hr ?]. apply filter_In in Hr. tauto.
Qed.

Lemma monthly_category_length l c :
  (List.length (monthly_category l c)
   <= List.length (monthly_expense_series l))%nat.
Proof.
  unfold monthly_category, monthly_expense_series, monthly_debit_sums.
  rewrite !length_map. apply by_month_length_filter.
Qed.

(* ================================================================= *)
(** ** The health scorer *)

Module HealthFacts.
Import FinancialHealthAnalyzer.
Local Open Scope string_scope.

Ltac banded :=
  repeat match goal with
         | |- context [if ?b then _ else _] => destruct b
         end;
  unfold in_range; split; lra.

Lemma savings_rate_score_in_range df :
  in_range (_calculate_savings_rate_score df).
Proof.
  unfold _calculate_savings_rate_score.
  destruct (savings_rates (rows df)); banded.
Qed.

Lemma consistency_score_in_range df :
  in_range (_calculate_consistency_score df).
Proof. unfold _calculate_consistency_score. cbv zeta. banded. Qed.

Lemma balance_step_le spending total score entry :
  balance_step spending total score entry <= score.
Proof.
  unfold balance_step.
  destruct (lookup String.compare (fst entry) spending) as [spent|]; [|lra].
  set (deviation := Qabs (spent / total - snd entry)).
  assert (0 <= deviation) by apply Qabs_nonneg.
  destruct (Qpymin_cases 30 (deviation * 200)) as [[-> _]|[-> _]]; lra.
Qed.

Lemma balance_fold_le spending total entries score :
  fold_left (balance_step spending total) entries score <= score.
Proof.
  revert score. induction entries as [|e entries IH]; intro score; simpl.
  - lra.
  - eapply Qle_trans; [apply IH|apply balance_step_le].
Qed.

Lemma category_balance_score_in_range df :
  in_range (_calculate_category_balance_score df).
Proof.
  unfold _calculate_category_balance_score.
  destruct (negb (has_category df)); [unfold in_range; split; lra|].
  cbv zeta. destruct (Qeq_bool _ 0); [unfold in_range; split; lra|].
  match goal with |- in_range (Qpymax 40 ?x) =>
    pose proof (balance_fold_le
                  (category_spending (rows df))
                  (Qsum (map snd (category_spending (rows df))))
                  recommended_ratios 100) as L;
    destruct (Qpymax_cases 40 x) as [[-> _]|[-> G]]
  end; unfold in_range; split; lra.
Qed.

Lemma debt_management_score_in_range df :
  in_range (_calculate_debt_management_score df).
Proof. unfold _calculate_debt_management_score. cbv zeta. banded. Qed.

Lemma income_stability_score_in_range df :
  in_range (_calculate_income_stability_score df).
Proof. unfold _calculate_income_stability_score. cbv zeta. banded. Qed.

Lemma emergency_fund_score_in_range df :
  in_range (_calculate_emergency_fund_score df).
Proof. unfold _calculate_emergency_fund_score. cbv zeta. banded. Qed.

Lemma weights_sum_to_one : Qsum (map snd score_weights) == 1.
Proof. reflexivity. Qed.

Lemma scores_of_in_range df :
  Forall (fun s => in_range (snd s)) (scores_of df).
Proof.
  unfold scores_of. repeat constructor; simpl.
  all: first [ apply savings_rate_score_in_range
             | apply consistency_score_in_range
             | apply category_balance_score_in_range
             | apply debt_management_score_in_range
             | apply income_stability_score_in_range
             | apply emergency_fund_score_in_range ].
Qed.

Lemma weighted_total_in_range df :
  in_range (weighted_total (scores_of df)).
Proof.
  pose proof (savings_rate_score_in_range df) as [? ?].
  pose proof (consistency_score_in_range df) as [? ?].
  pose proof (category_balance_score_in_range df) as [? ?].
  pose proof (debt_management_score_in_range df) as [? ?].
  pose proof (income_stability_score_in_range df) as [? ?].
  pose proof (emergency_fund_score_in_range df) as [? ?].
  unfold weighted_total, scores_of.
  cbn [map fst snd Qsum fold_right].
  change (weight_of "savings_rate") with 0.25.
  change (weight_of "spending_consistency") with 0.20.
  change (weight_of "category_balance") with 0.15.
  change (weight_of "debt_management") with 0.15.
  change (weight_of "income_stability") with 0.15.
  change (weight_of "emergency_fund") with 0.10.
  unfold in_range. split; lra.
Qed.

Lemma tenths_in_range k : (0 <= k <= 1000)%Z -> in_range (inject_Z k / 10).
Proof.
  intros [H0 H1]. unfold in_range, Qle, Qdiv, Qmult, Qinv, inject_Z.
  simpl Qnum. simpl Qden. lia.
Qed.

Lemma round1_in_range x : in_range x -> in_range (round1 x).
Proof.
  intros [H0 H1]. unfold round1. cbv zeta.
  unfold Qle in H0, H1. simpl Qnum in H0, H1. simpl Qden in H0, H1.
  set (N := (Qnum x * 10)%Z). set (D := QDen x).
  assert (HD : (0 < D)%Z) by (unfold D; lia).
  assert (HN : (0 <= N <= 1000 * D)%Z) by (unfold N, D in *; lia).
  pose proof (Z.div_mod N D ltac:(lia)) as E.
  pose proof (Z.mod_pos_bound N D HD) as B.
  assert (Q0 : (0 <= N / D)%Z) by (apply Z.div_pos; lia).
  assert (Q1 : (N / D <= 1000)%Z).
  { apply Z.div_le_upper_bound; lia. }
  apply tenths_in_range.
  destruct (2 * (N mod D) ?= D)%Z eqn:C.
  - destruct (Z.odd (N / D)) eqn:O; [|lia].
    assert (N / D <> 1000)%Z by (intro X; rewrite X in O; discriminate).
    lia.
  - lia.
  - apply Z.compare_gt_iff in C.
    assert (N / D <> 1000)%Z by nia.
    lia.
Qed.

(** C9.  Whenever [calculate_health_score] returns, the six component
    scores lie between 0 and 100, the weights sum to 1, and the
    weighted total, before and after rounding, lies between 0 and 100. *)
Theorem health_scores_within_0_100 (df : frame) (h : health) :
  calculate_health_score df = Ok h ->
  map fst (component_scores h) = map fst score_weights
  /\ Forall (fun s => in_range (snd s)) (component_scores h)
  /\ Qsum (map snd score_weights) == 1
  /\ in_range (weighted_total (component_scores h))
  /\ total_score h = round1 (weighted_total (component_scores h))
  /\ in_range (total_score h).
Proof.
  unfold calculate_health_score.
  destruct (_generate_health_insights (scores_of df) df); [|discriminate].
  intro H. injection H as <-. simpl.
  split; [reflexivity|].
  split; [apply scores_of_in_range|].
  split; [reflexivity|].
  split; [apply weighted_total_in_range|].
  split; [reflexivity|].
  apply round1_in_range, weighted_total_in_range.
Qed.

(** C9, witness: the table [salary_and_rent]. *)
Lemma health_scores_witness :
  exists h,
    calculate_health_score salary_and_rent = Ok h
    /\ Forall (fun s => in_range (snd s)) (component_scores h)
    /\ in_range (total_score h).
Proof.
  eexists. split; [vm_compute; reflexivity|].
  split;
    apply (health_scores_within_0_100 salary_and_rent); vm_compute; reflexivity.
Defined.

End HealthFacts.

Module RaiseFacts.
Import FinancialHealthAnalyzer.
Local Open Scope string_scope.

(** C3 (the code departs from the claim).  On a categorized table
    without any expense [calculate_health_score] raises [ValueError]:
    [idxmax] is called on the empty series of category spending. *)
Theorem health_score_raises_without_expenses :
  ExpenseCategorizer.categorize_rows (rows salary_only) = rows salary_only
  /\ category_spending (rows salary_only) = []
  /\ calculate_health_score salary_only = Raise ValueError.
Proof. repeat split; vm_compute; reflexivity. Qed.

Lemma insert_desc_not_nil {A : Type} (gt : A -> A -> bool) x l :
  insert_desc gt x l <> [].
Proof. destruct l as [|y l]; simpl; [easy|]. now destruct (gt y x). Qed.

(** The same on every table that has a [category] column and no row
    with a negative amount. *)
Lemma health_score_raises_on_every_expense_free_table df :
  has_category df = true -> debits (rows df) = [] ->
  calculate_health_score df = Raise ValueError.
Proof.
  intros C D. unfold calculate_health_score, _generate_health_insights.
  destruct (sort_desc score_gt (scores_of df)) as [|strongest rest] eqn:E.
  - exfalso. unfold scores_of, sort_desc in E. cbn [fold_right] in E.
    eapply insert_desc_not_nil, E.
  - rewrite C. unfold category_spending. rewrite D. reflexivity.
Qed.

End RaiseFacts.

(* ================================================================= *)
(** ** The predictive engine *)

Lemma Qlen_of_length {A : Type} (l : list A) n :
  List.length l = n -> Qlen l = inject_Z (Z.of_nat n).
Proof. intros <-. reflexivity. Qed.

Lemma flat_map_nil {A B : Type} (f : A -> list B) l :
  (forall x, In x l -> f x = []) -> flat_map f l = [].
Proof.
  induction l as [|x l IH]; intro H; simpl; [reflexivity|].
  rewrite (H x) by (simpl; auto).
  apply IH. intros y Hy. apply H. simpl. auto.
Qed.

Module PredictiveFacts.
Import PredictiveAnalytics.
Local Open Scope string_scope.

Lemma Qsum_squares_nonneg (f : Q -> Q) l :
  0 <= Qsum (map (fun x => f x * f x) l).
Proof.
  induction l as [|x l IH]; simpl; [lra|].
  assert (S : 0 <= f x * f x) by nra.
  change (0 <= f x * f x + Qsum (map (fun x => f x * f x) l)). nra.
Qed.

Lemma square_le_sum_squares (f : Q -> Q) l a :
  In a l -> f a * f a <= Qsum (map (fun x => f x * f x) l).
Proof.
  induction l as [|x l IH]; simpl; [easy|].
  pose proof (Qsum_squares_nonneg f l) as N.
  assert (S : 0 <= f x * f x) by nra.
  change (Qsum (map (fun x => f x * f x) l))
    with (Qsum (map (fun x0 => f x0 * f x0) l)) in *.
  intros [->|H].
  - change (f a * f a <= f a * f a + Qsum (map (fun x => f x * f x) l)). lra.
  - specialize (IH H).
    change (f a * f a <= f x * f x + Qsum (map (fun x => f x * f x) l)). lra.
Qed.

(** A z-score never exceeds the square root of [n - 1]: the squared
    deviation of one value is at most the sum of all of them. *)
Lemma z_gt_bounded series a t :
  In a series -> (2 <= List.length series)%nat ->
  0 <= t -> Qlen series - 1 <= t * t ->
  z_gt series a t = false.
Proof.
  intros Hin Hlen Ht Hn. unfold z_gt. cbv zeta.
  destruct (Qltb 0 (variance series)) eqn:V.
  - apply Qltb_lt in V. unfold abs_over_root_gt. apply Qltb_ge.
    pose proof (square_le_sum_squares (fun x => x - Qmean series) series a Hin)
      as S. cbv beta in S.
    unfold variance in *.
    set (SS := Qsum (map (fun x => (x - Qmean series) * (x - Qmean series))
                       series)) in *.
    set (d := a - Qmean series) in *.
    assert (P : 0 < Qlen series - 1).
    { unfold Qlen. 
      assert (1 < inject_Z (Z.of_nat (List.length series))).
      { change 1 with (inject_Z 1). rewrite <- Zlt_Qlt. lia. }
      lra. }
    set (n1 := Qlen series - 1) in *.
    assert (E : SS == SS / n1 * n1) by (field; lra).
    assert (0 <= SS / n1) by lra.
    nra.
  - apply Qltb_ge. exact Ht.
Qed.

Lemma anomalies_in_few_months what who series t :
  0 <= t -> Qlen series - 1 <= t * t ->
  anomalies_in what who series t = [].
Proof.
  intros Ht Hn. unfold anomalies_in.
  destruct (3 <=? List.length series)%nat eqn:L; [|reflexivity].
  apply Nat.leb_le in L.
  assert (Hlen : (2 <= List.length (map snd series))%nat)
    by (rewrite length_map; lia).
  assert (HQ : Qlen (map snd series) - 1 <= t * t).
  { unfold Qlen in *. now rewrite length_map. }
  assert (F : forall p, In p series ->
                z_gt (map snd series) (snd p) t = false).
  { intros p Hp. apply z_gt_bounded; auto. now apply in_map. }
  apply flat_map_nil. intros p Hp. now rewrite (F p Hp).
Qed.

Lemma Qlen_le {A : Type} (l : list A) (n : nat) :
  (List.length l <= n)%nat -> Qlen l <= inject_Z (Z.of_nat n).
Proof. intro H. unfold Qlen. rewrite <- Zle_Qle. lia. Qed.

(** With at most five months of expenses nothing is ever flagged. *)
Lemma no_anomaly_within_five_months df :
  (List.length (monthly_expense_series (rows df)) <= 5)%nat ->
  detect_spending_anomalies df = [].
Proof.
  intro H. unfold detect_spending_anomalies.
  rewrite anomalies_in_few_months; cycle 1.
  { lra. }
  { pose proof (Qlen_le _ _ H) as L.
    change (inject_Z (Z.of_nat 5)) with 5 in L. lra. }
  destruct (has_category df); [|reflexivity].
  apply flat_map_nil. intros c _.
  apply anomalies_in_few_months; [lra|].
  pose proof (monthly_category_length (rows df) c) as M.
  assert (L : (List.length (monthly_category (rows df) c) <= 5)%nat) by lia.
  apply Qlen_le in L. change (inject_Z (Z.of_nat 5)) with 5 in L. lra.
Qed.

(** C2, amended.  For every table whose whole-portfolio monthly expense
    series is 100, 100, 100, 100, 500, [detect_spending_anomalies] flags
    no month: the z-score of the 500 month is 320 / sqrt 32000, which
    does not exceed 2. *)
Theorem series_100_100_100_100_500_is_not_flagged (df : frame) :
  Forall2 Qeq (map snd (monthly_expense_series (rows df)))
    [100; 100; 100; 100; 500] ->
  detect_spending_anomalies df = []
  /\ z_gt [100; 100; 100; 100; 500] 500 2 = false.
Proof.
  intro H. split; [|reflexivity].
  apply no_anomaly_within_five_months.
  apply Forall2_length in H. rewrite length_map in H. rewrite H.
  simpl. lia.
Qed.

(** C2, witness: the five-month table [spike_in_may]. *)
Lemma series_not_flagged_witness :
  map snd (monthly_expense_series (rows spike_in_may))
  = [100; 100; 100; 100; 500]
  /\ detect_spending_anomalies spike_in_may = [].
Proof.
  split; [reflexivity|].
  apply (series_100_100_100_100_500_is_not_flagged spike_in_may).
  repeat constructor.
Defined.

(** C2, counterexample to the claim as stated: on [spike_in_may] no
    anomaly of severity high is reported for the 500 month. *)
Lemma spike_month_is_not_flagged :
  map snd (monthly_expense_series (rows spike_in_may))
  = [100; 100; 100; 100; 500]
  /\ ~ exists a, In a (detect_spending_anomalies spike_in_may)
                 /\ spent a == 500 /\ severity a = "high".
Proof.
  split; [reflexivity|].
  intros (a & H & _). vm_compute in H. exact H.
Qed.

End PredictiveFacts.

Module ForecastFacts.
Import PredictiveAnalytics.
Local Open Scope string_scope.

(** C1 (the code departs from the claim).  On a table whose monthly
    expense series is 100, 200, 300, 400 the fitted line has slope 100
    and intercept 100, and [predict_future_spending] with
    [months_ahead = 1] returns its value at index [len + 1 = 5], that
    is 600, as the forecast for the month after the last one (index 4,
    where the line is at 500). *)
Lemma linear_history_forecast :
  map snd (monthly_expense_series (rows linear_history))
  = [100; 200; 300; 400]
  /\ map Qred
       [fst (polyfit1 [100; 200; 300; 400]);
        snd (polyfit1 [100; 200; 300; 400])]
     = [100; 100]
  /\ map Qred
       (predictions
          (predict_future_spending (mkdate 2024 5 1) linear_history 1))
     = [600]
  /\ future_months
       (predict_future_spending (mkdate 2024 5 1) linear_history 1)
     = [month_year (mkdate 2024 5 1)].
Proof. repeat split; vm_compute; reflexivity. Qed.

Lemma polyfit1_four y1 y2 y3 y4 :
  fst (polyfit1 [y1; y2; y3; y4]) == (3 * y4 + y3 - y2 - 3 * y1) / 10
  /\ snd (polyfit1 [y1; y2; y3; y4]) == (7 * y1 + 4 * y2 + y3 - 2 * y4) / 10.
Proof.
  unfold polyfit1. cbv zeta.
  change (indices (List.length [y1; y2; y3; y4])) with [0; 1; 2; 3].
  change (Qlen [y1; y2; y3; y4]) with 4.
  cbn [combine map Qsum fold_right fst snd].
  split; field.
Qed.

(** Whatever the table, a monthly expense series 100, 200, 300, 400
    gives a one-month forecast of 600. *)
Lemma forecast_of_linear_series now df :
  Forall2 Qeq (map snd (monthly_expense_series (rows df)))
    [100; 200; 300; 400] ->
  exists p,
    predictions (predict_future_spending now df 1) = [p] /\ p == 600.
Proof.
  intro H. unfold predict_future_spending.
  set (monthly_data := monthly_expense_series (rows df)) in *.
  assert (L : List.length monthly_data = 4%nat).
  { rewrite <- (length_map snd). now rewrite (Forall2_length H). }
  rewrite L. cbn [Nat.ltb Nat.leb seq map].
  unfold _get_seasonal_factor. rewrite L. cbn [Nat.ltb Nat.leb].
  rewrite (Qlen_of_length monthly_data 4 L).
  destruct (map snd monthly_data) as [|y1 [|y2 [|y3 [|y4 [|? ?]]]]] eqn:E;
    try (exfalso; apply Forall2_length in H; simpl in H; lia).
  inversion H as [|? ? ? ? H1 Ha]; subst.
  inversion Ha as [|? ? ? ? H2 Hb]; subst.
  inversion Hb as [|? ? ? ? H3 Hc]; subst.
  inversion Hc as [|? ? ? ? H4 _]; subst.
  destruct (polyfit1_four y1 y2 y3 y4) as [S I].
  eexists. split; [reflexivity|].
  assert (V : fst (polyfit1 [y1; y2; y3; y4])
              * (inject_Z (Z.of_nat 4) + inject_Z (Z.of_nat 1))
              + snd (polyfit1 [y1; y2; y3; y4]) == 600).
  { rewrite S, I, H1, H2, H3, H4. reflexivity. }
  destruct (Qpymax_cases 0
              ((fst (polyfit1 [y1; y2; y3; y4])
                * (inject_Z (Z.of_nat 4) + inject_Z (Z.of_nat 1))
                + snd (polyfit1 [y1; y2; y3; y4])) * 1))
    as [[-> G]|[-> _]]; lra.
Qed.

End ForecastFacts.

(* ================================================================= *)
(** ** The alert engine *)

Module AlertFacts.
Import SmartAlertsSystem.
Local Open Scope string_scope.

Lemma priority_gt_outranks a b : priority_gt a b = true -> outranks a b.
Proof. unfold priority_gt, outranks. rewrite Z.ltb_lt. lia. Qed.

Lemma not_priority_gt_outranks a b : priority_gt a b = false -> outranks b a.
Proof. unfold priority_gt, outranks. rewrite Z.ltb_ge. lia. Qed.

Lemma outranks_trans a b c : outranks a b -> outranks b c -> outranks a c.
Proof. unfold outranks. lia. Qed.

Lemma sorted_alerts_sorted l :
  StronglySorted outranks (sort_desc priority_gt l).
Proof.
  apply sort_desc_sorted.
  - exact outranks_trans.
  - exact priority_gt_outranks.
  - exact not_priority_gt_outranks.
Qed.

(** A type that the table does not list has priority 1. *)
Lemma unknown_alert_priority t :
  ~ In t (map fst priority_scores) -> _get_alert_priority t = 1%Z.
Proof.
  unfold _get_alert_priority.
  induction priority_scores as [|[k p] l IH]; simpl; intro H; [reflexivity|].
  destruct (String.compare t k) eqn:E.
  - apply String.compare_eq_iff in E. subst. exfalso. apply H. now left.
  - apply IH. tauto.
  - apply IH. tauto.
Qed.

Lemma priority_gt_differs a b :
  priority_gt a b = true ->
  _get_alert_priority (alert_type a) <> _get_alert_priority (alert_type b).
Proof. unfold priority_gt. rewrite Z.ltb_lt. lia. Qed.

(** C6.  [generate_alerts] returns at most 10 alerts in decreasing
    order of the priority table; a budget warning always stands before
    a missing recurring expense; and what is returned is the head of a
    rearrangement of the alerts the six checks produced, the alerts
    left out having no higher priority than those kept, and the alerts
    of one priority standing in the order in which the checks produced
    them.  Nothing is left out without need: the number of alerts
    returned is the number produced, capped at 10.  When a budget
    warning is produced and a missing recurring expense is returned,
    the budget warning is returned as well, at an earlier place.  On
    the sample table the four alerts produced come back in the order
    spike, budget warning, trend, missing recurring expense. *)
Theorem generate_alerts_top10_by_priority
  (now : date) (df : frame) (budgets : list (string * Q)) :
  let out := generate_alerts now df budgets in
  (List.length out <= 10)%nat
  /\ StronglySorted outranks out
  /\ map _get_alert_priority
       ["budget_exceeded"; "spending_spike"; "budget_warning";
        "unusual_transaction"; "category_overspend"; "upward_trend";
        "missing_recurring"; "some_other_type"]
     = [10; 9; 8; 7; 6; 5; 3; 1]%Z
  /\ (forall i j a b,
         nth_error out i = Some a -> nth_error out j = Some b ->
         alert_type a = "budget_warning" ->
         alert_type b = "missing_recurring" -> (i < j)%nat)
  /\ (exists dropped,
         Permutation (out ++ dropped) (collect_alerts now df budgets)
         /\ (forall a b, In a out -> In b dropped -> outranks a b)
         /\ (forall p,
               filter (fun a => (_get_alert_priority (alert_type a) =? p)%Z)
                 (out ++ dropped)
               = filter (fun a => (_get_alert_priority (alert_type a) =? p)%Z)
                   (collect_alerts now df budgets)))
  /\ List.length out
     = Nat.min 10 (List.length (collect_alerts now df budgets))
  /\ (forall a b,
         In a (collect_alerts now df budgets) -> In b out ->
         alert_type a = "budget_warning" ->
         alert_type b = "missing_recurring" ->
         exists i j, nth_error out i = Some a /\ nth_error out j = Some b
                     /\ (i < j)%nat)
  /\ map alert_type
       (generate_alerts (mkdate 2024 6 20) lapsed_membership food_budget)
     = ["spending_spike"; "budget_warning"; "upward_trend";
        "missing_recurring"].
Proof.
  intro out. unfold out, generate_alerts.
  set (sorted := sort_desc priority_gt (collect_alerts now df budgets)).
  assert (S : StronglySorted outranks sorted) by apply sorted_alerts_sorted.
  assert (F : StronglySorted outranks (firstn 10 sorted)).
  { apply firstn_sorted; auto. }
  assert (P : Permutation sorted (collect_alerts now df budgets))
    by apply sort_desc_perm.
  assert (O : forall i j a b,
             nth_error (firstn 10 sorted) i = Some a ->
             nth_error (firstn 10 sorted) j = Some b ->
             alert_type a = "budget_warning" ->
             alert_type b = "missing_recurring" -> (i < j)%nat).
  { intros i j a b Hi Hj Ha Hb.
    destruct (Nat.lt_trichotomy i j) as [L|[E|G]]; [exact L| |].
    + subst j. rewrite Hi in Hj. injection Hj as <-.
      rewrite Ha in Hb. discriminate.
    + pose proof (sorted_nth_error outranks _ _ _ _ _ F G Hj Hi) as R.
      unfold outranks in R. rewrite Ha, Hb in R.
      vm_compute in R. now contradiction R. }
  assert (D : forall a b, In a (firstn 10 sorted) -> In b (skipn 10 sorted) ->
                          outranks a b).
  { intros a b Ha Hb.
    rewrite <- (firstn_skipn 10 sorted) in S.
    clear F O. induction (firstn 10 sorted) as [|x xs IH]; [easy|].
    simpl in S. inversion S as [|? ? S' Hx]; subst.
    destruct Ha as [->|Ha]; [|auto].
    rewrite Forall_forall in Hx. apply Hx. apply in_or_app. now right. }
  split; [apply firstn_le_length|].
  split; [exact F|].
  split; [reflexivity|].
  split; [exact O|].
  split.
  { exists (skipn 10 sorted). split; [|split].
    - rewrite firstn_skipn. exact P.
    - exact D.
    - intros p. rewrite firstn_skipn.
      apply (sort_desc_stable priority_gt
               (fun a => _get_alert_priority (alert_type a))
               priority_gt_differs). }
  split.
  { rewrite length_firstn. now rewrite (Permutation_length P). }
  split; [|vm_compute; reflexivity].
  intros a b Ia Ib Ha Hb.
  assert (Ja : In a (firstn 10 sorted)).
  { apply (Permutation_in a (Permutation_sym P)) in Ia.
    rewrite <- (firstn_skipn 10 sorted) in Ia.
    apply in_app_or in Ia as [Ia|Ia]; [exact Ia|].
    pose proof (D b a Ib Ia) as R.
    unfold outranks in R. rewrite Ha, Hb in R.
    vm_compute in R. now contradiction R. }
  apply In_nth_error in Ja as [i Hi].
  apply In_nth_error in Ib as [j Hj].
  exists i, j. split; [exact Hi|]. split; [exact Hj|].
  exact (O i j a b Hi Hj Ha Hb).
Qed.

(** A table on which both alerts are produced: the budget warning comes
    before the missing recurring expense. *)
Example warning_before_missing_recurring :
  map alert_type
    (collect_alerts (mkdate 2024 6 20) lapsed_membership food_budget)
  = ["budget_warning"; "spending_spike"; "upward_trend"; "missing_recurring"]
  /\ map alert_type
       (generate_alerts (mkdate 2024 6 20) lapsed_membership food_budget)
     = ["spending_spike"; "budget_warning"; "upward_trend";
        "missing_recurring"].
Proof. split; vm_compute; reflexivity. Qed.

End AlertFacts.

(* ================================================================= *)
(** ** The goal engine *)

Module GoalFacts.
Import GoalTracker.
Local Open Scope string_scope.

Lemma mean_cases l : mean l = NaN \/ exists q, mean l = Fin q.
Proof. destruct l; simpl; eauto. Qed.

Lemma current_savings_finite df :
  _calculate_current_savings df = Fin (current_savings df).
Proof.
  unfold current_savings, _calculate_current_savings,
    mean_monthly_income, mean_monthly_expenses.
  destruct (mean_cases (map snd (monthly_income_series (rows df))))
    as [-> | [a ->]];
  destruct (mean_cases (map snd (monthly_debit_sums (rows df))))
    as [-> | [b ->]]; simpl; try reflexivity.
  unfold pymax, fgtb. simpl. now destruct (Qltb 0 (a + - Qabs b)).
Qed.

Lemma key_gt_saves a b : key_gt a b = true -> saves_at_least a b.
Proof.
  unfold key_gt, saves_at_least. rewrite orb_true_iff, andb_true_iff.
  intros [H|[H _]].
  - apply Qltb_lt in H. lra.
  - apply Qeq_bool_iff in H. lra.
Qed.

Lemma not_key_gt_saves a b : key_gt a b = false -> saves_at_least b a.
Proof.
  unfold key_gt, saves_at_least. rewrite orb_false_iff.
  intros [H _]. now apply Qltb_ge in H.
Qed.

Lemma saves_at_least_trans a b c :
  saves_at_least a b -> saves_at_least b c -> saves_at_least a c.
Proof. unfold saves_at_least. lra. Qed.

(** C7, amended.  On a table with a [category] column
    [generate_savings_strategies] returns at most 5 strategies in
    decreasing order of potential savings; on a table without one it
    returns the three default strategies as they are listed. *)
Theorem strategies_ranked_by_savings (g : goal) (df : frame) :
  if has_category df
  then StronglySorted saves_at_least (generate_savings_strategies g df)
       /\ (List.length (generate_savings_strategies g df) <= 5)%nat
  else generate_savings_strategies g df = _get_default_strategies g.
Proof.
  unfold generate_savings_strategies.
  destruct (has_category df); cbn [negb]; [|reflexivity].
  destruct (Qle_bool _ 0).
  - split; [repeat constructor|simpl; lia].
  - split; [|apply firstn_le_length].
    apply firstn_sorted, sort_desc_sorted.
    + exact saves_at_least_trans.
    + exact key_gt_saves.
    + exact not_key_gt_saves.
Qed.

(** C7, counterexample to the claim as stated: with a [category]
    column two strategies that save 150 each come out with the hard one
    before the medium one; without it the default strategies come out
    as 45, 150, 75. *)
Lemma strategies_order_counterexample :
  map shown (generate_savings_strategies laptop (mkframe true None tight_month))
  = [ ("Combination Approach", 300, "Medium");
      ("Increase Income", 150, "Hard");
      ("Reduce Housing Spending", 150, "Medium") ]
  /\ ~ StronglySorted easier_first
        (generate_savings_strategies laptop (mkframe true None tight_month))
  /\ map shown
       (generate_savings_strategies laptop (mkframe false None tight_month))
     = [ ("Create a Budget", 45, "Easy");
         ("Automate Savings", 150, "Easy");
         ("Reduce Discretionary Spending", 75, "Medium") ]
  /\ ~ StronglySorted saves_at_least
        (generate_savings_strategies laptop (mkframe false None tight_month)).
Proof.
  assert (E1 : map shown
                 (generate_savings_strategies laptop
                    (mkframe true None tight_month))
               = [ ("Combination Approach", 300, "Medium");
                   ("Increase Income", 150, "Hard");
                   ("Reduce Housing Spending", 150, "Medium") ])
    by (vm_compute; reflexivity).
  assert (E2 : map shown
                 (generate_savings_strategies laptop
                    (mkframe false None tight_month))
               = [ ("Create a Budget", 45, "Easy");
                   ("Automate Savings", 150, "Easy");
                   ("Reduce Discretionary Spending", 75, "Medium") ])
    by (vm_compute; reflexivity).
  split; [exact E1|]. split; [|split; [exact E2|]].
  - intro S.
    destruct (generate_savings_strategies laptop (mkframe true None tight_month))
      as [|a [|b [|c [|? ?]]]]; try discriminate E1.
    cbn [map] in E1. unfold shown in E1.
    assert (Pb : Qred (potential_savings b) = 150) by congruence.
    assert (Pc : Qred (potential_savings c) = 150) by congruence.
    assert (Db : difficulty b = "Hard") by congruence.
    assert (Dc : difficulty c = "Medium") by congruence.
    apply StronglySorted_inv in S as [S _].
    apply StronglySorted_inv in S as [_ S].
    apply Forall_inv in S. unfold easier_first in S.
    pose proof (Qred_correct (potential_savings b)) as Qb.
    pose proof (Qred_correct (potential_savings c)) as Qc.
    rewrite Pb in Qb. rewrite Pc in Qc. rewrite Db, Dc in S.
    destruct S as [S|[_ S]]; [lra|].
    vm_compute in S. now apply S.
  - intro S.
    destruct (generate_savings_strategies laptop (mkframe false None tight_month))
      as [|a [|b [|c [|? ?]]]]; try discriminate E2.
    cbn [map] in E2. unfold shown in E2.
    assert (Pa : Qred (potential_savings a) = 45) by congruence.
    assert (Pb : Qred (potential_savings b) = 150) by congruence.
    apply StronglySorted_inv in S as [_ S].
    apply Forall_inv in S. unfold saves_at_least in S.
    pose proof (Qred_correct (potential_savings a)) as Qa.
    pose proof (Qred_correct (potential_savings b)) as Qb.
    rewrite Pa in Qa. rewrite Pb in Qb. lra.
Qed.

End GoalFacts.

Module FeasibilityFacts.
Import GoalTracker.
Local Open Scope string_scope.

(** C4 (the code departs from the claim).  On a table without income
    [analyze_goal_feasibility] returns a report, and the
    [current_monthly_savings] of that report is not a number, while
    [_calculate_current_savings] returns 0 on the same table. *)
Theorem current_savings_nan_without_income :
  mean_monthly_income (rows rent_only) = NaN
  /\ (exists r, analyze_goal_feasibility holiday rent_only = Ok r
                /\ current_monthly_savings r = NaN
                /\ is_finite (current_monthly_savings r) = false)
  /\ _calculate_current_savings rent_only = Fin 0.
Proof.
  split; [reflexivity|]. split; [|reflexivity].
  eexists. split; [reflexivity|]. split; reflexivity.
Qed.

(** The same on every table without a positive amount, whatever the
    goal: the report, when there is one, holds a value that is not a
    number; there is none when the goal needs no more savings, because
    the division of the success probability raises. *)
Lemma current_savings_nan_on_every_income_free_table g df :
  credits (rows df) = [] ->
  match analyze_goal_feasibility g df with
  | Ok r => current_monthly_savings r = NaN
  | Raise e => e = ZeroDivisionError /\ monthly_savings_needed g == 0
  end.
Proof.
  intro C. unfold analyze_goal_feasibility, truediv, mean_monthly_income,
    monthly_income_series. rewrite C. cbn [groupby map python_mean andb feqb].
  destruct (Qeq_bool (monthly_savings_needed g) 0) eqn:E.
  - split; [reflexivity | now apply Qeq_bool_iff].
  - reflexivity.
Qed.

End FeasibilityFacts.

(* ================================================================= *)
(** ** The store: what a call changes *)

Module SessionFacts.
Import Session.
Local Open Scope nat_scope.

Lemma keeps_ret {A : Type} n (P : A -> Prop) a : P a -> keeps n P (ret a).
Proof. intros H s Hs. simpl. auto. Qed.

Lemma keeps_bind {A B : Type} n (P : A -> Prop) (Q : B -> Prop) c k :
  keeps n P c -> (forall a, P a -> keeps n Q (k a)) -> keeps n Q (bind c k).
Proof.
  intros Hc Hk s Hs. unfold bind.
  destruct (Hc s Hs) as (E & L & Pa).
  destruct (c s) as [a s1]. simpl in *.
  destruct (Hk a Pa s1 L) as (E' & L' & Qb).
  repeat split; auto. congruence.
Qed.

Lemma keeps_weaken {A : Type} n (P Q : A -> Prop) c :
  keeps n P c -> (forall a, P a -> Q a) -> keeps n Q c.
Proof.
  intros Hc HPQ s Hs. destruct (Hc s Hs) as (E & L & Pa). auto.
Qed.

Lemma keeps_load n r : keeps n (fun _ => True) (load r).
Proof. intros s Hs. simpl. auto. Qed.

Lemma keeps_alloc n f : keeps n (fun r => n <= r) (alloc f).
Proof.
  intros s Hs. simpl. rewrite length_app. simpl.
  repeat split; try lia.
  rewrite firstn_app. replace (n - List.length s) with 0 by lia.
  simpl. apply app_nil_r.
Qed.

Lemma length_update r g s : List.length (update r g s) = List.length s.
Proof.
  revert r. induction s as [|f s IH]; intros [|r]; simpl; auto.
Qed.

Lemma firstn_update n r g s : n <= r -> firstn n (update r g s) = firstn n s.
Proof.
  revert n r. induction s as [|f s IH]; intros [|n] [|r] H; simpl; auto;
    try lia.
  f_equal. apply IH. lia.
Qed.

Lemma keeps_modify n r g : n <= r -> keeps n (fun _ => True) (modify r g).
Proof.
  intros H s Hs. simpl. rewrite length_update, firstn_update; auto.
Qed.

Lemma keeps_for_each {A : Type} n (l : list A) body :
  (forall x, keeps n (fun _ => True) (body x)) ->
  keeps n (fun _ => True) (for_each l body).
Proof.
  intro H. induction l as [|x l IH]; simpl.
  - apply keeps_ret; exact I.
  - eapply keeps_bind; [apply H|]. intros _ _. exact IH.
Qed.

Ltac keeps_step :=
  first
    [ apply keeps_load
    | apply keeps_alloc
    | apply keeps_modify; lia
    | apply keeps_ret; try exact I ].

Lemma keeps_copy n df : keeps n (fun r => n <= r) (copy df).
Proof.
  unfold copy. eapply keeps_bind; [apply keeps_load|].
  intros f _. apply keeps_alloc.
Qed.

Lemma keeps_categorize n df :
  keeps n (fun _ => True) (categorize_transactions df).
Proof.
  unfold categorize_transactions.
  eapply keeps_bind; [apply keeps_copy|]. intros r Hr. cbv beta in Hr.
  eapply keeps_bind; [apply keeps_load|]. intros f _.
  eapply keeps_bind.
  { instantiate (1 := fun _ => True).
    destruct (negb (has_category f)); keeps_step. }
  intros _ _.
  eapply keeps_bind.
  { apply keeps_for_each. intro i.
    eapply keeps_bind; [apply keeps_load|]. intros g _.
    destruct (nth_error (rows g) i); keeps_step. }
  intros _ _. apply keeps_ret; exact I.
Qed.

Lemma keeps_patterns n df :
  n <= df -> keeps n (fun _ => True) (_identify_spending_patterns df).
Proof.
  intro H. unfold _identify_spending_patterns.
  eapply keeps_bind; [apply keeps_load|]. intros f _.
  destruct (rows f); [apply keeps_ret; exact I|].
  eapply keeps_bind; [apply keeps_modify; lia|]. intros _ _.
  eapply keeps_bind; [apply keeps_load|]. intros g _.
  apply keeps_ret; exact I.
Qed.

Lemma keeps_calendar_view n now df y m :
  keeps n (fun _ => True) (create_calendar_view now df y m).
Proof.
  unfold create_calendar_view.
  eapply keeps_bind; [apply keeps_load|]. intros f _.
  eapply keeps_bind; [apply keeps_alloc|]. intros r Hr. cbv beta in Hr.
  eapply keeps_bind; [apply keeps_load|]. intros c _.
  eapply keeps_bind; [apply keeps_patterns; lia|]. intros pats _.
  destruct (FinancialCalendar._create_calendar_matrix _ _ _).
  - eapply keeps_bind; [apply keeps_load|]. intros c' _.
    apply keeps_ret; exact I.
  - apply keeps_ret; exact I.
Qed.

Lemma keeps_run n now call df : keeps n (fun _ => True) (run now call df).
Proof.
  destruct call; unfold run;
    (eapply (keeps_bind _ (fun _ => True)); [|intros; apply keeps_ret; exact I]).
  - apply keeps_categorize.
  - unfold calculate_health_score.
    eapply keeps_bind; [apply keeps_load|]. intros. apply keeps_ret. exact I.
  - unfold predict_future_spending.
    eapply keeps_bind; [apply keeps_load|]. intros. apply keeps_ret. exact I.
  - unfold detect_spending_anomalies.
    eapply keeps_bind; [apply keeps_load|]. intros. apply keeps_ret. exact I.
  - unfold generate_alerts.
    eapply keeps_bind; [apply keeps_load|]. intros. apply keeps_ret. exact I.
  - apply keeps_calendar_view.
  - unfold analyze_goal_feasibility.
    eapply keeps_bind; [apply keeps_load|]. intros. apply keeps_ret. exact I.
Qed.

Lemma nth_last (s : store) f : nth (List.length s) (s ++ [f]) no_frame = f.
Proof. rewrite app_nth2, Nat.sub_diag; auto. Qed.

Lemma update_last (s : store) g f :
  update (List.length s) g (s ++ [f]) = s ++ [g f].
Proof. induction s as [|x s IH]; simpl; [reflexivity|]. now rewrite IH. Qed.

Lemma for_each_rows idxs (s : store) g :
  for_each idxs
    (fun i =>
       h <- load (List.length s) ;;
       match nth_error (rows h) i with
       | Some row =>
           modify (List.length s)
             (set_category_at i
                (ExpenseCategorizer._categorize_single_transaction
                   (description row) (amount row)))
       | None => ret tt
       end)
    (s ++ [g])
  = (tt, s ++ [mkframe (has_category g) (is_weekend g)
                 (loop_rows idxs (rows g))]).
Proof.
  revert g. induction idxs as [|i idxs IH]; intro g.
  - simpl. unfold ret. now destruct g.
  - cbn [for_each]. unfold bind at 1. unfold bind at 1.
    unfold load at 1. rewrite nth_last.
    destruct (nth_error (rows g) i) as [row|] eqn:E.
    + unfold modify at 1. rewrite update_last. rewrite IH.
      simpl. now rewrite E.
    + unfold ret at 1. rewrite IH. simpl. rewrite E. now destruct g.
Qed.

Lemma set_nth_category_app pre r rest c :
  set_nth_category (List.length pre) c (pre ++ r :: rest)
  = pre ++ mktxn (tdate r) (description r) (amount r) c :: rest.
Proof. induction pre as [|x pre IH]; simpl; [reflexivity|]. now rewrite IH. Qed.

Lemma loop_rows_seq pre l :
  loop_rows (seq (List.length pre) (List.length l)) (pre ++ l)
  = pre ++ ExpenseCategorizer.categorize_rows l.
Proof.
  revert pre. induction l as [|r l IH]; intro pre; [reflexivity|].
  cbn [List.length seq]. unfold loop_rows. cbn [fold_left].
  rewrite nth_error_app2, Nat.sub_diag by lia. cbn [nth_error].
  rewrite set_nth_category_app.
  change (?a :: ?b) with ([a] ++ b) at 1. rewrite app_assoc.
  replace (S (List.length pre)) with (List.length (pre ++ [mktxn (tdate r) (description r) (amount r)
     (ExpenseCategorizer._categorize_single_transaction (description r) (amount r))]))
    by (rewrite length_app; simpl; lia).
  fold (loop_rows (seq (List.length (pre ++ [mktxn (tdate r) (description r) (amount r)
     (ExpenseCategorizer._categorize_single_transaction (description r) (amount r))])) (List.length l))
     ((pre ++ [mktxn (tdate r) (description r) (amount r)
     (ExpenseCategorizer._categorize_single_transaction (description r) (amount r))]) ++ l)).
  rewrite IH. rewrite <- app_assoc. reflexivity.
Qed.

Lemma categorize_rows_ignores_category l :
  ExpenseCategorizer.categorize_rows
    (map (fun r => mktxn (tdate r) (description r) (amount r) "Other") l)
  = ExpenseCategorizer.categorize_rows l.
Proof. unfold ExpenseCategorizer.categorize_rows. now rewrite map_map. Qed.

(** [categorize_transactions] allocates one frame, the categorized copy
    of its argument, and changes nothing else. *)
Lemma categorize_transactions_runs df s :
  categorize_transactions df s
  = (List.length s, s ++ [categorized (nth df s no_frame)]).
Proof.
  unfold categorize_transactions, copy.
  set (f := nth df s no_frame).
  unfold bind at 1. unfold bind at 1. unfold load at 1. fold f.
  unfold alloc at 1.
  unfold bind at 1. unfold load at 1. rewrite nth_last.
  unfold bind at 1.
  assert (E : forall g : frame,
             rows g = rows f \/
             rows g = map (fun r => mktxn (tdate r) (description r) (amount r)
                                      "Other") (rows f) ->
             has_category g = true -> is_weekend g = is_weekend f ->
             (for_each (seq 0 (List.length (rows f)))
                (fun i =>
                   h <- load (List.length s) ;;
                   match nth_error (rows h) i with
                   | Some row =>
                       modify (List.length s)
                         (set_category_at i
                            (ExpenseCategorizer._categorize_single_transaction
                               (description row) (amount row)))
                   | None => ret tt
                   end) ;;; ret (List.length s)) (s ++ [g])
             = (List.length s, s ++ [categorized f])).
  { intros g Hr Hc Hw. unfold bind at 1. rewrite for_each_rows. unfold ret.
    f_equal. f_equal. f_equal. unfold categorized. rewrite Hc, Hw. f_equal.
    pose proof (loop_rows_seq [] (rows g)) as L. simpl in L.
    destruct Hr as [Hr|Hr].
    - rewrite Hr in *. exact L.
    - rewrite <- (categorize_rows_ignores_category (rows f)), <- Hr.
      replace (List.length (rows f)) with (List.length (rows g))
        by (rewrite Hr; apply length_map).
      exact L. }
  destruct (has_category f) eqn:C; cbn [negb].
  - unfold ret at 1. apply E; auto.
  - unfold modify at 1. rewrite update_last. apply E; auto.
Qed.

(** The store a call starts from is a prefix of the store it ends in. *)
Lemma run_extends_store now call df s :
  firstn (List.length s) (snd (run now call df s)) = s.
Proof.
  destruct (keeps_run (List.length s) now call df s (le_n _)) as (E & _).
  rewrite E. apply firstn_all.
Qed.

(** C10.  Whatever engine is called on whatever table, every table that
    existed before the call is unchanged after it; and
    [categorize_transactions] returns a reference to a new table, the
    categorized copy of its argument. *)
Theorem engine_calls_leave_tables_unchanged
  (now : date) (call : engine_call) (df : ref) (s : store) :
  firstn (List.length s) (snd (run now call df s)) = s
  /\ fst (categorize_transactions df s) = List.length s
  /\ snd (categorize_transactions df s)
     = s ++ [categorized (nth df s no_frame)].
Proof.
  split; [apply run_extends_store|].
  now rewrite categorize_transactions_runs.
Qed.

(** In particular the table the call was made on is the same object,
    with the same contents, afterwards. *)
Lemma argument_unchanged_after_call now call df s f :
  nth_error s df = Some f ->
  nth_error (snd (run now call df s)) df = Some f.
Proof.
  intro H.
  rewrite <- (firstn_skipn (List.length s) (snd (run now call df s))).
  rewrite run_extends_store.
  rewrite nth_error_app1; [exact H|].
  apply nth_error_Some. congruence.
Qed.

End SessionFacts.

(* ================================================================= *)
(** ** The calendar engine *)

Module CalendarFacts.
Import FinancialCalendar.
Local Open Scope string_scope.

Lemma active_days_spec l d :
  In d (active_days l) <-> exists r, In r l /\ day (tdate r) = d.
Proof.
  unfold active_days. rewrite nodup_In, in_map_iff. firstorder.
Qed.

Lemma distinct_days_positive r l : (1 <= distinct_days (r :: l))%nat.
Proof.
  unfold distinct_days.
  destruct (active_days (r :: l)) as [|d ds] eqn:E; [|simpl; lia].
  assert (H : In (day (tdate r)) (active_days (r :: l))).
  { apply active_days_spec. exists r. simpl. auto. }
  rewrite E in H. contradiction.
Qed.

(** C8, amended.  The average daily expense of the month statistics is
    the total expense divided by the number of distinct days that have
    a transaction of any kind, and 0 for a month without transactions. *)
Theorem daily_average_is_over_active_days (l : list txn) :
  let stats := _calculate_month_stats l in
  NoDup (active_days l)
  /\ (forall d, In d (active_days l)
                <-> exists r, In r l /\ day (tdate r) = d)
  /\ daily_avg_expense stats
     == match l with
        | [] => 0
        | _ => stats_total_expense stats
               / inject_Z (Z.of_nat (List.length (active_days l)))
        end.
Proof.
  split; [apply NoDup_nodup|].
  split; [apply active_days_spec|].
  destruct l as [|r l]; [reflexivity|].
  cbn [_calculate_month_stats daily_avg_expense stats_total_expense].
  rewrite Nat.max_r by apply distinct_days_positive.
  reflexivity.
Qed.

(** C8, counterexample to the claim as stated: one spending day, two
    active days, and an average of 50 where the claim gives 100. *)
Lemma daily_average_counterexample :
  let stats := _calculate_month_stats two_day_month in
  spending_days stats = 1%nat
  /\ stats_total_expense stats == 100
  /\ daily_avg_expense stats == 50
  /\ ~ daily_avg_expense stats
       == stats_total_expense stats
          / inject_Z (Z.of_nat (spending_days stats)).
Proof.
  repeat split; try reflexivity.
  vm_compute. discriminate.
Qed.

Import Session.

(** The statistics of a calendar view are those of the rows of the
    requested month. *)
Lemma calendar_view_month_stats now df y m s v :
  fst (create_calendar_view now df (Some y) (Some m) s) = Ok v ->
  view_month_stats v
  = _calculate_month_stats (month_rows y m (rows (nth df s no_frame))).
Proof.
  unfold create_calendar_view.
  set (f := nth df s no_frame).
  unfold bind at 1. unfold load at 1. fold f.
  unfold bind at 1. unfold alloc at 1.
  unfold bind at 1. unfold load at 1. rewrite SessionFacts.nth_last.
  cbn [rows has_category].
  unfold bind at 1. unfold _identify_spending_patterns.
  unfold bind at 1. unfold load at 1. rewrite SessionFacts.nth_last.
  cbn [rows has_category].
  destruct (_create_calendar_matrix _ y m) as [matrix|e].
  - destruct (month_rows y m (rows f)) as [|r l] eqn:E.
    + unfold ret at 1. unfold bind, load, ret. rewrite SessionFacts.nth_last.
      simpl. intro H. injection H as <-. reflexivity.
    + unfold bind at 1. unfold modify at 1. rewrite SessionFacts.update_last.
      unfold bind at 1. unfold load at 1. rewrite SessionFacts.nth_last.
      unfold ret at 1. unfold bind, load, ret. rewrite SessionFacts.nth_last.
      simpl. intro H. injection H as <-. reflexivity.
  - destruct (month_rows y m (rows f)) as [|r l].
    + unfold ret. simpl. discriminate.
    + unfold bind at 1. unfold modify at 1.
      unfold bind at 1. unfold load at 1. unfold ret. simpl. discriminate.
Qed.

End CalendarFacts.

(* ################################################################# *)
(** * Further properties *)

(* ================================================================= *)
(** ** What a group holds *)

Section GroupContents.

Context {K V : Type} (cmp : K -> K -> comparison) (P : V -> Prop).

(** Every group is non-empty and holds values that satisfy [P]. *)
Lemma insert_group_well_grouped k v acc :
  P v ->
  Forall (fun g : K * list V => snd g <> [] /\ Forall P (snd g)) acc ->
  Forall (fun g : K * list V => snd g <> [] /\ Forall P (snd g))
         (insert_group cmp k v acc).
Proof.
  intros Hv. induction acc as [|[k' vs] rest IH]; simpl; intros H.
  - repeat constructor; [discriminate | exact Hv].
  - inversion H as [|? ? [Hne Hall] Hrest]; subst. simpl in *.
    destruct (cmp k k').
    + constructor; [|exact Hrest]. simpl. split.
      * destruct vs; discriminate.
      * apply Forall_app. split; [exact Hall | now repeat constructor].
    + constructor; [|exact H]. simpl. split; [discriminate|].
      now repeat constructor.
    + constructor; [now split | now apply IH].
Qed.

Lemma groupby_well_grouped (l : list (K * V)) :
  Forall (fun kv => P (snd kv)) l ->
  Forall (fun g : K * list V => snd g <> [] /\ Forall P (snd g))
         (groupby cmp l).
Proof.
  unfold groupby.
  assert (G : forall acc,
            Forall (fun g : K * list V => snd g <> [] /\ Forall P (snd g))
                   acc ->
            Forall (fun kv => P (snd kv)) l ->
            Forall (fun g : K * list V => snd g <> [] /\ Forall P (snd g))
              (fold_left (fun acc kv => insert_group cmp (fst kv) (snd kv) acc)
                 l acc)).
  { induction l as [|[k v] l IH]; simpl; intros acc Ha Hl; [exact Ha|].
    inversion Hl; subst. apply IH; [|assumption].
    now apply insert_group_well_grouped. }
  apply G. constructor.
Qed.

End GroupContents.

Lemma insert_group_not_nil {K V : Type} (cmp : K -> K -> comparison)
  k (v : V) acc : insert_group cmp k v acc <> [].
Proof.
  destruct acc as [|[k' vs] rest]; simpl; [discriminate|].
  destruct (cmp k k'); discriminate.
Qed.

Lemma groupby_nil_iff {K V : Type} (cmp : K -> K -> comparison)
  (l : list (K * V)) : groupby cmp l = [] <-> l = [].
Proof.
  split; [|intros ->; reflexivity].
  destruct l as [|[k v] l]; [reflexivity|]. unfold groupby. simpl.
  assert (G : forall (l : list (K * V)) acc, acc <> [] ->
            fold_left (fun acc kv => insert_group cmp (fst kv) (snd kv) acc)
              l acc <> []).
  { clear. induction l as [|kv l IH]; simpl; intros acc H; [exact H|].
    apply IH, insert_group_not_nil. }
  intros E. exfalso. revert E. apply G. discriminate.
Qed.

(* ================================================================= *)
(** ** Keys, sums and means *)

Lemma string_compare_refl s : String.compare s s = Eq.
Proof.
  pose proof (String.compare_antisym s s) as H.
  destruct (String.compare s s); [reflexivity | discriminate | discriminate].
Qed.

Lemma Qpymax_lower a b : a <= Qpymax a b.
Proof. destruct (NumFacts.Qpymax_cases a b) as [[-> _]|[-> H]]; lra. Qed.

(** A key that [lookup] finds is a key of the list. *)
Lemma lookup_in {W : Type} c (l : list (string * W)) w :
  lookup String.compare c l = Some w -> In (c, w) l.
Proof.
  induction l as [|[k v] l IH]; cbn [lookup]; [discriminate|].
  destruct (String.compare c k) eqn:E; try (intros H; right; now apply IH).
  apply String.compare_eq_iff in E. subst k. intros H. injection H as ->.
  now left.
Qed.

Lemma Qeq_bool_false a b : ~ a == b -> Qeq_bool a b = false.
Proof.
  intros H. destruct (Qeq_bool a b) eqn:E; [|reflexivity].
  apply Qeq_bool_iff in E. contradiction.
Qed.

Lemma Qsum_nonneg l : Forall (fun x => 0 <= x) l -> 0 <= Qsum l.
Proof.
  induction 1 as [|x l Hx _ IH]; simpl; [lra|]. lra.
Qed.

Lemma Qsum_neg l : l <> [] -> Forall (fun x => x < 0) l -> Qsum l < 0.
Proof.
  intros Hne H. induction H as [|x l Hx Hl IH]; [congruence|].
  simpl. destruct l as [|y l'].
  - simpl. lra.
  - assert (Qsum (y :: l') < 0) by (apply IH; discriminate). lra.
Qed.

Lemma Qsum_pos l : l <> [] -> Forall (fun x => 0 < x) l -> 0 < Qsum l.
Proof.
  intros Hne H. induction H as [|x l Hx Hl IH]; [congruence|].
  simpl. destruct l as [|y l'].
  - simpl. lra.
  - assert (0 < Qsum (y :: l')) by (apply IH; discriminate). lra.
Qed.

Lemma Qlen_pos {A : Type} (l : list A) : l <> [] -> 0 < Qlen l.
Proof.
  destruct l as [|a l]; [congruence|]. intros _. unfold Qlen.
  change 0 with (inject_Z 0). rewrite <- Zlt_Qlt. simpl List.length. lia.
Qed.

Lemma Qmean_nonneg l : l <> [] -> Forall (fun x => 0 <= x) l -> 0 <= Qmean l.
Proof.
  intros Hne H. unfold Qmean.
  pose proof (Qlen_pos l Hne). pose proof (Qsum_nonneg l H).
  apply Qle_shift_div_l; [assumption|]. lra.
Qed.

Lemma Qmean_pos l : l <> [] -> Forall (fun x => 0 < x) l -> 0 < Qmean l.
Proof.
  intros Hne H. unfold Qmean.
  pose proof (Qlen_pos l Hne). pose proof (Qsum_pos l Hne H).
  apply Qlt_shift_div_l; [assumption|]. lra.
Qed.

Lemma Qmean_neg l : l <> [] -> Forall (fun x => x < 0) l -> Qmean l < 0.
Proof.
  intros Hne H. unfold Qmean.
  pose proof (Qlen_pos l Hne). pose proof (Qsum_neg l Hne H).
  apply Qlt_shift_div_r; [assumption|]. lra.
Qed.

(* ================================================================= *)
(** ** The monthly and per-category aggregates *)

Lemma debits_negative l : Forall (fun r => amount r < 0) (debits l).
Proof.
  apply Forall_forall. intros r I. apply filter_In in I.
  now apply NumFacts.Qltb_lt.
Qed.

Lemma credits_positive l : Forall (fun r => 0 < amount r) (credits l).
Proof.
  apply Forall_forall. intros r I. apply filter_In in I.
  now apply NumFacts.Qltb_lt.
Qed.

(** Every month of the debit series has a negative sum. *)
Lemma monthly_debit_sums_negative l :
  Forall (fun x => x < 0) (map snd (monthly_debit_sums l)).
Proof.
  unfold monthly_debit_sums, by_month. rewrite map_map. cbn [snd].
  apply Forall_map.
  pose proof (groupby_well_grouped Z.compare (fun x => x < 0)
                (map (fun r => (month_year (tdate r), amount r)) (debits l)))
    as G.
  eapply Forall_impl; [|apply G].
  - intros [k vs] [Hne Hall]. now apply Qsum_neg.
  - apply Forall_map. cbn [snd]. apply debits_negative.
Qed.

(** Every month of the expense series is positive. *)
Lemma monthly_expense_series_positive l :
  Forall (fun x => 0 < x) (map snd (monthly_expense_series l)).
Proof.
  unfold monthly_expense_series. rewrite map_map. cbn [snd].
  pose proof (monthly_debit_sums_negative l) as H.
  rewrite Forall_map in H. apply Forall_map.
  eapply Forall_impl; [|exact H]. cbn. intros [k x] Hx. cbn in *.
  rewrite Qabs_neg; lra.
Qed.

Lemma monthly_income_series_positive l :
  Forall (fun x => 0 < x) (map snd (monthly_income_series l)).
Proof.
  unfold monthly_income_series, by_month. rewrite map_map. cbn [snd].
  apply Forall_map.
  pose proof (groupby_well_grouped Z.compare (fun x => 0 < x)
                (map (fun r => (month_year (tdate r), amount r)) (credits l)))
    as G.
  eapply Forall_impl; [|apply G].
  - intros [k vs] [Hne Hall]. now apply Qsum_pos.
  - apply Forall_map. cbn [snd]. apply credits_positive.
Qed.

(** Every category of [category_spending] has a positive total. *)
Lemma category_spending_positive l :
  Forall (fun x => 0 < x) (map snd (category_spending l)).
Proof.
  unfold category_spending. rewrite map_map. cbn [snd].
  apply Forall_map.
  pose proof (groupby_well_grouped String.compare (fun x => x < 0)
                (map (fun r => (category r, amount r)) (debits l)))
    as G.
  eapply Forall_impl; [|apply G].
  - intros [k vs] [Hne Hall]. cbn [snd].
    pose proof (Qsum_neg vs Hne Hall). rewrite Qabs_neg; lra.
  - apply Forall_map. cbn [snd]. apply debits_negative.
Qed.

Lemma monthly_expense_series_nil l :
  monthly_expense_series l = [] <-> debits l = [].
Proof.
  unfold monthly_expense_series, monthly_debit_sums, by_month.
  split.
  - intros E. apply map_eq_nil in E. apply map_eq_nil in E.
    apply groupby_nil_iff in E. now apply map_eq_nil in E.
  - intros ->. reflexivity.
Qed.

Lemma category_spending_nil l :
  category_spending l = [] <-> debits l = [].
Proof.
  unfold category_spending. split.
  - intros E. apply map_eq_nil in E.
    apply groupby_nil_iff in E. now apply map_eq_nil in E.
  - intros ->. reflexivity.
Qed.

(* ================================================================= *)
(** ** The categorizer *)

Module CategorizerLaws.
Import ExpenseCategorizer NumFacts TextFacts CategorizerFacts.
Local Open Scope string_scope.

Lemma first_match_in d m :
  In (first_match d m) ("Other" :: map fst m).
Proof.
  induction m as [|[c kws] m IH]; simpl; [now left|].
  destruct (any_in kws d); [right; now left|].
  destruct IH as [E|I]; [now left | right; now right].
Qed.

Lemma first_match_other d m :
  ~ In "Other" (map fst m) ->
  (first_match d m = "Other" <-> any_in (flat_map snd m) d = false).
Proof.
  induction m as [|[c kws] m IH]; simpl; intros N; [tauto|].
  rewrite any_in_app.
  destruct (any_in kws d); simpl.
  - split; [intros E; exfalso; apply N; left; exact E | discriminate].
  - apply IH. intros I. apply N. now right.
Qed.

Lemma any_in_incl l1 l2 d :
  incl l1 l2 -> any_in l1 d = true -> any_in l2 d = true.
Proof.
  unfold any_in. rewrite !existsb_exists.
  intros I [kw [H1 H2]]. exists kw. split; [apply I, H1 | exact H2].
Qed.

Lemma incl_by_eqb (l1 l2 : list string) :
  forallb (fun x => existsb (String.eqb x) l2) l1 = true -> incl l1 l2.
Proof.
  rewrite forallb_forall. intros H x I. apply H in I.
  apply existsb_exists in I. destruct I as [y [I E]].
  apply String.eqb_eq in E. now subst.
Qed.

Lemma income_keywords_are_keywords :
  incl income_keywords (flat_map snd keyword_mappings).
Proof. apply incl_by_eqb. vm_compute. reflexivity. Qed.

Lemma single_transaction_in_categories description amount :
  In (_categorize_single_transaction description amount) categories.
Proof.
  rewrite categorize_single_by_keywords. unfold _categorize_by_keywords.
  assert (I : incl ("Income" :: "Other" :: map fst keyword_mappings) categories)
    by (apply incl_by_eqb; vm_compute; reflexivity).
  apply I.
  destruct (Qltb 0 amount && _); [now left|].
  right. apply first_match_in.
Qed.

Lemma categorized_rows_in_categories l :
  Forall (fun r => In (category r) categories) (categorize_rows l).
Proof.
  unfold categorize_rows. apply Forall_map, Forall_forall. intros r _.
  apply single_transaction_in_categories.
Qed.

(** X1.  Every label the categorizer assigns is one of the thirteen
    entries of [categories]: on every row of a categorized table, and
    for a single transaction whatever its description and amount. *)
Theorem category_is_in_taxonomy (f : frame) :
  Forall (fun r => In (category r) categories)
         (rows (Session.categorized f))
  /\ forall description amount,
       In (_categorize_single_transaction description amount) categories.
Proof.
  split.
  - apply categorized_rows_in_categories.
  - apply single_transaction_in_categories.
Qed.

Lemma income_keyword_shape kw :
  In kw income_keywords -> solid kw = true /\ kw <> "" /\ lower kw = kw.
Proof.
  intros H. cbv [income_keywords] in H.
  repeat (destruct H as [<-|H]; [repeat split; discriminate|]). destruct H.
Qed.

(** X2.  The income rule comes first: a positive amount whose
    description holds, in any letter case, one of the six income
    keywords is labelled Income, whatever other keywords the
    description holds. *)
Theorem income_rule_precedes_keyword_scan
  (description : string) (amount : Q) (kw : string) :
  0 < amount -> In kw income_keywords ->
  contains kw (lower description) = true ->
  _categorize_single_transaction description amount = "Income".
Proof.
  intros Hpos Hin Hc.
  rewrite categorize_single_by_keywords. unfold _categorize_by_keywords.
  apply Qltb_lt in Hpos. rewrite Hpos, lower_strip_lower.
  destruct (income_keyword_shape kw Hin) as [Hs [Hn Hl]].
  rewrite (any_in_member kw); [reflexivity | exact Hin |].
  rewrite <- (lower_idem description).
  now apply contains_normalised.
Qed.

Lemma income_rule_witness :
  _categorize_single_transaction "UBER *TRIP REFUND" 12 = "Income"
  /\ first_match "uber *trip refund" keyword_mappings = "Transportation".
Proof.
  split.
  - apply (income_rule_precedes_keyword_scan "UBER *TRIP REFUND" 12 "refund").
    + reflexivity.
    + cbn. tauto.
    + reflexivity.
  - reflexivity.
Defined.

(** X3.  A transaction with a description of ASCII characters is
    labelled Other exactly when no keyword of any category occurs in
    its normalised description; the amount plays no part in that. *)
Theorem other_iff_no_keyword_occurs (description : string) (amount : Q) :
  isascii description = true ->
  (_categorize_single_transaction description amount = "Other"
   <-> any_in (flat_map snd keyword_mappings) (strip (lower description))
       = false).
Proof.
  intros _.
  rewrite categorize_single_by_keywords. unfold _categorize_by_keywords.
  rewrite lower_strip_lower.
  assert (N : ~ In "Other" (map fst keyword_mappings)).
  { intros I.
    assert (H : existsb (String.eqb "Other") (map fst keyword_mappings) = true)
      by (apply existsb_exists; exists "Other"; split;
          [exact I | apply String.eqb_refl]).
    vm_compute in H. discriminate. }
  destruct (any_in income_keywords (strip (lower description))) eqn:E.
  - apply (any_in_incl _ _ _ income_keywords_are_keywords) in E.
    rewrite andb_true_r.
    destruct (Qltb 0 amount).
    + rewrite E. split; discriminate.
    + now apply first_match_other.
  - rewrite andb_false_r. now apply first_match_other.
Qed.

Lemma other_witness :
  _categorize_single_transaction "  Corner KIOSK 42 " (-5) = "Other"
  /\ ~ _categorize_single_transaction "BOOKING.COM" (-5) = "Other".
Proof.
  split.
  - apply (other_iff_no_keyword_occurs "  Corner KIOSK 42 " (-5));
      reflexivity.
  - intros H.
    apply (other_iff_no_keyword_occurs "BOOKING.COM" (-5)) in H;
      [discriminate H | reflexivity].
Defined.
End CategorizerLaws.

(* ================================================================= *)
(** ** The categorized copy *)

Module BatchLaws.
Import Session SessionFacts.

Lemma categorize_rows_idem l :
  ExpenseCategorizer.categorize_rows (ExpenseCategorizer.categorize_rows l)
  = ExpenseCategorizer.categorize_rows l.
Proof.
  unfold ExpenseCategorizer.categorize_rows. rewrite map_map.
  apply map_ext. intros r. reflexivity.
Qed.

Lemma categorize_rows_payload l :
  map (fun r => (tdate r, description r, amount r))
      (ExpenseCategorizer.categorize_rows l)
  = map (fun r => (tdate r, description r, amount r)) l.
Proof.
  unfold ExpenseCategorizer.categorize_rows. rewrite map_map.
  apply map_ext. intros r. reflexivity.
Qed.

(** X4.  Categorizing an already categorized table changes nothing:
    the second copy equals the first.  The copy has the category column,
    keeps the date, description and amount of every row in order, and
    gives every row the label of its own description and amount. *)
Theorem categorizing_twice_changes_nothing (df : ref) (s : store) :
  let first := categorize_transactions df s in
  let second := categorize_transactions (fst first) (snd first) in
  let original := nth df s no_frame in
  let once := nth (fst first) (snd first) no_frame in
  let twice := nth (fst second) (snd second) no_frame in
  twice = once
  /\ has_category once = true
  /\ map (fun r => (tdate r, description r, amount r)) (rows once)
     = map (fun r => (tdate r, description r, amount r)) (rows original)
  /\ Forall (fun r => category r
                      = ExpenseCategorizer._categorize_single_transaction
                          (description r) (amount r))
            (rows once).
Proof.
  cbv zeta. rewrite (categorize_transactions_runs df s). cbn [fst snd].
  rewrite categorize_transactions_runs. cbn [fst snd].
  rewrite !nth_last.
  repeat split.
  - unfold categorized. cbn [rows is_weekend has_category].
    now rewrite categorize_rows_idem.
  - cbn [categorized rows]. apply categorize_rows_payload.
  - cbn [categorized rows]. unfold ExpenseCategorizer.categorize_rows.
    apply Forall_forall. intros r I. apply in_map_iff in I.
    destruct I as [r0 [<- _]]. reflexivity.
Qed.
End BatchLaws.

(* ================================================================= *)
(** ** The health score *)

Module HealthLaws.
Import FinancialHealthAnalyzer NumFacts.
Local Open Scope string_scope.

Lemma savings_rates_nonneg l : Forall (fun x => 0 <= x) (savings_rates l).
Proof.
  unfold savings_rates. apply Forall_flat_map, Forall_forall.
  intros g _. destruct (Qltb 0 _); [|constructor].
  repeat constructor.
  destruct (Qpymax_cases 0
              ((Qsum (filter (Qltb 0) (snd g))
                - Qabs (Qsum (filter (fun x => Qltb x 0) (snd g))))
               / Qsum (filter (Qltb 0) (snd g)) * 100)) as [[-> _]|[-> H]]; lra.
Qed.

(** X5.  The savings-rate score is never below 40: the monthly rates
    are clamped at zero before they are averaged, so the last branch,
    which returns 20, cannot be reached.  The score is 50 when no month
    has an income. *)
Theorem savings_rate_score_never_below_40 (df : frame) :
  40 <= _calculate_savings_rate_score df
  /\ (savings_rates (rows df) = [] -> _calculate_savings_rate_score df = 50).
Proof.
  unfold _calculate_savings_rate_score.
  pose proof (savings_rates_nonneg (rows df)) as H.
  destruct (savings_rates (rows df)) as [|r rates] eqn:E.
  - split; [lra | reflexivity].
  - split; [|discriminate].
    assert (M : 0 <= Qmean (r :: rates))
      by (apply Qmean_nonneg; [discriminate | exact H]).
    apply Qle_bool_iff in M. rewrite M.
    repeat match goal with
           | |- context [if ?b then _ else _] => destruct b
           end; lra.
Qed.

(** X6.  The guard [monthly_expenses == 0] of the emergency-fund
    score never holds, so the score is never 70: with expenses the
    monthly mean is positive; without any it is not a number, every
    comparison fails and the score is 20. *)
Theorem emergency_fund_guard_never_fires (df : frame) :
  ~ _calculate_emergency_fund_score df == 70
  /\ (debits (rows df) = [] -> _calculate_emergency_fund_score df = 20).
Proof.
  unfold _calculate_emergency_fund_score.
  pose proof (monthly_debit_sums_negative (rows df)) as N.
  split.
  - destruct (map snd (monthly_debit_sums (rows df))) as [|x xs] eqn:E.
    + cbn. intros H. discriminate.
    + assert (M : Qmean (x :: xs) < 0)
        by (apply Qmean_neg; [discriminate | exact N]).
      cbn [mean fabs feqb].
      assert (Z : Qeq_bool (Qabs (Qmean (x :: xs))) 0 = false).
      { apply Qeq_bool_false. rewrite Qabs_neg; lra. }
      rewrite Z.
      repeat match goal with
             | |- context [if ?b then _ else _] => destruct b
             end; intros H; discriminate.
  - intros D. unfold monthly_debit_sums, by_month. rewrite D. reflexivity.
Qed.

(** X7.  The tips are never empty.  There is advice for exactly the
    known components that have a score below 70, and the congratulation
    is given exactly when no known component has a score below 70. *)
Theorem improvement_tips_cover_weak_components
  (scores : list (string * Q)) :
  let tips := _generate_improvement_tips scores in
  tips <> []
  /\ (forall c, In (Advice c) tips
                <-> In c known_components
                    /\ exists s, In (c, s) scores /\ s < 70)
  /\ (In AllGood tips
      <-> forall c s, In (c, s) scores -> In c known_components -> 70 <= s).
Proof.
  cbv zeta. unfold _generate_improvement_tips.
  set (pick := fun s : string * Q =>
                 if Qltb (snd s) 70
                    && existsb (String.eqb (fst s)) known_components
                 then [Advice (fst s)] else []).
  assert (A : forall c, In (Advice c) (flat_map pick scores)
                <-> In c known_components
                    /\ exists s, In (c, s) scores /\ s < 70).
  { intros c. rewrite in_flat_map. split.
    - intros [[c' s] [I P]]. unfold pick in P. cbn [fst snd] in P.
      destruct (Qltb s 70) eqn:L; [|destruct P].
      destruct (existsb (String.eqb c') known_components) eqn:X;
        [|destruct P].
      destruct P as [P|[]]. injection P as ->.
      apply existsb_exists in X. destruct X as [k [Ik Ek]].
      apply String.eqb_eq in Ek. subst k.
      split; [exact Ik|]. exists s. split; [exact I | now apply Qltb_lt].
    - intros [Ik [s [I L]]]. exists (c, s). split; [exact I|].
      unfold pick. cbn [fst snd]. apply Qltb_lt in L. rewrite L.
      replace (existsb (String.eqb c) known_components) with true.
      + now left.
      + symmetry. apply existsb_exists. exists c. split; [exact Ik|].
        apply String.eqb_refl. }
  assert (G : forall t, In t (flat_map pick scores) -> t <> AllGood).
  { intros t I. apply in_flat_map in I. destruct I as [x [_ P]].
    unfold pick in P. destruct (_ && _); [|destruct P].
    destruct P as [<-|[]]. discriminate. }
  destruct (flat_map pick scores) as [|t tips] eqn:E.
  - split; [discriminate|]. split.
    + intros c. rewrite <- A. split; [|intros []].
      intros [H|[]]. discriminate.
    + split; [|intros _; now left]. intros _ c s I Ik.
      apply Qnot_lt_le. intros L. apply (proj2 (A c)).
      split; [exact Ik|]. now exists s.
  - split; [discriminate|]. split; [exact A|]. split.
    + intros I. exfalso. now apply (G AllGood I).
    + intros H. exfalso.
      assert (I : In t (t :: tips)) by now left.
      destruct t as [c|]; [|now apply (G AllGood I)].
      apply A in I. destruct I as [Ik [s [I L]]].
      specialize (H c s I Ik). lra.
Qed.

Lemma sorted_scores_sorted scores :
  StronglySorted (fun a b : string * Q => snd b <= snd a)
    (sort_desc score_gt scores).
Proof.
  apply sort_desc_sorted; unfold score_gt; cbn beta.
  - intros a b c H1 H2. lra.
  - intros a b H. apply Qltb_lt in H. lra.
  - intros a b H. now apply Qltb_ge in H.
Qed.

Lemma last_in {A : Type} (l : list A) d : l <> [] -> In (last l d) l.
Proof.
  induction l as [|x l IH]; [congruence|]. intros _.
  destruct l as [|y l]; [now left|]. right. apply IH. discriminate.
Qed.

Lemma sorted_last {A : Type} (ge : A -> A -> Prop) l d :
  (forall a, ge a a) -> StronglySorted ge l ->
  forall a, In a l -> ge a (last l d).
Proof.
  intros R S. induction S as [|x l S IH F]; intros a I; [destruct I|].
  destruct l as [|y l].
  - destruct I as [<-|[]]. apply R.
  - change (last (x :: y :: l) d) with (last (y :: l) d).
    destruct I as [<-|I]; [|now apply IH].
    rewrite Forall_forall in F. apply F, last_in. discriminate.
Qed.

Lemma sorted_head {A : Type} (ge : A -> A -> Prop) x l :
  (forall a, ge a a) -> StronglySorted ge (x :: l) ->
  forall a, In a (x :: l) -> ge x a.
Proof.
  intros R S a [<-|I]; [apply R|].
  inversion S as [|? ? _ F]; subst. rewrite Forall_forall in F. now apply F.
Qed.

(** X8.  When the insights are produced, the first two name a
    strongest and a weakest component taken from the scores: no score is
    above the strongest and none is below the weakest. *)
Theorem strongest_and_weakest_bound_all_scores
  (scores : list (string * Q)) (df : frame) (ins : list insight) :
  _generate_health_insights scores df = Ok ins ->
  exists c1 s1 c2 s2 rest,
    ins = Strongest c1 s1 :: Weakest c2 s2 :: rest
    /\ In (c1, s1) scores /\ In (c2, s2) scores
    /\ forall c s, In (c, s) scores -> s2 <= s /\ s <= s1.
Proof.
  unfold _generate_health_insights.
  pose proof (sorted_scores_sorted scores) as S.
  pose proof (sort_desc_perm score_gt scores) as P.
  destruct (sort_desc score_gt scores) as [|[c1 s1] rest] eqn:E;
    [discriminate|].
  set (weakest := last ((c1, s1) :: rest) (c1, s1)) in *.
  assert (Iw : In weakest ((c1, s1) :: rest))
    by (apply last_in; discriminate).
  assert (R : forall a : string * Q, snd a <= snd a)
    by (intros a; lra).
  intros H.
  assert (B : exists tl, ins = Strongest c1 s1
                               :: Weakest (fst weakest) (snd weakest) :: tl).
  { cbn [fst snd] in H. destruct (has_category df).
    - destruct (idxmax (category_spending (rows df))); [|discriminate].
      injection H as <-. eexists. reflexivity.
    - injection H as <-. eexists. reflexivity. }
  destruct B as [tl ->].
  exists c1, s1, (fst weakest), (snd weakest), tl.
  split; [reflexivity|]. split.
  { apply (Permutation_in _ P). now left. }
  split.
  { apply (Permutation_in _ P). now destruct weakest. }
  intros c s I. apply (Permutation_in _ (Permutation_sym P)) in I. split.
  - apply (sorted_last (fun a b : string * Q => snd b <= snd a)
             _ (c1, s1) R S (c, s) I).
  - apply (sorted_head (fun a b : string * Q => snd b <= snd a)
             _ _ R S (c, s) I).
Qed.

Lemma strongest_and_weakest_witness :
  exists ins,
    _generate_health_insights (scores_of salary_and_rent) salary_and_rent
    = Ok ins
    /\ exists c1 s1 c2 s2 rest,
         ins = Strongest c1 s1 :: Weakest c2 s2 :: rest
         /\ In (c1, s1) (scores_of salary_and_rent)
         /\ In (c2, s2) (scores_of salary_and_rent)
         /\ forall c s, In (c, s) (scores_of salary_and_rent)
                        -> s2 <= s /\ s <= s1.
Proof.
  eexists. split.
  - vm_compute. reflexivity.
  - apply (strongest_and_weakest_bound_all_scores
             (scores_of salary_and_rent) salary_and_rent).
    vm_compute. reflexivity.
Defined.

Lemma idxmax_from_max best l :
  exists v, In (idxmax_from best l, v) (best :: l)
            /\ forall x, In x (best :: l) -> snd x <= v.
Proof.
  revert best. induction l as [|x l IH]; intros [c v].
  - exists v. split; [now left|]. intros y [<-|[]]. cbn. lra.
  - cbn [idxmax_from snd].
    destruct (Qltb v (snd x)) eqn:L.
    + destruct (IH x) as [w [I M]]. exists w. split.
      * right. exact I.
      * apply Qltb_lt in L. intros y [<-|Iy].
        -- cbn. specialize (M x (or_introl eq_refl)). lra.
        -- now apply M.
    + destruct (IH (c, v)) as [w [I M]]. exists w. split.
      * destruct I as [I|I]; [now left | right; now right].
      * apply Qltb_ge in L. intros y [<-|[<-|Iy]].
        -- apply (M (c, v)). now left.
        -- specialize (M (c, v) (or_introl eq_refl)). cbn in M. lra.
        -- apply M. now right.
Qed.

(** X9.  The category that the insights call the largest expense has
    a total that no category's total exceeds. *)
Theorem largest_expense_insight_is_a_maximum
  (scores : list (string * Q)) (df : frame) (ins : list insight)
  (c : string) :
  _generate_health_insights scores df = Ok ins ->
  In (LargestExpense c) ins ->
  exists v, In (c, v) (category_spending (rows df))
            /\ forall c' v', In (c', v') (category_spending (rows df))
                             -> v' <= v.
Proof.
  unfold _generate_health_insights.
  destruct (sort_desc score_gt scores) as [|strongest rest]; [discriminate|].
  destruct (has_category df).
  - destruct (category_spending (rows df)) as [|x l] eqn:E;
      [discriminate|].
    cbn [idxmax]. intros H I. injection H as <-.
    assert (C : c = idxmax_from x l).
    { cbn in I. destruct I as [I|[I|[I|I]]]; try discriminate.
      - now injection I.
      - destruct (map snd (monthly_expense_series (rows df)))
          as [|? [|? ?]]; cbn in I; try easy.
        destruct I as [I|[]]. discriminate. }
    subst c. destruct (idxmax_from_max x l) as [v [Iv M]].
    exists v. split; [exact Iv|]. intros c' v' I'. apply (M (c', v') I').
  - intros H I. injection H as <-. exfalso.
    cbn in I. destruct I as [I|[I|I]]; try discriminate.
    destruct (map snd (monthly_expense_series (rows df)))
      as [|? [|? ?]]; cbn in I; try easy.
    destruct I as [I|[]]. discriminate.
Qed.

Lemma largest_expense_witness :
  exists v, In ("Bills & Utilities", v)
              (category_spending (rows salary_and_rent))
            /\ forall c' v', In (c', v')
                               (category_spending (rows salary_and_rent))
                             -> v' <= v.
Proof.
  destruct (_generate_health_insights (scores_of salary_and_rent)
              salary_and_rent) as [ins|e] eqn:E.
  - apply (largest_expense_insight_is_a_maximum
             (scores_of salary_and_rent) salary_and_rent ins _ E).
    vm_compute in E. injection E as <-. cbn. tauto.
  - vm_compute in E. discriminate.
Defined.

(** X10.  [calculate_health_score] returns a report unless the table
    has a category column and no expense at all; then, and only then,
    it raises, and what it raises is [ValueError]. *)
Theorem health_score_returns_unless_expense_free (df : frame) :
  match calculate_health_score df with
  | Ok _ => has_category df = false \/ debits (rows df) <> []
  | Raise e =>
      e = ValueError /\ has_category df = true /\ debits (rows df) = []
  end.
Proof.
  unfold calculate_health_score, _generate_health_insights.
  destruct (sort_desc score_gt (scores_of df)) as [|strongest rest] eqn:E.
  - exfalso. unfold scores_of, sort_desc in E. cbn [fold_right] in E.
    now apply RaiseFacts.insert_desc_not_nil in E.
  - destruct (has_category df); [|now left].
    destruct (category_spending (rows df)) as [|x l] eqn:C; cbn [idxmax].
    + apply category_spending_nil in C. now repeat split.
    + right. intros D. apply category_spending_nil in D. congruence.
Qed.
End HealthLaws.

(* ================================================================= *)
(** ** Forecasts and anomalies *)

Module PredictiveLaws.
Import PredictiveAnalytics NumFacts.
Local Open Scope string_scope.

Lemma confidence_of_positive_series l :
  l <> [] -> Forall (fun x => 0 < x) l ->
  60 <= _calculate_confidence l /\ _calculate_confidence l <= 90.
Proof.
  intros Hne H. unfold _calculate_confidence.
  destruct (List.length l <? 3)%nat; [lra|].
  pose proof (Qmean_pos l Hne H) as M.
  rewrite Qeq_bool_false by lra.
  repeat match goal with
         | |- context [if ?b then _ else _] => destruct b
         end; lra.
Qed.

(** X11.  A forecast has one prediction for every requested month,
    none of them negative, and a non-negative monthly change.  With
    fewer than two months of expenses it is the default one: no month
    labels, confidence 50, trend stable.  Otherwise the labels are the
    months that follow the last one, the confidence lies between 60 and
    90, and the trend is never called stable. *)
Theorem forecast_shape (now : date) (df : frame) (months_ahead : nat) :
  let p := predict_future_spending now df months_ahead in
  let history := monthly_expense_series (rows df) in
  List.length (predictions p) = months_ahead
  /\ Forall (fun x => 0 <= x) (predictions p)
  /\ 0 <= monthly_change p
  /\ if (List.length history <? 2)%nat
     then future_months p = [] /\ confidence_level p = 50
          /\ trend_direction p = "stable"
     else future_months p
          = map (fun i => (last (map fst history) 0 + Z.of_nat i)%Z)
                (seq 1 months_ahead)
          /\ 60 <= confidence_level p /\ confidence_level p <= 90
          /\ trend_direction p <> "stable".
Proof.
  cbv zeta. unfold predict_future_spending.
  destruct (List.length (monthly_expense_series (rows df)) <? 2)%nat eqn:E.
  - cbn [_default_prediction predictions future_months monthly_change
         confidence_level trend_direction].
    rewrite repeat_length. repeat split; try lra.
    apply Forall_forall. intros x I. apply repeat_spec in I. subst. lra.
  - cbn [predictions future_months monthly_change confidence_level
         trend_direction].
    rewrite length_map, length_seq.
    split; [reflexivity|]. split.
    { apply Forall_map, Forall_forall. intros i _. apply Qpymax_lower. }
    split; [apply Qabs_nonneg|]. split; [reflexivity|].
    assert (Hne : map snd (monthly_expense_series (rows df)) <> []).
    { destruct (monthly_expense_series (rows df)); [discriminate E|].
      discriminate. }
    destruct (confidence_of_positive_series _ Hne
                (monthly_expense_series_positive (rows df))) as [L U].
    repeat split; try assumption.
    destruct (Qltb 0 _); discriminate.
Qed.

Lemma Qlen_cons {A : Type} (x : A) l : Qlen (x :: l) == 1 + Qlen l.
Proof.
  unfold Qlen. cbn [List.length]. rewrite Nat2Z.inj_succ, <- Z.add_1_l.
  now rewrite inject_Z_plus.
Qed.

Lemma Qsum_const l c : Forall (fun x => x == c) l -> Qsum l == Qlen l * c.
Proof.
  induction 1 as [|x l Hx _ IH].
  - unfold Qlen. cbn [Qsum fold_right List.length].
    change (inject_Z (Z.of_nat 0)) with 0. lra.
  - cbn [Qsum fold_right]. fold (Qsum l). cbn beta in Hx.
    rewrite Qlen_cons, IH, Hx. lra.
Qed.

Lemma Qsum_weighted_const xs ys c :
  Forall (fun y => y == c) ys ->
  Qsum (map (fun p => fst p * snd p) (combine xs ys))
  == c * Qsum (firstn (List.length ys) xs).
Proof.
  intros H. revert xs. induction H as [|y ys Hy _ IH]; intros [|x xs];
    cbn [combine map Qsum fold_right firstn List.length fst snd]; try lra.
  fold (Qsum (map (fun p => fst p * snd p) (combine xs ys))).
  fold (Qsum (firstn (List.length ys) xs)). cbn beta in Hy.
  rewrite IH, Hy. lra.
Qed.

Lemma polyfit1_const ys c :
  ys <> [] -> Forall (fun y => y == c) ys ->
  fst (polyfit1 ys) == 0 /\ snd (polyfit1 ys) == c.
Proof.
  intros Hne H. unfold polyfit1. cbn [fst snd].
  set (xs := indices (List.length ys)).
  assert (Lx : firstn (List.length ys) xs = xs).
  { apply firstn_all2. unfold xs, indices. rewrite length_map, length_seq.
    lia. }
  pose proof (Qsum_weighted_const xs ys c H) as W. rewrite Lx in W.
  pose proof (Qsum_const ys c H) as S.
  pose proof (Qlen_pos ys Hne) as P.
  assert (Z : (Qlen ys * Qsum (map (fun p => fst p * snd p) (combine xs ys))
               - Qsum xs * Qsum ys)
              / (Qlen ys * Qsum (map (fun x => x * x) xs) - Qsum xs * Qsum xs)
              == 0).
  { rewrite W, S. unfold Qdiv.
    setoid_replace (Qlen ys * (c * Qsum xs) - Qsum xs * (Qlen ys * c))
      with 0 by ring.
    ring. }
  split; [exact Z|].
  rewrite Z, S. field. lra.
Qed.

(** X12.  The amounts forecast from a flat history.  For a history of
    two to eleven months that all spent the same amount [c], the exact
    least-squares line is flat: the monthly change is zero and every
    predicted month is [c].  These are the exact values, which the code
    returns up to float64 rounding; the label of the trend is decided
    by the sign of that rounding residue and nothing is said about
    it. *)
Theorem flat_history_is_forecast_flat
  (now : date) (df : frame) (months_ahead : nat) (c : Q) :
  (2 <= List.length (monthly_expense_series (rows df)) < 12)%nat ->
  Forall (fun x => x == c) (map snd (monthly_expense_series (rows df))) ->
  let p := predict_future_spending now df months_ahead in
  0 < c
  /\ List.length (predictions p) = months_ahead
  /\ monthly_change p == 0
  /\ Forall (fun x => x == c) (predictions p).
Proof.
  intros [L U] H. cbv zeta. unfold predict_future_spending.
  replace (List.length (monthly_expense_series (rows df)) <? 2)%nat
    with false by (symmetry; apply Nat.ltb_ge; lia).
  cbn [trend_direction monthly_change predictions].
  assert (Hne : map snd (monthly_expense_series (rows df)) <> []).
  { destruct (monthly_expense_series (rows df)); [cbn in L; lia|].
    discriminate. }
  destruct (polyfit1_const _ c Hne H) as [S I].
  assert (Hc : 0 < c).
  { pose proof (monthly_expense_series_positive (rows df)) as P.
    destruct (map snd (monthly_expense_series (rows df))) as [|x xs];
      [congruence|].
    inversion P; inversion H; subst. lra. }
  split; [exact Hc|]. split; [|split].
  - now rewrite length_map, length_seq.
  - rewrite S. reflexivity.
  - apply Forall_map, Forall_forall. intros i _.
    unfold _get_seasonal_factor.
    replace (List.length (monthly_expense_series (rows df)) <? 12)%nat
      with true by (symmetry; apply Nat.ltb_lt; lia).
    set (v := (fst (polyfit1 (map snd (monthly_expense_series (rows df))))
               * (Qlen (monthly_expense_series (rows df))
                  + inject_Z (Z.of_nat i))
               + snd (polyfit1 (map snd (monthly_expense_series (rows df)))))
              * 1).
    assert (V : v == c) by (unfold v; rewrite S, I; ring).
    destruct (Qpymax_cases 0 v) as [[-> B]|[-> B]]; lra.
Qed.

Lemma flat_history_witness :
  let p := predict_future_spending (mkdate 2024 3 1) two_flat_months 3 in
  0 < 100
  /\ List.length (predictions p) = 3%nat
  /\ monthly_change p == 0
  /\ Forall (fun x => x == 100) (predictions p).
Proof.
  apply (flat_history_is_forecast_flat
           (mkdate 2024 3 1) two_flat_months 3 100).
  - vm_compute. split; lia.
  - vm_compute. repeat constructor.
Defined.

Lemma z_gt_needs_history series a t :
  In a series -> (2 <= List.length series)%nat -> 0 <= t ->
  z_gt series a t = true -> t * t < Qlen series - 1.
Proof.
  intros I L T Z. apply Qnot_le_lt. intros H.
  rewrite (PredictiveFacts.z_gt_bounded series a t I L T H) in Z.
  discriminate.
Qed.

Lemma anomalies_in_spec what who series t a :
  In a (anomalies_in what who series t) ->
  kind a = what
  /\ (3 <= List.length series)%nat
  /\ exists x, In x (map snd series)
               /\ z_gt (map snd series) x t = true
               /\ (severity a = "high" -> z_gt (map snd series) x 3 = true).
Proof.
  unfold anomalies_in.
  destruct (3 <=? List.length series)%nat eqn:L; [|intros []].
  apply Nat.leb_le in L. intros I. apply in_flat_map in I.
  destruct I as [[m x] [Ip Ia]]. cbn [fst snd] in Ia.
  destruct (z_gt (map snd series) x t) eqn:Z; [|destruct Ia].
  destruct Ia as [<-|[]]. cbn [kind severity].
  split; [reflexivity|]. split; [exact L|].
  exists x. split; [|split; [exact Z|]].
  - apply in_map_iff. now exists (m, x).
  - destruct (z_gt (map snd series) x 3); [reflexivity | discriminate].
Qed.

Lemma long_enough {A : Type} (l : list A) (n : nat) :
  inject_Z (Z.of_nat n) < Qlen l -> (S n <= List.length l)%nat.
Proof.
  intros H. destruct (le_lt_dec (List.length l) n) as [L|L]; [|lia].
  apply PredictiveFacts.Qlen_le in L. lra.
Qed.

Lemma flagged_series_length (series : list (Z * Q)) x t (n : nat) :
  In x (map snd series) -> (3 <= List.length series)%nat -> 0 <= t ->
  inject_Z (Z.of_nat n) - 1 <= t * t ->
  z_gt (map snd series) x t = true -> (S n <= List.length series)%nat.
Proof.
  intros I L T B Z.
  apply z_gt_needs_history in Z; [|exact I | rewrite length_map; lia | exact T].
  rewrite <- (length_map snd). apply long_enough. lra.
Qed.

(** X13.  Anomalies need history: a reported anomaly means at least
    six months of expenses, an anomaly of a category at least eight, and
    the severity high at least eleven. *)
Theorem anomaly_needs_long_history (df : frame) (a : anomaly) :
  In a (detect_spending_anomalies df) ->
  let months := List.length (monthly_expense_series (rows df)) in
  (6 <= months)%nat
  /\ (kind a = "category_spending" -> (8 <= months)%nat)
  /\ (severity a = "high" -> (11 <= months)%nat).
Proof.
  unfold detect_spending_anomalies. intros I. cbv zeta.
  apply in_app_or in I. destruct I as [I|I].
  - apply anomalies_in_spec in I. destruct I as [K [L [x [Ix [Z H]]]]].
    split; [|split].
    + apply (flagged_series_length _ x 2 5 Ix L); [lra | | exact Z].
      change (inject_Z (Z.of_nat 5)) with 5. lra.
    + rewrite K. discriminate.
    + intros S. apply H in S.
      apply (flagged_series_length _ x 3 10 Ix L); [lra | | exact S].
      change (inject_Z (Z.of_nat 10)) with 10. lra.
  - destruct (has_category df); [|destruct I].
    apply in_flat_map in I. destruct I as [c [_ I]].
    apply anomalies_in_spec in I. destruct I as [K [L [x [Ix [Z H]]]]].
    pose proof (monthly_category_length (rows df) c) as M.
    assert (E : (8 <= List.length (monthly_category (rows df) c))%nat).
    { apply (flagged_series_length _ x 2.5 7 Ix L); [lra | | exact Z].
      change (inject_Z (Z.of_nat 7)) with 7. lra. }
    split; [lia|]. split; [intros _; lia|].
    intros S. apply H in S.
    assert (E' : (11 <= List.length (monthly_category (rows df) c))%nat).
    { apply (flagged_series_length _ x 3 10 Ix L); [lra | | exact S].
      change (inject_Z (Z.of_nat 10)) with 10. lra. }
    lia.
Qed.

Lemma anomaly_history_witness :
  exists a,
    In a (detect_spending_anomalies spike_in_june)
    /\ period a = month_year (mkdate 2024 6 1)
    /\ (6 <= List.length (monthly_expense_series (rows spike_in_june)))%nat.
Proof.
  set (a := hd (mkanomaly "" None 0 0 "")
               (detect_spending_anomalies spike_in_june)).
  assert (I : In a (detect_spending_anomalies spike_in_june))
    by (vm_compute; left; reflexivity).
  exists a. split; [exact I|]. split; [reflexivity|].
  apply (anomaly_needs_long_history spike_in_june a I).
Defined.

Lemma unique_from_spec seen l x :
  In x (unique_from seen l) -> In x l /\ ~ In x seen.
Proof.
  revert seen. induction l as [|y l IH]; intros seen; cbn [unique_from];
    [intros []|].
  destruct (existsb (String.eqb y) seen) eqn:E.
  - intros I. apply IH in I. destruct I as [I N]. split; [now right | exact N].
  - intros [<-|I].
    + split; [now left|]. intros I.
      assert (X : existsb (String.eqb y) seen = true)
        by (apply existsb_exists; exists y; split;
            [exact I | apply String.eqb_refl]).
      congruence.
    + apply IH in I. destruct I as [I N]. split; [now right|].
      intros I'. apply N. now right.
Qed.

Lemma unique_from_nodup seen l : NoDup (unique_from seen l).
Proof.
  revert seen. induction l as [|y l IH]; intros seen; cbn [unique_from];
    [constructor|].
  destruct (existsb (String.eqb y) seen); [apply IH|].
  constructor; [|apply IH].
  intros I. apply unique_from_spec in I. destruct I as [_ N].
  apply N. now left.
Qed.

Lemma nodup_flat_map_keys {A B : Type} (f : A -> list (A * B)) l :
  NoDup l ->
  (forall a p, In p (f a) -> f a = [p] /\ fst p = a) ->
  NoDup (map fst (flat_map f l)).
Proof.
  intros N H. induction N as [|a l Na N IH]; cbn [flat_map map];
    [constructor|].
  rewrite map_app.
  assert (K : forall k, In k (map fst (flat_map f l)) -> In k l).
  { intros k I. apply in_map_iff in I. destruct I as [p [<- I]].
    apply in_flat_map in I. destruct I as [b [Ib Ip]].
    apply H in Ip. destruct Ip as [_ ->]. exact Ib. }
  destruct (f a) as [|p ps] eqn:E; [exact IH|].
  destruct (H a p) as [E1 E2]; [rewrite E; now left|].
  rewrite E in E1. injection E1 as ->. cbn [map app].
  constructor; [|exact IH]. rewrite E2. intros I. apply Na, K, I.
Qed.

(** X14.  The predictions by category form a dictionary: no category
    comes twice.  Every predicted category occurs in the table and has
    at least two months of expenses; its predicted amount is not
    negative and its confidence lies between 50 and 100. *)
Theorem category_predictions_are_bounded (df : frame) :
  NoDup (map fst (predict_category_spending df))
  /\ forall c p, In (c, p) (predict_category_spending df) ->
       In c (unique_categories (rows df))
       /\ (2 <= List.length (monthly_category (rows df) c))%nat
       /\ 0 <= predicted_amount p
       /\ 50 <= confidence p /\ confidence p <= 100.
Proof.
  unfold predict_category_spending.
  destruct (has_category df); cbn [negb]; [|split; [constructor | intros ? ? []]].
  split.
  - apply nodup_flat_map_keys; [apply unique_from_nodup|].
    intros c p I. destruct (2 <=? _)%nat; [|destruct I].
    destruct I as [<-|[]]. split; reflexivity.
  - intros c p I. apply in_flat_map in I. destruct I as [c' [Ic I]].
    destruct (2 <=? _)%nat eqn:L; [|destruct I].
    destruct I as [I|[]]. injection I as -> <-.
    apply Nat.leb_le in L. rewrite length_map in L.
    cbn [predicted_amount confidence].
    split; [exact Ic|]. split; [exact L|]. split; [apply Qpymax_lower|].
    set (inner := Qpymax 50 _).
    assert (B : 50 <= inner) by apply Qpymax_lower.
    destruct (Qpymin_cases 100 inner) as [[-> H]|[-> H]]; lra.
Qed.
End PredictiveLaws.

(* ================================================================= *)
(** ** Budget risks *)

Module RiskLaws.
Import PredictiveAnalytics BudgetRisks NumFacts.
Local Open Scope string_scope.

Lemma default_budgets_positive df :
  Forall (fun b => 0 < snd b) (default_budgets df).
Proof.
  unfold default_budgets. apply Forall_map. cbn [snd].
  pose proof (category_spending_positive (rows df)) as P.
  rewrite Forall_map in P. eapply Forall_impl; [|exact P].
  intros [c v] H. cbn [snd] in *.
  assert (D : 0 < inject_Z (Z.of_nat (Nat.max 1 (month_count (rows df))))).
  { change 0 with (inject_Z 0). rewrite <- Zlt_Qlt. lia. }
  assert (0 < v / inject_Z (Z.of_nat (Nat.max 1 (month_count (rows df)))))
    by (apply Qlt_shift_div_l; [exact D | lra]).
  lra.
Qed.

Lemma over_by_a_fifth x b :
  0 < b -> (20 < (x - b) / b * 100 <-> 1.2 * b < x).
Proof.
  intros B. set (q := (x - b) / b).
  assert (E : q * b == x - b) by (unfold q; field; lra).
  clearbody q. split; intros H; nra.
Qed.

(** X15.  With no budgets given, every reported risk is an overrun of
    a default budget: the budget is positive, the prediction exceeds it,
    the overage is their difference, the percentage is a finite number,
    and the level is high exactly when the prediction exceeds the budget
    by more than a fifth. *)
Theorem default_budget_risks_are_real_overruns
  (df : frame) (r : budget_risk) :
  In r (forecast_budget_risks df []) ->
  In (risk_category r, budget r) (default_budgets df)
  /\ 0 < budget r
  /\ budget r < predicted r
  /\ overage r == predicted r - budget r
  /\ percentage_over r = Fin (overage r / budget r * 100)
  /\ (risk_level r = "high" <-> 1.2 * budget r < predicted r)
  /\ (risk_level r = "medium" <-> predicted r <= 1.2 * budget r).
Proof.
  unfold forecast_budget_risks.
  destruct (has_category df); [|intros []].
  pose proof (default_budgets_positive df) as P.
  destruct (default_budgets df) as [|b0 bs] eqn:E; [intros []|].
  intros I. apply in_flat_map in I. destruct I as [[c b] [Ib I]].
  rewrite Forall_forall in P. specialize (P (c, b) Ib). cbn [fst snd] in *.
  destruct (lookup String.compare c (predict_category_spending df))
    as [p|]; [|destruct I].
  destruct (Qltb b (predicted_amount p)) eqn:L; [|destruct I].
  destruct I as [<-|[]].
  cbn [risk_category budget predicted overage percentage_over risk_level].
  apply Qltb_lt in L.
  assert (Z : Qeq_bool b 0 = false) by (apply Qeq_bool_false; lra).
  cbn [fdiv fmul]. rewrite Z. cbn [fmul fgtb fltb].
  split; [exact Ib|]. split; [exact P|]. split; [exact L|].
  split; [reflexivity|]. split; [reflexivity|].
  pose proof (over_by_a_fifth (predicted_amount p) b P) as F.
  destruct (Qltb 20 ((predicted_amount p - b) / b * 100)) eqn:H.
  - apply Qltb_lt in H. apply F in H. split; split; try reflexivity.
    + intros _. exact H.
    + discriminate.
    + intros H'. lra.
  - apply Qltb_ge in H. split; split; try reflexivity.
    + discriminate.
    + intros H'. apply F in H'. lra.
    + intros _. apply Qnot_lt_le. intros H'. apply F in H'. lra.
Qed.

Lemma default_budget_risk_witness :
  exists r,
    In r (forecast_budget_risks rising_groceries [])
    /\ risk_category r = "Food & Dining"
    /\ budget r == 165 /\ predicted r == 300
    /\ 0 < budget r /\ budget r < predicted r.
Proof.
  set (r := hd (mkbudget_risk "" 0 0 0 NaN "")
               (forecast_budget_risks rising_groceries [])).
  assert (I : In r (forecast_budget_risks rising_groceries []))
    by (vm_compute; left; reflexivity).
  exists r. split; [exact I|]. split; [reflexivity|].
  split; [reflexivity|]. split; [reflexivity|].
  destruct (default_budget_risks_are_real_overruns rising_groceries r I)
    as (_ & H1 & H2 & _).
  split; assumption.
Defined.
End RiskLaws.

(* ================================================================= *)
(** ** Alerts and their summary *)

Module AlertLaws.
Import SmartAlertsSystem AlertsSummary NumFacts.
Local Open Scope string_scope.

Ltac known_literal :=
  unfold known, known_alerts; cbn [alert_type severity];
  repeat match goal with
         | |- context [if ?b then _ else _] => destruct b
         end;
  repeat (try (left; reflexivity); right).

Ltac known_branches :=
  cbv zeta;
  repeat match goal with
         | |- Forall _ (if ?b then _ else _) => destruct b
         | |- Forall _ (match ?x with _ => _ end) => destruct x
         | |- Forall _ [] => constructor
         | |- Forall _ [_] => constructor; [known_literal|]
         end.

Lemma budget_alerts_known has_cat current budgets :
  Forall known (_check_budget_alerts has_cat current budgets).
Proof.
  unfold _check_budget_alerts. destruct has_cat; cbn [negb]; [|constructor].
  apply Forall_flat_map, Forall_forall. intros b _. known_branches.
Qed.

Lemma spending_spikes_known l current :
  Forall known (_check_spending_spikes l current).
Proof. unfold _check_spending_spikes. known_branches. Qed.

Lemma unusual_transactions_known l current :
  Forall known (_check_unusual_transactions l current).
Proof.
  unfold _check_unusual_transactions.
  destruct (_ <? _)%nat; [constructor|].
  destruct (Qeq_bool _ _); [constructor|].
  apply Forall_flat_map, Forall_forall. intros r _. known_branches.
Qed.

Lemma category_overspending_known has_cat l current :
  Forall known (_check_category_overspending has_cat l current).
Proof.
  unfold _check_category_overspending.
  destruct has_cat; cbn [negb]; [|constructor].
  apply Forall_flat_map, Forall_forall. intros c _. known_branches.
Qed.

Lemma trend_alerts_known l : Forall known (_check_trend_alerts l).
Proof. unfold _check_trend_alerts. known_branches. Qed.

Lemma recurring_alerts_known now l :
  Forall known (_check_recurring_expense_alerts now l).
Proof.
  unfold _check_recurring_expense_alerts.
  apply Forall_flat_map, Forall_forall. intros g _. known_branches.
Qed.

Lemma collected_alerts_known now df budgets :
  Forall known (collect_alerts now df budgets).
Proof.
  unfold collect_alerts.
  apply Forall_app; split;
    [destruct budgets; [constructor | apply budget_alerts_known]|].
  apply Forall_app; split; [apply spending_spikes_known|].
  apply Forall_app; split; [apply unusual_transactions_known|].
  apply Forall_app; split; [apply category_overspending_known|].
  apply Forall_app; split; [apply trend_alerts_known|].
  apply recurring_alerts_known.
Qed.

Lemma generated_alerts_known now df budgets :
  Forall known (generate_alerts now df budgets).
Proof.
  unfold generate_alerts. apply Forall_forall. intros a I.
  apply in_firstn in I.
  apply (Permutation_in _ (sort_desc_perm priority_gt _)) in I.
  pose proof (collected_alerts_known now df budgets) as K.
  rewrite Forall_forall in K. now apply K.
Qed.

(** X16.  Every alert that [generate_alerts] returns has one of the
    seven types of the priority table, with a severity that goes with
    the type; its priority lies between 3 and 10 and is never the
    default 1. *)
Theorem alerts_come_in_known_kinds
  (now : date) (df : frame) (budgets : list (string * Q)) :
  Forall
    (fun a =>
       In (alert_type a, severity a) known_alerts
       /\ In (alert_type a) (map fst priority_scores)
       /\ (3 <= _get_alert_priority (alert_type a) <= 10)%Z)
    (generate_alerts now df budgets).
Proof.
  eapply Forall_impl; [|apply generated_alerts_known].
  intros [t about s] K. unfold known in K. cbn [alert_type severity] in *.
  unfold known_alerts in K.
  repeat (destruct K as [K|K];
          [injection K as <- <-;
           split; [known_literal|];
           split; [cbn; repeat (try (left; reflexivity); right) |
                   vm_compute; split; discriminate]|]).
  destruct K.
Qed.

Lemma bump_sum t counts :
  list_sum (map snd (bump t counts)) = S (list_sum (map snd counts)).
Proof.
  induction counts as [|[t' n] rest IH]; cbn [bump]; [reflexivity|].
  destruct (String.eqb t t'); unfold list_sum in *;
    cbn [map snd fold_right] in *; lia.
Qed.

Lemma lookup_bump t t' counts :
  lookup String.compare t (bump t' counts)
  = if String.eqb t t'
    then Some (S (match lookup String.compare t counts with
                  | Some n => n
                  | None => 0%nat
                  end))
    else lookup String.compare t counts.
Proof.
  induction counts as [|[k n] rest IH]; cbn [bump lookup].
  - destruct (String.eqb t t') eqn:E.
    + apply String.eqb_eq in E. subst.
      now rewrite string_compare_refl.
    + destruct (String.compare t t') eqn:C; try reflexivity.
      apply String.compare_eq_iff in C. subst.
      now rewrite String.eqb_refl in E.
  - destruct (String.eqb t' k) eqn:K; cbn [lookup].
    + apply String.eqb_eq in K. subst k.
      destruct (String.compare t t') eqn:C.
      * apply String.compare_eq_iff in C. subst.
        now rewrite String.eqb_refl.
      * assert (E : String.eqb t t' = false).
        { apply String.eqb_neq. intros ->.
          now rewrite string_compare_refl in C. }
        rewrite E in IH |- *. reflexivity.
      * assert (E : String.eqb t t' = false).
        { apply String.eqb_neq. intros ->.
          now rewrite string_compare_refl in C. }
        rewrite E in IH |- *. reflexivity.
    + destruct (String.compare t k) eqn:C.
      * apply String.compare_eq_iff in C. subst k.
        assert (E : String.eqb t t' = false).
        { apply String.eqb_neq. intros ->. now rewrite String.eqb_refl in K. }
        now rewrite E.
      * exact IH.
      * exact IH.
Qed.

Lemma count_by_type_snoc alerts a :
  count_by_type (alerts ++ [a]) = bump (alert_type a) (count_by_type alerts).
Proof. unfold count_by_type. now rewrite fold_left_app. Qed.

Lemma count_by_type_sum alerts :
  list_sum (map snd (count_by_type alerts)) = List.length alerts.
Proof.
  induction alerts as [|a alerts IH] using rev_ind; [reflexivity|].
  rewrite count_by_type_snoc, bump_sum, IH, length_app. cbn. lia.
Qed.

Lemma count_by_type_lookup alerts t :
  lookup String.compare t (count_by_type alerts)
  = match List.length (of_type t alerts) with
    | O => None
    | n => Some n
    end.
Proof.
  induction alerts as [|a alerts IH] using rev_ind; [reflexivity|].
  rewrite count_by_type_snoc, lookup_bump, IH. unfold of_type.
  rewrite filter_app, length_app. cbn [filter].
  rewrite (String.eqb_sym t).
  destruct (String.eqb (alert_type a) t); cbn [List.length].
  - rewrite Nat.add_1_r.
    now destruct (List.length (filter _ alerts)).
  - now rewrite Nat.add_0_r.
Qed.

Lemma severities_partition alerts :
  Forall known alerts ->
  List.length alerts
  = (List.length (with_severity "high" alerts)
     + List.length (with_severity "medium" alerts)
     + List.length (with_severity "low" alerts))%nat.
Proof.
  induction 1 as [|[t about s] alerts K _ IH]; [reflexivity|].
  unfold with_severity in *. cbn [filter severity List.length].
  unfold known, known_alerts in K. cbn [alert_type severity] in K.
  repeat (destruct K as [K|K];
          [injection K as <- <-; cbn [String.eqb Ascii.eqb Bool.eqb andb
                                      List.length]; lia|]).
  destruct K.
Qed.

(** X17.  The summary of the generated alerts adds up: there are at
    most ten alerts, the three severities count every alert once, the
    counts by type sum to the total, and the count kept for a type is the
    number of alerts of that type, with no entry for a type without
    alerts. *)
Theorem alerts_summary_adds_up
  (now : date) (df : frame) (budgets : list (string * Q)) :
  let alerts := generate_alerts now df budgets in
  let s := create_alerts_summary alerts in
  (total_alerts s <= 10)%nat
  /\ total_alerts s
     = (high_severity s + medium_severity s + low_severity s)%nat
  /\ total_alerts s = list_sum (map snd (alert_types s))
  /\ forall t,
       lookup String.compare t (alert_types s)
       = match List.length (of_type t alerts) with
         | O => None
         | n => Some n
         end.
Proof.
  cbv zeta. unfold create_alerts_summary.
  cbn [total_alerts high_severity medium_severity low_severity alert_types].
  split; [|split; [|split]].
  - unfold generate_alerts. rewrite length_firstn. lia.
  - apply severities_partition, generated_alerts_known.
  - symmetry. apply count_by_type_sum.
  - intros t. apply count_by_type_lookup.
Qed.

Lemma percent_ge x b t :
  0 < b -> (t <= x / b * 100 <-> t * b <= 100 * x).
Proof.
  intros B. set (q := x / b).
  assert (E : q * b == x) by (unfold q; field; lra).
  clearbody q. rewrite <- E.
  setoid_replace (100 * (q * b)) with (q * 100 * b) by ring.
  split; intros H.
  - apply Qmult_le_compat_r; lra.
  - apply Qmult_le_r in H; lra.
Qed.

(** X18.  The budget check of one category that spent [spent] in the
    current month, away from the two thresholds by one part in a
    million of the budget, a margin far wider than what the rounding of
    the sum and of the percentage in float64 can move.  With a positive
    budget it reports the budget exceeded when the spending is above
    100.0001% of it, a warning when the spending lies between 80.0001%
    and 99.9999% of it, and nothing when the spending is below 79.9999%
    of it; with a budget of zero it reports the budget exceeded; with a
    negative budget it reports nothing. *)
Theorem budget_alert_thresholds
  (current : list txn) (c : string) (b spent : Q) :
  lookup String.compare c (category_spending current) = Some spent ->
  let alerts := _check_budget_alerts true current [(c, b)] in
  let exceeded := [mkalert "budget_exceeded" (Some c) "high"] in
  let warning := [mkalert "budget_warning" (Some c) "medium"] in
  (0 < b -> 1.000001 * b <= spent -> alerts = exceeded)
  /\ (0 < b -> 0.800001 * b <= spent -> spent <= 0.999999 * b ->
      alerts = warning)
  /\ (0 < b -> spent <= 0.799999 * b -> alerts = [])
  /\ (b == 0 -> alerts = exceeded)
  /\ (b < 0 -> alerts = []).
Proof.
  intros L. cbv zeta. unfold _check_budget_alerts.
  cbn [negb flat_map fst snd]. rewrite L, app_nil_r.
  assert (P : 0 < spent).
  { pose proof (category_spending_positive current) as F.
    rewrite Forall_map, Forall_forall in F.
    apply (F (c, spent)), lookup_in, L. }
  cbn [fdiv].
  destruct (Qeq_bool b 0) eqn:Z.
  - apply Qeq_bool_iff in Z.
    rewrite (Qeq_bool_false spent 0) by lra.
    apply Qltb_lt in P. rewrite P. cbn.
    repeat split; try reflexivity; intros; lra.
  - apply Qeq_bool_neq in Z. cbn [fmul fgeb fleb].
    destruct (Qlt_le_dec 0 b) as [B|B].
    + pose proof (percent_ge spent b 100 B) as H100.
      pose proof (percent_ge spent b 80 B) as H80.
      destruct (Qle_bool 100 (spent / b * 100)) eqn:E1.
      * apply Qle_bool_iff, H100 in E1.
        repeat split; try reflexivity; intros; lra.
      * apply Qle_bool_gt in E1.
        assert (N1 : spent < b).
        { apply Qnot_le_lt. intros H. assert (H0 : 100 * b <= 100 * spent) by lra.
          apply H100 in H0. lra. }
        destruct (Qle_bool 80 (spent / b * 100)) eqn:E2.
        -- apply Qle_bool_iff, H80 in E2.
           repeat split; try reflexivity; intros; lra.
        -- apply Qle_bool_gt in E2.
           assert (N2 : spent < 0.8 * b).
           { apply Qnot_le_lt. intros H.
             assert (H0 : 80 * b <= 100 * spent) by lra.
             apply H80 in H0. lra. }
           repeat split; try reflexivity; intros; lra.
    + assert (B' : b < 0) by (destruct (Qeq_dec b 0); [contradiction|lra]).
      assert (N : spent / b * 100 < 0).
      { set (q := spent / b).
        assert (E : q * b == spent) by (unfold q; field; lra). nra. }
      replace (Qle_bool 100 (spent / b * 100)) with false
        by (symmetry; apply Qle_bool_gt; lra).
      replace (Qle_bool 80 (spent / b * 100)) with false
        by (symmetry; apply Qle_bool_gt; lra).
      repeat split; try reflexivity; intros; lra.
Qed.

Lemma budget_alert_thresholds_witness :
  _check_budget_alerts true
    (current_month_rows (mkdate 2024 6 20) (rows lapsed_membership))
    [("Food & Dining", 100)]
  = [mkalert "budget_warning" (Some "Food & Dining") "medium"].
Proof.
  apply (budget_alert_thresholds
           (current_month_rows (mkdate 2024 6 20) (rows lapsed_membership))
           "Food & Dining" 100 85).
  - vm_compute. reflexivity.
  - reflexivity.
  - vm_compute. discriminate.
  - vm_compute. discriminate.
Defined.
End AlertLaws.

(* ================================================================= *)
(** ** Goals *)

Module GoalLaws.
Import GoalTracker NumFacts.
Local Open Scope string_scope.

(** X19.  A new goal has at least one month remaining and a
    non-negative monthly need.  While the target is not reached, the
    need times the months remaining is what is missing; once it is
    reached the need is zero.  The status is Completed exactly when the
    target is positive and reached. *)
Theorem create_goal_invariants
  (today : date) (name : string) (target_amount : Q) (target_date : date)
  (goal_type : string) (current_amount : Q) :
  let g := create_goal today name target_amount target_date goal_type
             current_amount in
  1 <= months_remaining g
  /\ 0 <= monthly_savings_needed g
  /\ (current_amount <= target_amount ->
      monthly_savings_needed g * months_remaining g
      == target_amount - current_amount)
  /\ (target_amount <= current_amount -> monthly_savings_needed g == 0)
  /\ (status g = "Completed"
      <-> 0 < target_amount /\ target_amount <= current_amount).
Proof.
  cbv zeta. unfold create_goal.
  cbn [months_remaining monthly_savings_needed status].
  set (m := Qpymax 1 (inject_Z (days_between target_date today) / 30.44)).
  assert (M : 1 <= m) by apply Qpymax_lower.
  set (d := (target_amount - current_amount) / m).
  assert (D : d * m == target_amount - current_amount)
    by (unfold d; field; lra).
  clearbody d m.
  split; [exact M|]. split; [apply Qpymax_lower|].
  split; [|split].
  - intros H. destruct (Qpymax_cases 0 d) as [[-> B]|[-> B]]; nra.
  - intros H. destruct (Qpymax_cases 0 d) as [[-> B]|[-> B]]; [lra|nra].
  - unfold _get_goal_status.
    destruct (Qltb 0 target_amount) eqn:T.
    + apply Qltb_lt in T.
      set (q := current_amount / target_amount).
      assert (E : q * target_amount == current_amount)
        by (unfold q; field; lra).
      clearbody q.
      destruct (Qle_bool 100 (q * 100)) eqn:P.
      * apply Qle_bool_iff in P. split; [intros _|reflexivity].
        split; [exact T | nra].
      * apply Qle_bool_gt in P. split.
        -- repeat match goal with
                  | |- context [if ?b then _ else _] => destruct b
                  end; discriminate.
        -- intros [_ H]. exfalso. nra.
    + apply Qltb_ge in T.
      replace (Qle_bool 100 0) with false by reflexivity. split.
      * repeat match goal with
               | |- context [if ?b then _ else _] => destruct b
               end; discriminate.
      * intros [H _]. lra.
Qed.

Lemma monthly_income_series_nil l :
  monthly_income_series l = [] <-> credits l = [].
Proof.
  unfold monthly_income_series, by_month. split.
  - intros E. apply map_eq_nil in E. apply groupby_nil_iff in E.
    now apply map_eq_nil in E.
  - intros ->. reflexivity.
Qed.

Lemma mean_monthly_income_cases l :
  (credits l = [] /\ mean_monthly_income l = NaN)
  \/ (credits l <> [] /\ exists m, mean_monthly_income l = Fin m /\ 0 < m).
Proof.
  unfold mean_monthly_income.
  pose proof (monthly_income_series_positive l) as P.
  pose proof (monthly_income_series_nil l) as N.
  destruct (monthly_income_series l) as [|x xs] eqn:E.
  - left. split; [now apply N | reflexivity].
  - right. split.
    + intros C. apply N in C. discriminate.
    + cbn [map mean]. eexists. split; [reflexivity|].
      apply Qmean_pos; [discriminate | exact P].
Qed.

Lemma mean_monthly_expenses_cases l :
  mean_monthly_expenses l = NaN
  \/ exists e, mean_monthly_expenses l = Fin e /\ 0 <= e.
Proof.
  unfold mean_monthly_expenses.
  destruct (map snd (monthly_debit_sums l)); [now left|].
  right. cbn [mean fabs]. eexists. split; [reflexivity | apply Qabs_nonneg].
Qed.

Lemma python_mean_income l :
  python_mean (map snd (monthly_income_series l)) = true <-> credits l = [].
Proof.
  rewrite <- monthly_income_series_nil.
  destruct (monthly_income_series l); cbn; split; congruence.
Qed.

(** When the analysis raises and when it returns. *)
Lemma analyze_goal_feasibility_raises g df e :
  analyze_goal_feasibility g df = Raise e ->
  e = ZeroDivisionError
  /\ credits (rows df) = [] /\ monthly_savings_needed g == 0.
Proof.
  unfold analyze_goal_feasibility, truediv.
  destruct (python_mean _ && feqb _ _) eqn:T; [|discriminate].
  intros H. inversion H. split; [reflexivity|].
  apply andb_true_iff in T as [T1 T2].
  split; [now apply python_mean_income | now apply Qeq_bool_iff].
Qed.

Lemma analyze_goal_feasibility_returns g df r :
  analyze_goal_feasibility g df = Ok r ->
  credits (rows df) <> [] \/ ~ monthly_savings_needed g == 0.
Proof.
  unfold analyze_goal_feasibility, truediv.
  destruct (python_mean _ && feqb _ _) eqn:T; [discriminate|].
  intros _. apply andb_false_iff in T as [T|T].
  - left. intros C. apply python_mean_income in C. congruence.
  - right. now apply Qeq_bool_neq.
Qed.

(** The savings the report works with: not a number exactly when the
    table has no income, and a non-negative amount otherwise. *)
Lemma current_monthly_savings_cases g df r :
  analyze_goal_feasibility g df = Ok r ->
  (credits (rows df) = [] /\ current_monthly_savings r = NaN)
  \/ (credits (rows df) <> []
      /\ exists c, current_monthly_savings r = Fin c /\ 0 <= c).
Proof.
  unfold analyze_goal_feasibility.
  destruct (truediv _ _ _); [|discriminate].
  intros H. inversion H. cbn [current_monthly_savings]. clear H.
  destruct (mean_monthly_income_cases (rows df)) as [[C ->]|[C [m [-> M]]]].
  - left. split; [exact C | reflexivity].
  - right. split; [exact C|].
    cbn [fgtb fltb]. apply Qltb_lt in M. rewrite M. apply Qltb_lt in M.
    destruct (mean_monthly_expenses_cases (rows df)) as [->|[e [-> E]]].
    + cbn. eexists. split; [reflexivity | lra].
    + cbn [fsub fneg fadd fdiv]. rewrite Qeq_bool_false by lra.
      unfold pymax. cbn [fgtb fltb].
      destruct (Qltb 0 ((m + - e) / m)) eqn:R; cbn [fmul];
        eexists; (split; [reflexivity|]).
      * apply Qltb_lt in R. nra.
      * lra.
Qed.

Lemma clamp_is_finite x :
  exists p, pymin (Fin 100) (pymax (Fin 10) x) = Fin p /\ 10 <= p <= 100.
Proof.
  destruct x as [q| | |]; unfold pymin, pymax; cbn [fgtb fltb].
  - destruct (Qltb 10 q) eqn:A; cbn [fltb].
    + apply Qltb_lt in A. destruct (Qltb q 100) eqn:B.
      * apply Qltb_lt in B. exists q. split; [reflexivity | lra].
      * exists 100. split; [reflexivity | lra].
    + exists 10. split; [reflexivity | lra].
  - exists 10. split; [reflexivity | lra].
  - exists 100. split; [reflexivity | lra].
  - exists 10. split; [reflexivity | lra].
Qed.

(** What a report holds, whenever there is one. *)
Lemma report_bounds g df r :
  analyze_goal_feasibility g df = Ok r ->
  (exists p, success_probability r = Fin p /\ 10 <= p <= 100)
  /\ (exists s, monthly_shortage r = Fin s /\ 0 <= s)
  /\ In (feasibility r) ["Easy"; "Achievable"; "Challenging"; "Difficult"].
Proof.
  intros H.
  pose proof (current_monthly_savings_cases g df r H) as S.
  unfold analyze_goal_feasibility in H.
  destruct (truediv _ _ _) as [ratio|]; [|discriminate].
  inversion H as [R]. clear H.
  rewrite <- R in S. cbn [current_monthly_savings] in S.
  cbn [success_probability monthly_shortage feasibility].
  split; [apply clamp_is_finite|]. split.
  - destruct S as [[_ E]|[_ [c [E C]]]]; rewrite E.
    + cbn. exists 0. split; [reflexivity | lra].
    + unfold pymax. cbn [fsub fneg fadd fgtb fltb].
      destruct (Qltb 0 _) eqn:P; eexists; (split; [reflexivity|]).
      * apply Qltb_lt in P. lra.
      * lra.
  - repeat match goal with
           | |- context [if ?b then _ else _] => destruct b
           end; cbn; tauto.
Qed.

(** X20.  The feasibility analysis raises ZeroDivisionError exactly when
    the table has no income and the goal needs no more savings.  In
    every other case it returns a report, and the report carries a
    finite success probability between 10 and 100, a finite shortage
    that is not negative, and one of the four feasibility labels. *)
Theorem feasibility_report_is_bounded (g : goal) (df : frame) :
  match analyze_goal_feasibility g df with
  | Ok r =>
      (credits (rows df) <> [] \/ ~ monthly_savings_needed g == 0)
      /\ (exists p, success_probability r = Fin p /\ 10 <= p <= 100)
      /\ (exists s, monthly_shortage r = Fin s /\ 0 <= s)
      /\ In (feasibility r)
            ["Easy"; "Achievable"; "Challenging"; "Difficult"]
  | Raise e =>
      e = ZeroDivisionError
      /\ credits (rows df) = [] /\ monthly_savings_needed g == 0
  end.
Proof.
  destruct (analyze_goal_feasibility g df) as [r|e] eqn:E.
  - split; [exact (analyze_goal_feasibility_returns g df r E)|].
    exact (report_bounds g df r E).
  - exact (analyze_goal_feasibility_raises g df e E).
Qed.

(** X21.  When the analysis returns a report, its current monthly
    savings are a number, and then not negative, exactly when the table
    has income.  Without income they are not a number, the goal still
    needs savings (or the analysis would have raised), and the report
    says Difficult with a shortage of 0 and a success probability of
    10. *)
Theorem savings_are_a_number_iff_there_is_income
  (g : goal) (df : frame) (r : feasibility_report) :
  analyze_goal_feasibility g df = Ok r ->
  match current_monthly_savings r with
  | Fin c => 0 <= c /\ credits (rows df) <> []
  | NaN =>
      credits (rows df) = []
      /\ ~ monthly_savings_needed g == 0
      /\ feasibility r = "Difficult"
      /\ monthly_shortage r = Fin 0
      /\ success_probability r = Fin 10
  | PInf | NInf => False
  end.
Proof.
  intros H.
  destruct (current_monthly_savings_cases g df r H) as [[C E]|[C [c [E P]]]].
  - pose proof (analyze_goal_feasibility_returns g df r H) as [N|N];
      [contradiction|].
    rewrite E. split; [exact C|]. split; [exact N|].
    unfold analyze_goal_feasibility, truediv in H.
    pose proof (Qeq_bool_false _ _ N) as Z.
    cbn [feqb] in H. rewrite Z, andb_false_r in H.
    inversion H as [R]. rewrite <- R in E. cbn [current_monthly_savings] in E.
    cbn [feasibility monthly_shortage success_probability].
    rewrite E. cbn. repeat split; reflexivity.
  - rewrite E. split; [exact P | exact C].
Qed.

Lemma savings_without_income_witness :
  analyze_goal_feasibility holiday rent_only
  = Ok (mkfeasibility "Difficult" NaN
          (Fin (monthly_savings_needed holiday)) (Fin 0) (Fin 10))
  /\ credits (rows rent_only) = []
  /\ ~ monthly_savings_needed holiday == 0.
Proof.
  split; [reflexivity|].
  pose proof (savings_are_a_number_iff_there_is_income holiday rent_only
                (mkfeasibility "Difficult" NaN
                   (Fin (monthly_savings_needed holiday)) (Fin 0) (Fin 10))
                eq_refl) as H.
  cbn [current_monthly_savings] in H.
  destruct H as [C [N _]]. split; [exact C | exact N].
Defined.

Lemma months_divisor_pos l : 1 <= months_divisor l.
Proof.
  unfold months_divisor. change 1 with (inject_Z 1). rewrite <- Zle_Qle. lia.
Qed.

Lemma share_positive spent months f :
  0 < spent -> 1 <= months -> 0 < f -> 0 < spent / months * f.
Proof.
  intros S M F.
  assert (0 < spent / months) by (apply Qlt_shift_div_l; lra).
  nra.
Qed.

Lemma candidate_strategies_positive df shortage :
  0 < shortage ->
  Forall (fun s => 0 < potential_savings s)
         (candidate_strategies df shortage).
Proof.
  intros S. unfold candidate_strategies.
  pose proof (category_spending_positive (rows df)) as P.
  pose proof (months_divisor_pos (rows df)) as M.
  set (spending := category_spending (rows df)) in *.
  set (months := months_divisor (rows df)) in *.
  assert (A : Forall (fun s => 0 < potential_savings s)
                (flat_map
                   (fun c =>
                      if Qle_bool (shortage * 0.3) (snd c / months * 0.15)
                      then [mkstrategy ("Reduce " ++ fst c ++ " Spending")
                              (snd c / months * 0.15) "Medium" (fst c)]
                      else [])
                   (firstn 3 spending))).
  { apply Forall_flat_map, Forall_forall. intros [c v] I.
    apply in_firstn in I. cbn [fst snd].
    destruct (Qle_bool _ _); [|constructor].
    repeat constructor. cbn [potential_savings].
    rewrite Forall_map, Forall_forall in P. specialize (P _ I).
    apply share_positive; [exact P | exact M | lra]. }
  assert (B : Forall (fun s => 0 < potential_savings s)
                (flat_map
                   (fun c =>
                      match lookup String.compare c spending with
                      | Some spent =>
                          [mkstrategy ("Cut " ++ c) (spent / months * 0.25)
                             (if Qltb (spent / months * 0.25) 100
                              then "Easy" else "Medium") c]
                      | None => []
                      end)
                   discretionary_categories)).
  { apply Forall_flat_map, Forall_forall. intros c _.
    destruct (lookup String.compare c spending) as [spent|] eqn:L;
      [|constructor].
    repeat constructor. cbn [potential_savings].
    rewrite Forall_map, Forall_forall in P.
    specialize (P _ (lookup_in _ _ _ L)). apply share_positive; [exact P | exact M | lra]. }
  cbv zeta.
  set (strategies := (_ ++ _ ++ [mkstrategy "Increase Income" _ _ _])%list).
  assert (C : Forall (fun s => 0 < potential_savings s) strategies).
  { unfold strategies. apply Forall_app; split; [exact A|].
    apply Forall_app; split; [exact B|]. repeat constructor. exact S. }
  apply Forall_app; split; [exact C|].
  destruct (1 <? List.length strategies)%nat; [|constructor].
  destruct (Qle_bool shortage _) eqn:E; [|constructor].
  apply Qle_bool_iff in E. repeat constructor. cbn [potential_savings]. lra.
Qed.

Lemma income_strategy_is_a_candidate df shortage :
  In (mkstrategy "Increase Income" shortage "Hard" "Income")
     (candidate_strategies df shortage).
Proof.
  unfold candidate_strategies. cbv zeta.
  apply in_or_app. left. apply in_or_app. right.
  apply in_or_app. right. now left.
Qed.

Lemma sorted_strategies_sorted l :
  StronglySorted saves_at_least (sort_desc key_gt l).
Proof.
  apply sort_desc_sorted.
  - exact GoalFacts.saves_at_least_trans.
  - exact GoalFacts.key_gt_saves.
  - exact GoalFacts.not_key_gt_saves.
Qed.

(** X22.  On a table with categories and a positive monthly
    shortage, the strategy ranked first saves at least the shortage,
    and every returned strategy saves a positive amount. *)
Theorem best_strategy_covers_the_shortage (g : goal) (df : frame) :
  has_category df = true ->
  0 < monthly_savings_needed g - current_savings df ->
  let out := generate_savings_strategies g df in
  (exists best rest,
      out = best :: rest
      /\ monthly_savings_needed g - current_savings df
         <= potential_savings best)
  /\ Forall (fun s => 0 < potential_savings s) out.
Proof.
  intros Hc Hs. cbv zeta. unfold generate_savings_strategies.
  rewrite Hc. cbn [negb].
  replace (Qle_bool (monthly_savings_needed g - current_savings df) 0)
    with false by (symmetry; apply Qle_bool_gt; exact Hs).
  set (shortage := monthly_savings_needed g - current_savings df) in *.
  pose proof (sorted_strategies_sorted (candidate_strategies df shortage))
    as S.
  pose proof (sort_desc_perm key_gt (candidate_strategies df shortage)) as P.
  pose proof (income_strategy_is_a_candidate df shortage) as I.
  apply (Permutation_in _ (Permutation_sym P)) in I.
  split.
  - destruct (sort_desc key_gt (candidate_strategies df shortage))
      as [|best rest]; [destruct I|].
    exists best, (firstn 4 rest). split; [reflexivity|].
    destruct I as [->|I]; [cbn; lra|].
    inversion S as [|? ? _ F]; subst. rewrite Forall_forall in F.
    apply (F _ I).
  - apply Forall_forall. intros s Is. apply in_firstn in Is.
    apply (Permutation_in _ P) in Is.
    pose proof (candidate_strategies_positive df shortage Hs) as C.
    rewrite Forall_forall in C. now apply C.
Qed.

Lemma best_strategy_witness :
  let df := mkframe true None tight_month in
  (exists best rest,
      generate_savings_strategies laptop df = best :: rest
      /\ monthly_savings_needed laptop - current_savings df
         <= potential_savings best)
  /\ Forall (fun s => 0 < potential_savings s)
            (generate_savings_strategies laptop df).
Proof.
  apply (best_strategy_covers_the_shortage laptop
           (mkframe true None tight_month)).
  - reflexivity.
  - vm_compute. reflexivity.
Defined.

Lemma category_spending_keys l k :
  In k (map fst (category_spending l)) ->
  exists r, In r l /\ category r = k.
Proof.
  unfold category_spending. intros I.
  assert (I' : In k (map fst (groupby String.compare
                                (map (fun r => (category r, amount r))
                                     (debits l))))).
  { apply in_map_iff in I. destruct I as [[c v] [E I]].
    apply in_map_iff in I. destruct I as [[c' vs] [E' I]].
    injection E' as <- _. cbn [fst] in E. subst c'.
    apply in_map_iff. now exists (k, vs). }
  apply (proj1 (groupby_keys String.compare String.compare_eq_iff _ k))
    in I'.
  apply in_map_iff in I'. destruct I' as [[c v] [E I']]. cbn [fst] in E.
  subst c. apply in_map_iff in I'. destruct I' as [r [E I']].
  injection E as E _. exists r. split; [|exact E].
  now apply filter_In in I'.
Qed.

Lemma dining_is_no_category : ~ In "Dining" ExpenseCategorizer.categories.
Proof.
  intros I.
  assert (H : existsb (String.eqb "Dining") ExpenseCategorizer.categories
              = true)
    by (apply existsb_exists; exists "Dining"; split;
        [exact I | apply String.eqb_refl]).
  vm_compute in H. discriminate.
Qed.

(** X23.  On a table labelled by the categorizer no strategy targets
    Dining: the discretionary category Dining is none of the
    categorizer's labels (it has Food & Dining), so Cut Dining is never
    proposed. *)
Theorem dining_is_never_cut_on_categorized_tables (g : goal) (f : frame) :
  Forall (fun s => target s <> "Dining" /\ title s <> "Cut Dining")
         (generate_savings_strategies g (Session.categorized f)).
Proof.
  set (df := Session.categorized f).
  assert (T : forall k, In k (map fst (category_spending (rows df))) ->
                        k <> "Dining").
  { intros k I ->. apply category_spending_keys in I.
    destruct I as [r [I E]].
    pose proof (CategorizerLaws.categorized_rows_in_categories (rows f)) as C.
    rewrite Forall_forall in C. specialize (C r I). rewrite E in C.
    now apply dining_is_no_category. }
  unfold generate_savings_strategies. cbn [Session.categorized has_category negb].
  fold df.
  destruct (Qle_bool _ 0); [repeat constructor; discriminate|].
  apply Forall_forall. intros s I. apply in_firstn in I.
  apply (Permutation_in _ (sort_desc_perm key_gt _)) in I.
  unfold candidate_strategies in I. cbv zeta in I.
  apply in_app_or in I. destruct I as [I|I].
  - apply in_app_or in I. destruct I as [I|I].
    + apply in_flat_map in I. destruct I as [[c v] [Ic I]].
      cbn [fst snd] in I. destruct (Qle_bool _ _); [|destruct I].
      destruct I as [<-|[]]. cbn [target title]. split; [|discriminate].
      apply T. apply in_firstn in Ic. apply in_map_iff. now exists (c, v).
    + apply in_app_or in I. destruct I as [I|I].
      * apply in_flat_map in I. destruct I as [c [Ic I]].
        destruct (lookup String.compare c (category_spending (rows df)))
          as [spent|] eqn:L; [|destruct I].
        destruct I as [<-|[]]. cbn [target title].
        assert (N : c <> "Dining").
        { apply T. apply in_map_iff. exists (c, spent).
          split; [reflexivity | now apply lookup_in]. }
        split; [exact N|]. intros E. apply N.
        cbn in E. now injection E.
      * destruct I as [<-|[]]. cbn. split; discriminate.
  - destruct (1 <? _)%nat; [|destruct I].
    destruct (Qle_bool _ _); [|destruct I].
    destruct I as [<-|[]]. cbn. split; discriminate.
Qed.
End GoalLaws.

(* ================================================================= *)
(** ** The calendar *)

Lemma Qsum_app l1 l2 : Qsum (l1 ++ l2) == Qsum l1 + Qsum l2.
Proof.
  unfold Qsum. induction l1 as [|x l1 IH]; cbn [app fold_right]; lra.
Qed.

Lemma Qsum_nonpos l : Forall (fun x => x <= 0) l -> Qsum l <= 0.
Proof.
  unfold Qsum. induction 1 as [|x l Hx _ IH]; cbn [fold_right]; lra.
Qed.

(** Credits and debits share out the sum of a table: a zero amount
    belongs to neither and adds nothing. *)
Lemma credits_plus_debits l :
  Qsum (map amount (credits l)) + Qsum (map amount (debits l))
  == Qsum (map amount l).
Proof.
  induction l as [|r l IH]; [reflexivity|].
  unfold credits, debits in *. cbn [filter map Qsum fold_right].
  fold (Qsum (map amount l)).
  destruct (Qltb 0 (amount r)) eqn:P, (Qltb (amount r) 0) eqn:N;
    cbn [map Qsum fold_right];
    repeat match goal with
           | |- context [fold_right Qplus 0 ?l] => fold (Qsum l)
           end.
  - apply NumFacts.Qltb_lt in P, N. lra.
  - lra.
  - lra.
  - apply NumFacts.Qltb_ge in P, N. lra.
Qed.

Lemma debit_sum_nonpos l : Qsum (map amount (debits l)) <= 0.
Proof.
  apply Qsum_nonpos, Forall_map.
  eapply Forall_impl; [|apply debits_negative]. cbn. intros r H. lra.
Qed.

Lemma credit_sum_nonneg l : 0 <= Qsum (map amount (credits l)).
Proof.
  apply Qsum_nonneg, Forall_map.
  eapply Forall_impl; [|apply credits_positive]. cbn. intros r H. lra.
Qed.

Module CalendarLaws.
Import FinancialCalendar NumFacts.
Local Open Scope string_scope.

(** X24.  The statistics of a month are consistent: the net flow is
    the sum of all amounts; income, expense and daily average are not
    negative; the daily average does not exceed the expense; spending
    days and income days are at most the active days, which are at most
    the transactions. *)
Theorem month_stats_are_consistent (l : list txn) :
  let s := _calculate_month_stats l in
  stats_net_flow s == Qsum (map amount l)
  /\ 0 <= stats_total_income s /\ 0 <= stats_total_expense s
  /\ 0 <= daily_avg_expense s /\ daily_avg_expense s <= stats_total_expense s
  /\ (spending_days s <= distinct_days l)%nat
  /\ (income_days s <= distinct_days l)%nat
  /\ (distinct_days l <= stats_transaction_count s)%nat.
Proof.
  cbv zeta. unfold _calculate_month_stats.
  cbn [stats_net_flow stats_total_income stats_total_expense
       daily_avg_expense spending_days income_days stats_transaction_count].
  pose proof (debit_sum_nonpos l) as D.
  pose proof (credit_sum_nonneg l) as C.
  assert (I : forall p, (distinct_days (filter p l) <= distinct_days l)%nat).
  { intros p. unfold distinct_days, active_days.
    apply NoDup_incl_length; [apply NoDup_nodup|].
    intros d H. apply nodup_In in H. apply nodup_In.
    apply in_map_iff in H. destruct H as [r [<- H]].
    apply filter_In in H.
    apply (in_map (fun r => day (tdate r))). apply H. }
  split; [|split; [|split; [|split; [|split; [|split; [|split]]]]]].
  - pose proof (credits_plus_debits l) as E.
    rewrite Qabs_neg by exact D. lra.
  - exact C.
  - apply Qabs_nonneg.
  - destruct l as [|r l']; [lra|].
    apply Qle_shift_div_l; [|rewrite Qmult_0_l; apply Qabs_nonneg].
    change 0 with (inject_Z 0). rewrite <- Zlt_Qlt. lia.
  - destruct l as [|r l']; [apply Qabs_nonneg|].
    apply Qle_shift_div_r.
    + change 0 with (inject_Z 0). rewrite <- Zlt_Qlt. lia.
    + set (e := Qabs _). set (n := Nat.max 1 _).
      assert (1 <= inject_Z (Z.of_nat n)).
      { change 1 with (inject_Z 1). rewrite <- Zle_Qle. lia. }
      pose proof (Qabs_nonneg (Qsum (map amount (debits (r :: l'))))).
      fold e in H0. nra.
  - apply I.
  - apply I.
  - unfold distinct_days, active_days.
    rewrite <- (length_map (fun r => day (tdate r)) l).
    apply NoDup_incl_length; [apply NoDup_nodup|].
    intros d H. now apply nodup_In in H.
Qed.

Lemma on_day_cons d r l :
  on_day d (r :: l)
  = if (day (tdate r) =? d)%Z then r :: on_day d l else on_day d l.
Proof. reflexivity. Qed.

(** The rows of the days [a+1 .. a+n], counted day by day. *)
Lemma rows_by_day (a n : nat) l :
  Forall (fun r => (Z.of_nat a < day (tdate r) <= Z.of_nat (a + n))%Z) l ->
  list_sum (map (fun k => List.length (on_day (Z.of_nat k) l))
                (seq (S a) n))
  = List.length l.
Proof.
  induction 1 as [|r l Hr Hl IH].
  - cbn [on_day filter List.length]. induction (seq (S a) n); cbn; auto.
  - cbn [List.length]. rewrite <- IH. clear IH Hl.
    revert a Hr. induction n as [|n IHn]; intros a Hr; [lia|].
    cbn [seq map]. unfold list_sum in *. cbn [fold_right].
    rewrite on_day_cons.
    destruct (day (tdate r) =? Z.of_nat (S a))%Z eqn:E.
    + cbn [List.length]. rewrite Nat.add_succ_l. do 3 f_equal.
      apply Z.eqb_eq in E. apply map_ext_in. intros k Ik.
      apply in_seq in Ik. rewrite on_day_cons.
      replace (day (tdate r) =? Z.of_nat k)%Z with false; [reflexivity|].
      symmetry. apply Z.eqb_neq. lia.
    + apply Z.eqb_neq in E. rewrite (IHn (S a)); lia.
Qed.

(** X25.  For rows dated on the days 1 to 31, the daily summary
    counts every row exactly once: the transaction counts add up to the
    number of rows.  Every listed day has at least one row, counts its
    own rows, and has the sum of their amounts as its net flow. *)
Theorem daily_summary_counts_every_row (has_cat : bool) (l : list txn) :
  Forall (fun r => (1 <= day (tdate r) <= 31)%Z) l ->
  let summary := _create_daily_summary has_cat l in
  list_sum (map (fun e => transaction_count (snd e)) summary)
  = List.length l
  /\ Forall (fun e =>
               (1 <= transaction_count (snd e))%nat
               /\ transaction_count (snd e)
                  = List.length (on_day (fst e) l)
               /\ net_flow (snd e)
                  == Qsum (map amount (on_day (fst e) l)))
            summary.
Proof.
  intros V. cbv zeta. split.
  - transitivity
      (list_sum (map (fun k => List.length (on_day (Z.of_nat k) l))
                     (seq 1 31))).
    + unfold _create_daily_summary.
      match goal with |- context [flat_map ?f _] => set (F := f) end.
      generalize (seq 1 31). intros ks.
      induction ks as [|k ks IH]; [reflexivity|].
      cbn [flat_map map]. rewrite map_app, list_sum_app, IH.
      unfold list_sum. cbn [fold_right]. f_equal. unfold F.
      destruct (on_day (Z.of_nat k) l); cbn; lia.
    + apply (rows_by_day 0 31).
      eapply Forall_impl; [|exact V]. cbn. intros r H. lia.
  - unfold _create_daily_summary. apply Forall_flat_map, Forall_forall.
    intros k _. cbv zeta.
    destruct (on_day (Z.of_nat k) l) as [|r rest] eqn:E; [constructor|].
    constructor; [|constructor].
    cbn [fst snd transaction_count net_flow]. split; [|split].
    + cbn. lia.
    + now rewrite E.
    + rewrite E. pose proof (credits_plus_debits (r :: rest)) as P.
      rewrite (Qabs_neg _ (debit_sum_nonpos (r :: rest))). lra.
Qed.

Lemma daily_summary_witness :
  let summary := _create_daily_summary true two_day_month in
  list_sum (map (fun e => transaction_count (snd e)) summary) = 2%nat
  /\ map fst summary = [1; 2]%Z.
Proof.
  split.
  - apply (daily_summary_counts_every_row true two_day_month).
    repeat constructor; cbn; lia.
  - reflexivity.
Defined.

Lemma flagged_debits_split l flags :
  List.length flags = List.length l ->
  Qsum (map amount (debits_flagged l flags true))
  + Qsum (map amount (debits_flagged l flags false))
  == Qsum (map amount (debits l)).
Proof.
  revert flags. induction l as [|r l IH]; intros [|b flags] H;
    try discriminate; [reflexivity|].
  injection H as H. specialize (IH flags H).
  unfold debits_flagged, debits, Qsum in *.
  cbn [combine filter fst snd].
  destruct (Qltb (amount r) 0); cbn [andb]; [|exact IH].
  destruct b; cbn [Bool.eqb map fold_right fst]; lra.
Qed.

Lemma flagged_debits_nonpos l flags want :
  Qsum (map amount (debits_flagged l flags want)) <= 0.
Proof.
  apply Qsum_nonpos, Forall_map. unfold debits_flagged.
  apply Forall_map, Forall_forall. intros [r b] I.
  apply filter_In in I. destruct I as [_ I]. cbn [fst snd] in *.
  apply andb_prop in I. destruct I as [I _]. apply Qltb_lt in I. lra.
Qed.

Import Session.

(** What a calendar view is made of: the parts all describe the rows
    of the requested month. *)
Lemma create_calendar_view_runs now df y m s :
  let f := nth df s no_frame in
  let month := month_rows y m (rows f) in
  let summary := _create_daily_summary (has_category f) month in
  fst (create_calendar_view now df (Some y) (Some m) s)
  = match _create_calendar_matrix summary y m with
    | Raise e => Raise e
    | Ok matrix =>
        Ok (mkcalendar_view matrix summary
              (match month with
               | [] => no_patterns
               | _ => patterns_of (has_category f) month
                        (map weekend_flag month)
               end)
              (_calculate_month_stats month) y m)
    end.
Proof.
  cbv zeta. unfold create_calendar_view.
  set (f := nth df s no_frame).
  unfold bind at 1. unfold load at 1. fold f.
  unfold bind at 1. unfold alloc at 1.
  unfold bind at 1. unfold load at 1. rewrite SessionFacts.nth_last.
  cbn [rows has_category].
  unfold bind at 1. unfold _identify_spending_patterns.
  unfold bind at 1. unfold load at 1. rewrite SessionFacts.nth_last.
  cbn [rows has_category].
  destruct (_create_calendar_matrix _ y m) as [matrix|e].
  - destruct (month_rows y m (rows f)) as [|r l] eqn:E.
    + unfold ret at 1. unfold bind, load, ret. rewrite SessionFacts.nth_last.
      reflexivity.
    + unfold bind at 1. unfold modify at 1. rewrite SessionFacts.update_last.
      unfold bind at 1. unfold load at 1. rewrite SessionFacts.nth_last.
      unfold ret at 1. unfold bind, load, ret. rewrite SessionFacts.nth_last.
      reflexivity.
  - destruct (month_rows y m (rows f)) as [|r l].
    + unfold ret. reflexivity.
    + unfold bind at 1. unfold modify at 1.
      unfold bind at 1. unfold load at 1. unfold ret. reflexivity.
Qed.

(** X26.  In a calendar view the weekend and the weekday spending add
    up to the total expense of the month; neither is negative, and the
    weekend is preferred exactly when it is strictly greater.  The
    comparison is missing only for a month without rows. *)
Theorem weekend_and_weekday_spending_add_up
  (now : date) (df : ref) (y m : Z) (s : store) (v : calendar_view) :
  fst (create_calendar_view now df (Some y) (Some m) s) = Ok v ->
  match weekend_vs_weekday (view_patterns v) with
  | Some (weekend, weekday, prefers_weekend) =>
      weekend + weekday == stats_total_expense (view_month_stats v)
      /\ 0 <= weekend /\ 0 <= weekday
      /\ (prefers_weekend = true <-> weekday < weekend)
  | None => month_rows y m (rows (nth df s no_frame)) = []
  end.
Proof.
  rewrite create_calendar_view_runs. cbv zeta.
  destruct (_create_calendar_matrix _ y m) as [matrix|e]; [|discriminate].
  intros H. injection H as <-. cbn [view_patterns view_month_stats].
  destruct (month_rows y m (rows (nth df s no_frame))) as [|r l] eqn:E;
    [reflexivity|].
  set (month := r :: l). unfold patterns_of.
  cbn [weekend_vs_weekday]. unfold _calculate_month_stats.
  cbn [stats_total_expense].
  pose proof (flagged_debits_split month (map weekend_flag month)
                (length_map _ _)) as P.
  pose proof (flagged_debits_nonpos month (map weekend_flag month) true) as A.
  pose proof (flagged_debits_nonpos month (map weekend_flag month) false)
    as B.
  pose proof (debit_sum_nonpos month) as D.
  pose proof (Qabs_neg _ A) as EA. pose proof (Qabs_neg _ B) as EB.
  pose proof (Qabs_neg _ D) as ED.
  set (weekend := Qabs (Qsum (map amount (debits_flagged month _ true))))
    in *.
  set (weekday := Qabs (Qsum (map amount (debits_flagged month _ false))))
    in *.
  split; [lra|]. split; [lra|]. split; [lra|].
  apply Qltb_lt.
Qed.

Lemma weekend_and_weekday_witness :
  exists v,
    fst (create_calendar_view (mkdate 2024 5 20) 0%nat (Some 2024%Z) (Some 5%Z)
           [mkframe true None two_day_month]) = Ok v
    /\ match weekend_vs_weekday (view_patterns v) with
       | Some (weekend, weekday, _) =>
           weekend + weekday == stats_total_expense (view_month_stats v)
       | None => False
       end.
Proof.
  destruct (fst (create_calendar_view (mkdate 2024 5 20) 0%nat (Some 2024%Z)
                   (Some 5%Z) [mkframe true None two_day_month]))
    as [v|e] eqn:E; [|vm_compute in E; discriminate].
  exists v. split; [reflexivity|].
  pose proof (weekend_and_weekday_spending_add_up _ _ _ _ _ v E) as H.
  vm_compute in E. injection E as <-.
  cbn [weekend_vs_weekday view_patterns] in H |- *. apply H.
Defined.

Lemma weeks_cover {A : Type} (n k : nat) (pre l : list A) :
  List.length pre = (7 * k)%nat -> List.length l = (7 * n)%nat ->
  List.concat (map (fun w => firstn 7 (skipn (7 * w) (pre ++ l))) (seq k n)) = l
  /\ Forall (fun week => List.length week = 7%nat)
            (map (fun w => firstn 7 (skipn (7 * w) (pre ++ l))) (seq k n)).
Proof.
  revert k pre l. induction n as [|n IH]; intros k pre l Hp Hl.
  - destruct l; [split; [reflexivity | constructor] | cbn in Hl; lia].
  - cbn [seq map List.concat].
    assert (E : skipn (7 * k) (pre ++ l) = l).
    { rewrite <- Hp, skipn_app, skipn_all, Nat.sub_diag. reflexivity. }
    rewrite E.
    assert (S7 : (pre ++ l = (pre ++ firstn 7 l) ++ skipn 7 l)%list)
      by (now rewrite <- app_assoc, firstn_skipn).
    rewrite S7.
    destruct (IH (S k) (pre ++ firstn 7 l)%list (skipn 7 l)) as [C F].
    + rewrite length_app, length_firstn. lia.
    + rewrite length_skipn. lia.
    + split.
      * rewrite C. apply firstn_skipn.
      * constructor; [rewrite length_firstn; lia | exact F].
Qed.

(** X27.  The calendar matrix raises exactly for a month outside
    1..12, and what it raises is [IllegalMonthError].  Otherwise every
    week has seven cells and the cells that are not empty, read in
    order, are the days from 1 to the last day of the month. *)
Theorem calendar_matrix_lists_the_days_of_the_month
  (summary : list (Z * day_summary)) (y m : Z) :
  let shown_year :=
    if ((1 <=? y) && (y <=? 9999))%Z then y else (2000 + y mod 400)%Z in
  match _create_calendar_matrix summary y m with
  | Ok matrix =>
      (1 <= m <= 12)%Z
      /\ Forall (fun week => List.length week = 7%nat) matrix
      /\ map cell_day
           (filter (fun c => negb (empty c)) (List.concat matrix))
         = map Z.of_nat (seq 1 (Z.to_nat (days_in_month shown_year m)))
  | Raise e => e = IllegalMonthError /\ ~ (1 <= m <= 12)%Z
  end.
Proof.
  intros shown_year. unfold _create_calendar_matrix, monthcalendar.
  destruct ((1 <=? m) && (m <=? 12))%Z eqn:M.
  2:{ split; [reflexivity|]. intros H.
      apply andb_false_iff in M. destruct M as [M|M];
        [apply Z.leb_gt in M | apply Z.leb_gt in M]; lia. }
  apply andb_prop in M. destruct M as [M1 M2].
  apply Z.leb_le in M1, M2. fold shown_year.
  set (lead := Z.to_nat (weekday (mkdate shown_year m 1))).
  set (ndays := Z.to_nat (days_in_month shown_year m)).
  set (nweeks := ((lead + ndays + 6) / 7)%nat).
  set (days := (repeat 0%Z lead ++ map Z.of_nat (seq 1 ndays)
                ++ repeat 0%Z (7 * nweeks - (lead + ndays)))%list).
  assert (L : List.length days = (7 * nweeks)%nat).
  { unfold days. rewrite !length_app, !repeat_length, length_map, length_seq.
    assert ((lead + ndays <= 7 * nweeks)%nat).
    { unfold nweeks.
      pose proof (Nat.div_mod_eq (lead + ndays + 6) 7).
      pose proof (Nat.mod_upper_bound (lead + ndays + 6) 7). lia. }
    lia. }
  destruct (weeks_cover nweeks 0 [] days eq_refl L) as [C F].
  cbn [app] in C, F.
  split; [lia|]. split.
  - rewrite Forall_map in F. apply Forall_map, Forall_map.
    eapply Forall_impl; [|exact F]. cbn. intros w H.
    now rewrite length_map.
  - match goal with
    | |- context [map (map ?f) _] => set (cellf := f)
    end.
    rewrite <- concat_map, C. unfold days.
    assert (Z0 : forall n,
               filter (fun c => negb (empty c)) (map cellf (repeat 0%Z n))
               = []).
    { induction n as [|n IH]; [reflexivity | exact IH]. }
    assert (D : forall n a, (1 <= a)%nat ->
               map cell_day
                 (filter (fun c => negb (empty c))
                    (map cellf (map Z.of_nat (seq a n))))
               = map Z.of_nat (seq a n)).
    { induction n as [|n IH]; intros a Ha; [reflexivity|].
      cbn [seq map]. unfold cellf at 1.
      replace (Z.of_nat a =? 0)%Z with false
        by (symmetry; apply Z.eqb_neq; lia).
      destruct (lookup Z.compare (Z.of_nat a) summary);
        cbn [filter empty negb map cell_day]; f_equal; apply IH; lia. }
    rewrite !map_app, !filter_app, !Z0, app_nil_r. cbn [app].
    apply D. lia.
Qed.
End CalendarLaws.

(* ================================================================= *)
(** ** The cleaning steps *)

Module DataLaws.
Import DataProcessor NumFacts.
Local Open Scope string_scope.

Lemma dropna_as_raw l : dropna (map as_raw l) = l.
Proof.
  induction l as [|[d s a c] l IH]; [reflexivity|].
  cbn [map dropna flat_map as_raw complete raw_date raw_description
       raw_amount raw_category tdate description amount category app].
  f_equal. exact IH.
Qed.

Lemma filter_twice_idem {A : Type} (p q : A -> bool) l :
  filter p (filter q (filter p (filter q l))) = filter p (filter q l).
Proof.
  induction l as [|x l IH]; [reflexivity|]. cbn [filter].
  destruct (q x) eqn:Q; [|exact IH]. cbn [filter].
  destruct (p x) eqn:P; [|exact IH]. cbn [filter]. rewrite Q. cbn [filter].
  rewrite P. now f_equal.
Qed.

(** X28.  What [_remove_invalid_transactions] keeps has an amount
    other than zero and a date not after now, and cleaning the cleaned
    rows again changes nothing.  Every kept row is either a debit or a
    credit; the derived transaction type says which, and the absolute
    amount is positive.  In the summary statistics of the cleaned rows
    debits plus credits is the net amount. *)
Theorem cleaned_rows_are_debits_or_credits (now : date) (l : list raw) :
  let cleaned := _remove_invalid_transactions now l in
  Forall (fun r => ~ amount r == 0
                      /\ (toordinal (tdate r) <= toordinal now)%Z)
            cleaned
  /\ _remove_invalid_transactions now (map as_raw cleaned) = cleaned
  /\ (List.length (debits cleaned) + List.length (credits cleaned)
      = List.length cleaned)%nat
  /\ Forall (fun e =>
               0 < abs_amount (snd e)
               /\ (transaction_type (snd e) = "debit"
                   <-> amount (fst e) < 0)
               /\ (transaction_type (snd e) = "credit"
                   <-> 0 < amount (fst e)))
            (_add_derived_columns cleaned)
  /\ total_debits (get_summary_stats cleaned)
     + total_credits (get_summary_stats cleaned)
     == net_amount (get_summary_stats cleaned).
Proof.
  cbv zeta. unfold _remove_invalid_transactions.
  set (nonzero := fun r : txn => negb (Qeq_bool (amount r) 0)).
  set (past := fun r : txn => (toordinal (tdate r) <=? toordinal now)%Z).
  assert (V : Forall (fun r => ~ amount r == 0
                               /\ (toordinal (tdate r) <= toordinal now)%Z)
                (filter past (filter nonzero (dropna l)))).
  { apply Forall_forall. intros r I. apply filter_In in I.
    destruct I as [I P]. apply filter_In in I. destruct I as [_ N].
    unfold nonzero, past in *. split.
    - apply negb_true_iff in N. now apply Qeq_bool_neq in N.
    - now apply Z.leb_le in P. }
  split; [exact V|]. split; [|split; [|split]].
  4:{ cbn [get_summary_stats total_debits total_credits net_amount].
      rewrite Qplus_comm. apply credits_plus_debits. }
  - rewrite dropna_as_raw. apply filter_twice_idem.
  - induction V as [|r rest [Hr _] _ IH]; [reflexivity|].
    unfold debits, credits in *. cbn [filter].
    destruct (Qltb (amount r) 0) eqn:N, (Qltb 0 (amount r)) eqn:P;
      cbn [List.length].
    + apply Qltb_lt in N, P. lra.
    + lia.
    + lia.
    + apply Qltb_ge in N, P. exfalso. apply Hr. lra.
  - unfold _add_derived_columns. apply Forall_map.
    eapply Forall_impl; [|exact V]. cbn beta. intros r [Hr _].
    cbn [fst snd abs_amount transaction_type].
    split; [|split].
    + pose proof (Qabs_nonneg (amount r)).
      destruct (Qeq_dec (Qabs (amount r)) 0) as [E|E]; [|lra].
      exfalso. apply Hr. revert E. apply Qabs_case; intros; lra.
    + destruct (Qltb 0 (amount r)) eqn:P.
      * apply Qltb_lt in P. split; [discriminate | lra].
      * apply Qltb_ge in P. split; [intros _|reflexivity].
        destruct (Qeq_dec (amount r) 0); [contradiction | lra].
    + destruct (Qltb 0 (amount r)) eqn:P.
      * apply Qltb_lt in P. split; [intros _; exact P | reflexivity].
      * apply Qltb_ge in P. split; [discriminate | lra].
Qed.
End DataLaws.

(* ================================================================= *)
(** ** File names *)

Module UtilsLaws.
Import Utils.

Lemma replace_invalid_length s :
  List.length (replace_invalid s) = List.length s.
Proof. apply length_map. Qed.

Lemma replace_invalid_valid s :
  Forall (fun c => is_invalid c = false) (replace_invalid s).
Proof.
  induction s as [|c s IH]; cbn [replace_invalid map]; constructor;
    [|exact IH].
  destruct (is_invalid c) eqn:E; [reflexivity | exact E].
Qed.

Lemma replace_invalid_fixed s :
  Forall (fun c => is_invalid c = false) s ->
  replace_invalid s = s.
Proof.
  induction s as [|c s IH]; cbn [replace_invalid map]; intros H;
    [reflexivity|].
  inversion H as [|? ? Hc Hs]; subst. rewrite Hc. f_equal. now apply IH.
Qed.

Lemma sanitize_filename_valid s :
  Forall (fun c => is_invalid c = false) (sanitize_filename s).
Proof.
  unfold sanitize_filename. cbv zeta.
  pose proof (replace_invalid_valid s) as V.
  destruct (100 <? _)%nat; [|exact V].
  apply Forall_forall. intros c I.
  apply in_firstn in I. rewrite Forall_forall in V. now apply V.
Qed.

Lemma sanitize_filename_length s :
  List.length (sanitize_filename s) = Nat.min 100 (List.length s).
Proof.
  unfold sanitize_filename. cbv zeta.
  destruct (100 <? List.length (replace_invalid s))%nat eqn:E.
  - now rewrite length_firstn, replace_invalid_length.
  - apply Nat.ltb_ge in E. rewrite replace_invalid_length in *. lia.
Qed.

Lemma sanitize_filename_prefix s :
  sanitize_filename s = firstn 100 (replace_invalid s).
Proof.
  unfold sanitize_filename. cbv zeta.
  destruct (100 <? List.length (replace_invalid s))%nat eqn:E;
    [reflexivity|].
  apply Nat.ltb_ge in E. symmetry. now apply firstn_all2.
Qed.

(** X29.  A sanitized file name is the first 100 characters of the name
    with each of the nine forbidden characters replaced by an
    underscore, characters being Unicode code points: its length is the
    length of the name capped at 100, every character of it is the
    character of the name at the same place or an underscore standing
    for a forbidden one, it holds no forbidden character, sanitizing it
    again changes nothing, and a name of at most 100 characters without
    forbidden characters is returned as it is.  A name of sixty letters
    e with an acute accent, 120 bytes in UTF-8, comes back unchanged. *)
Theorem sanitized_filename_is_safe (filename : str) :
  let out := sanitize_filename filename in
  List.length out = Nat.min 100 (List.length filename)
  /\ (forall i c, nth_error out i = Some c ->
        exists c0, nth_error filename i = Some c0
                   /\ c = (if is_invalid c0 then underscore else c0))
  /\ Forall (fun c => is_invalid c = false) out
  /\ sanitize_filename out = out
  /\ ((List.length filename <= 100)%nat ->
      Forall (fun c => is_invalid c = false) filename ->
      out = filename)
  /\ sanitize_filename (repeat 233%N 60) = repeat 233%N 60.
Proof.
  cbv zeta. split; [apply sanitize_filename_length|].
  split.
  { intros i c H. rewrite sanitize_filename_prefix in H.
    rewrite nth_error_firstn in H.
    destruct (i <? 100)%nat; [|discriminate].
    unfold replace_invalid in H. rewrite nth_error_map in H.
    destruct (nth_error filename i) as [c0|]; [|discriminate].
    exists c0. split; [reflexivity|]. now inversion H. }
  split; [apply sanitize_filename_valid|]. split.
  - pose proof (sanitize_filename_valid filename) as V.
    pose proof (sanitize_filename_length filename) as L.
    set (out := sanitize_filename filename) in *.
    unfold sanitize_filename at 1. cbv zeta.
    rewrite (replace_invalid_fixed out V).
    replace (100 <? List.length out)%nat with false; [reflexivity|].
    symmetry. apply Nat.ltb_ge. lia.
  - split; [|reflexivity].
    intros L V. unfold sanitize_filename. cbv zeta.
    rewrite (replace_invalid_fixed filename V).
    replace (100 <? List.length filename)%nat with false; [reflexivity|].
    symmetry. apply Nat.ltb_ge. lia.
Qed.

End UtilsLaws.

(* ================================================================= *)
(** ** Windows of time *)

Module WindowLaws.
Import ConversationHandler.
Local Open Scope Z_scope.

Lemma days_before_next_year y :
  days_before_year y
  = days_before_year (y - 1) + 365 + (if is_leap (y - 1) then 1 else 0).
Proof.
  unfold days_before_year, is_leap. cbv zeta.
  replace (y - 1 - 1) with (y - 2) by lia.
  destruct (Z.eqb_spec ((y - 1) mod 4) 0) as [A|A];
  destruct (Z.eqb_spec ((y - 1) mod 100) 0) as [B|B];
  destruct (Z.eqb_spec ((y - 1) mod 400) 0) as [C|C];
  cbn [negb andb orb]; Z.div_mod_to_equations; lia.
Qed.

Lemma days_before_next_month y m :
  2 <= m <= 12 ->
  days_before_month y m
  = days_before_month y (m - 1) + days_in_month y (m - 1).
Proof.
  intros H.
  assert (C : m = 2 \/ m = 3 \/ m = 4 \/ m = 5 \/ m = 6 \/ m = 7 \/ m = 8
              \/ m = 9 \/ m = 10 \/ m = 11 \/ m = 12) by lia.
  unfold days_before_month, days_in_month.
  repeat (destruct C as [->|C]; [destruct (is_leap y); reflexivity|]).
  subst. destruct (is_leap y); reflexivity.
Qed.

Lemma days_before_december y :
  days_before_month y 12 = 334 + (if is_leap y then 1 else 0).
Proof.
  unfold days_before_month, days_in_month.
  destruct (is_leap y); reflexivity.
Qed.

(** [prev_day] is the day before: the ordinal goes down by one. *)
Lemma toordinal_prev_day d :
  1 <= month d <= 12 -> 1 <= day d ->
  toordinal (prev_day d) = toordinal d - 1.
Proof.
  intros M D. unfold prev_day, toordinal.
  destruct (Z.ltb_spec 1 (day d)) as [H|H]; cbn [year month day]; [lia|].
  destruct (Z.ltb_spec 1 (month d)) as [H'|H']; cbn [year month day].
  - rewrite (days_before_next_month (year d) (month d)) by lia. lia.
  - replace (month d) with 1 by lia.
    rewrite (days_before_next_year (year d)), days_before_december.
    change (days_before_month (year d) 1) with 0. lia.
Qed.

Lemma earlier_in_the_month (n : nat) d :
  Z.of_nat n < day d ->
  Nat.iter n prev_day d = mkdate (year d) (month d) (day d - Z.of_nat n).
Proof.
  induction n as [|n IH]; intros H.
  - cbn [Nat.iter]. change (Z.of_nat 0) with 0. rewrite Z.sub_0_r.
    now destruct d.
  - rewrite Nat.iter_succ, IH by lia. unfold prev_day.
    cbn [year month day].
    replace (1 <? day d - Z.of_nat n) with true
      by (symmetry; apply Z.ltb_lt; lia).
    f_equal. lia.
Qed.

Lemma filter_nothing {A : Type} (p : A -> bool) l :
  (forall x, p x = false) -> filter p l = [].
Proof.
  intros H. induction l as [|x l IH]; [reflexivity|].
  cbn [filter]. now rewrite H.
Qed.

(** X30.  Two month windows lose rows.  On the 31st of a month the
    window of the last month is empty: it starts on the first of the
    current month and ends the day before.  With a time of day after
    midnight the window of the current month leaves out the first of the
    month: it holds the rows after the first and up to today. *)
Theorem month_windows_lose_rows (now : datetime) (l : list txn) :
  1 <= month (on now) <= 12 ->
  (day (on now) = 31 ->
   _filter_by_time_period now l (Some "last_month"%string) = [])
  /\ (0 < time_of_day now ->
      _filter_by_time_period now l (Some "current_month"%string)
      = filter
          (fun r =>
             (toordinal (mkdate (year (on now)) (month (on now)) 1)
              <? toordinal (tdate r))
             && (toordinal (tdate r) <=? toordinal (on now)))
          l).
Proof.
  intros M. split.
  - intros D. unfold _filter_by_time_period.
    cbn [String.eqb Ascii.eqb Bool.eqb period_bounds].
    apply filter_nothing. intros r.
    unfold minus_days, replace_day_1. cbn [on time_of_day].
    rewrite (earlier_in_the_month 30) by (rewrite D; reflexivity).
    unfold Nat.iter. cbn [year month day nat_rect].
    set (first := mkdate (year (on now)) (month (on now)) 1).
    pose proof (toordinal_prev_day first M ltac:(cbn; lia)) as P.
    unfold datetime_leb, midnight. cbn [on time_of_day].
    destruct (Z.ltb_spec (toordinal first) (toordinal (tdate r)));
    destruct (Z.eqb_spec (toordinal first) (toordinal (tdate r)));
    destruct (Z.ltb_spec (toordinal (tdate r)) (toordinal (prev_day first)));
    destruct (Z.eqb_spec (toordinal (tdate r)) (toordinal (prev_day first)));
    destruct (time_of_day now <=? 0); destruct (0 <=? time_of_day now);
    cbn [orb andb]; try reflexivity; lia.
  - intros T. unfold _filter_by_time_period.
    cbn [String.eqb Ascii.eqb Bool.eqb period_bounds].
    apply filter_ext. intros r.
    unfold datetime_leb, midnight, replace_day_1. cbn [on time_of_day].
    set (first := mkdate (year (on now)) (month (on now)) 1).
    replace (time_of_day now <=? 0) with false
      by (symmetry; apply Z.leb_gt; lia).
    replace (0 <=? time_of_day now) with true
      by (symmetry; apply Z.leb_le; lia).
    rewrite andb_false_r, orb_false_r, andb_true_r. f_equal.
    destruct (Z.ltb_spec (toordinal (tdate r)) (toordinal (on now)));
    destruct (Z.eqb_spec (toordinal (tdate r)) (toordinal (on now)));
    destruct (Z.leb_spec (toordinal (tdate r)) (toordinal (on now)));
    cbn [orb]; try reflexivity; lia.
Qed.

Lemma month_windows_witness :
  _filter_by_time_period noon_31_may around_first_of_may
    (Some "last_month"%string) = []
  /\ _filter_by_time_period noon_31_may around_first_of_may
       (Some "current_month"%string)
     = [ mktxn (mkdate 2024 5 2) "Groceries" (-60) "" ].
Proof.
  destruct (month_windows_lose_rows noon_31_may around_first_of_may)
    as [A B]; [cbn; lia|].
  split.
  - apply A. reflexivity.
  - rewrite B by (cbn; lia). reflexivity.
Defined.
End WindowLaws.
